(** * Loss functions and metric hooks of [splade/hf/trainers.py]

  A shallow embedding of the trainer classes of
  [src/splade/hf/trainers.py] and of the tensor operations they call.

  Conventions of the embedding.
  - A finite float is idealised as a real number ([R]); rounding is not
    modelled.  A float result that is not finite (the [nan] of a mean over
    no element, the [inf] of a division by zero) is the scalar [None]:
    every arithmetic operation of the code propagates it.
  - A tensor is a nested list in row-major order: rank 1 is [list R],
    rank 2 a list of rows, rank 3 a list of matrices.  A tensor whose
    leading dimension is empty does not carry its trailing dimensions;
    the statements below that depend on them assume a non-empty batch.
  - Python dictionaries are [gmap string _]; a method that mutates [self]
    or a dictionary argument is a computation in a state-and-exception
    monad over the pair of the two. *)

From Stdlib Require Import Reals Lra Lia Ascii String.
From stdpp Require Import gmap strings list.

#[local] Open Scope R_scope.

(** ** Exceptions and the state-and-exception monad *)

Inductive exn : Type :=
| KeyError (key : string)
| AttributeError (attr : string)
| RuntimeError
| FileNotFoundError (path : string).

Inductive outcome (A : Type) : Type :=
| Ok (a : A)
| Raise (e : exn).
Arguments Ok {A} a.
Arguments Raise {A} e.

#[global] Instance outcome_ret : MRet outcome := λ A a, Ok a.
#[global] Instance outcome_bind : MBind outcome := λ A B f m,
  match m with Ok a => f a | Raise e => Raise e end.

Definition M (S A : Type) : Type := S → outcome A * S.

#[global] Instance M_ret {S} : MRet (M S) := λ A a s, (Ok a, s).
#[global] Instance M_bind {S} : MBind (M S) := λ A B f m s,
  match m s with
  | (Ok a, s') => f a s'
  | (Raise e, s') => (Raise e, s')
  end.

Definition raise {S A} (e : exn) : M S A := λ s, (Raise e, s).
Definition get {S} : M S S := λ s, (Ok s, s).
Definition modify {S} (f : S → S) : M S unit := λ s, (Ok tt, f s).
Definition lift {S A} (o : outcome A) : M S A := λ s, (o, s).

(** [try: body except: pass] with a bare [except]. *)
Definition try_pass {S} (body : M S unit) : M S unit := λ s,
  match body s with
  | (Ok u, s') => (Ok u, s')
  | (Raise _, s') => (Ok tt, s')
  end.

(** ** Scalars *)

(** A zero-dimensional float: [Some r] is finite, [None] is [nan] or [inf]. *)
Abbreviation scalar := (option R).

Definition sadd (a b : scalar) : scalar := x ← a; y ← b; Some (x + y).
Definition sscale (c : R) (a : scalar) : scalar := Rmult c <$> a.

(** [1 / x]: [inf] at zero. *)
Definition srecip (x : R) : scalar :=
  if Req_dec_T x 0 then None else Some (1 / x).

(** ** Tensor operations *)

Module torch.

Abbreviation T1 := (list R).
Abbreviation T2 := (list (list R)).
Abbreviation T3 := (list (list (list R))).

(** [torch.sum] over every element. *)
Fixpoint sum (v : list R) : R :=
  match v with
  | [] => 0
  | x :: v' => x + sum v'
  end.

(** [Tensor.mean()] of a rank-1 tensor; [nan] when it has no element. *)
Definition mean (v : list R) : scalar :=
  match v with
  | [] => None
  | _ :: _ => Some (sum v / INR (length v))
  end.

(** [t.mean(dim=1)] of a rank-2 tensor: not finite as soon as one row is
    empty. *)
Definition mean_dim1 (t : T2) : option T1 := mapM mean t.

(** [torch.sum] over every element of a rank-3 tensor. *)
Definition sum_all (t : list (list (list R))) : R := sum (concat (concat t)).

(** [t.sum(dim=1)] and [torch.sum(t, dim=-1)] of a rank-2 tensor. *)
Definition sum_dim1 (t : T2) : T1 := map sum t.

(** [torch.abs] of a rank-2 tensor. *)
Definition abs (t : T2) : T2 := map (map Rabs) t.

(** Number of columns of a rank-2 tensor that has a row. *)
Definition size1 (t : T2) : nat := length (hd [] t).

(** [t.size(2)] of a rank-3 tensor that has a row. *)
Definition size2 (t : T3) : nat := length (hd [] (hd [] t)).

(** [t[:, j]] of a rank-2 tensor with more than [j] columns. *)
Definition column (j : nat) (t : T2) : T1 := map (λ row, nth j row 0) t.

(** [torch.mean(t, dim=0)] of a rank-2 tensor. *)
Definition mean_dim0 (t : T2) : option T1 :=
  mapM (λ j, mean (column j t)) (seq 0 (size1 t)).

(** [t.T] of a rank-2 tensor with [ncols] columns. *)
Definition transpose (ncols : nat) (t : T2) : T2 :=
  map (λ j, column j t) (seq 0 ncols).

(** [torch.permute(t, [0,2,1])]. *)
Definition permute_021 (t : T3) : T3 := map (transpose (size2 t)) t.

(** The dot product of two vectors of the same length. *)
Definition dot (u v : T1) : R := sum (zip_with Rmult u v).

(** [torch.matmul] of two rank-2 tensors. *)
Definition matmul (a b : T2) : T2 :=
  map (λ row, map (λ j, dot row (column j b)) (seq 0 (size1 b))) a.

(** [torch.bmm]. *)
Definition bmm (a b : T3) : T3 := zip_with matmul a b.

(** [t.squeeze(1)] of a rank-3 tensor whose dimension 1 has size one. *)
Definition squeeze1 (t : T3) : T2 := map (hd []) t.

(** [t.reshape(-1, d)] of a rank-3 tensor whose last dimension is [d]:
    the rows one after the other.  With [d = 0] the tensor has no element
    and the size of the free dimension is ambiguous. *)
Definition reshape_rows (d : nat) (t : T3) : outcome T2 :=
  if decide (d = 0%nat) then Raise RuntimeError
  else Ok (concat t).

(** [t.view(rows, cols)] of a contiguous tensor given by its elements. *)
Fixpoint chunks (rows cols : nat) (flat : list R) : T2 :=
  match rows with
  | O => []
  | S r => take cols flat :: chunks r cols (drop cols flat)
  end.

Definition view (rows cols : nat) (flat : list R) : outcome T2 :=
  if decide (length flat = (rows * cols)%nat) then Ok (chunks rows cols flat)
  else Raise RuntimeError.

(** [t.view(-1, cols)]. *)
Definition view_rows (cols : nat) (flat : list R) : outcome T2 :=
  if decide (cols ≠ 0%nat ∧ (length flat mod cols = 0)%nat)
  then Ok (chunks (length flat / cols) cols flat)
  else Raise RuntimeError.

(** [torch.cat([a, b], dim=1)]. *)
Definition cat_dim1 (a b : T2) : T2 := zip_with app a b.

(** [p - n] where [p] has one column, broadcast over the columns of [n]. *)
Definition sub_broadcast (p n : T2) : T2 :=
  zip_with (λ prow nrow, map (λ x, hd 0 prow - x) nrow) p n.

(** Softmax and log-softmax of one row, by their definitions on the reals. *)
Definition softmax_row (v : T1) : T1 :=
  map (λ x, exp x / sum (map exp v)) v.

Definition log_softmax_row (v : T1) : T1 :=
  map (λ x, x - ln (sum (map exp v))) v.

(** [torch.softmax(t, dim=1)] and [torch.log_softmax(t, dim=1)]. *)
Definition softmax (t : T2) : T2 := map softmax_row t.
Definition log_softmax (t : T2) : T2 := map log_softmax_row t.

(** [t * c] for a number [c]. *)
Definition mul_scalar (t : T2) (c : R) : T2 := map (map (λ x, x * c)) t.

(** [torch.zeros(n).long()]. *)
Definition zeros_long (n : nat) : list nat := replicate n 0%nat.

(** [torch.nn.CrossEntropyLoss()], reduction [mean]. *)
Definition CrossEntropyLoss (input : T2) (target : list nat) : scalar :=
  mean (zip_with (λ row y, - nth y (log_softmax_row row) 0) input target).

(** [torch.nn.MSELoss(reduction="none")]. *)
Definition MSELoss (input target : T2) : T2 :=
  zip_with (zip_with (λ x y, (x - y) ^ 2)) input target.

(** [torch.xlogy]: zero where [x] is zero. *)
Definition xlogy (x y : R) : R :=
  if Req_dec_T x 0 then 0 else x * ln y.

(** [torch.nn.KLDivLoss(reduction="none")]: the input holds
    log-probabilities, the target probabilities. *)
Definition KLDivLoss (input target : T2) : T2 :=
  zip_with (zip_with (λ x t, xlogy t t - t * x)) input target.

(** [torch.count_nonzero(t, dim=-1)] of a rank-2 tensor. *)
Fixpoint count_nonzero_row (v : T1) : nat :=
  match v with
  | [] => 0
  | x :: v' => if Req_dec_T x 0 then count_nonzero_row v' else S (count_nonzero_row v')
  end.

Definition count_nonzero (t : T2) : list nat := map count_nonzero_row t.

(** [t.float()] of an integer tensor. *)
Definition float (t : list nat) : T1 := map INR t.

(** [torch.nn.ReLU] on one number. *)
Definition relu (x : R) : R := Rmax 0 x.

(** [torch.log(1 + relu(t))] of a rank-3 tensor. *)
Definition log1p_relu (t : T3) : T3 := map (map (map (λ x, ln (1 + relu x)))) t.

(** [t * mask.unsqueeze(-1)]: row [l] of batch element [b] is multiplied by
    [mask[b][l]]. *)
Definition mul_unsqueeze (t : T3) (mask : T2) : T3 :=
  zip_with (zip_with (λ row m, map (λ x, x * m) row)) t mask.

(** The largest element of a vector; a reduction over no element raises,
    which is [None]. *)
Definition max_list (v : T1) : option R :=
  match v with
  | [] => None
  | x :: v' => Some (fold_left Rmax v' x)
  end.

(** The values of [torch.max(t, dim=1)] on a rank-3 tensor: for each batch
    element the largest entry of each column.  [None] when it raises, on a
    dimension 1 of size zero. *)
Definition max_dim1 (t : T3) : option T2 :=
  mapM (λ m, match m with
             | [] => None
             | _ :: _ => mapM (λ j, max_list (column j m)) (seq 0 (size1 m))
             end) t.

End torch.


(** ** Python dictionaries

    The state of a method is the pair of [self] and of the dictionary it
    receives, which the caller still holds after the call. *)

(** [d[k]] *)
Definition getitem {S V} (k : string) : M (S * gmap string V) V := λ s,
  match s.2 !! k with
  | Some v => (Ok v, s)
  | None => (Raise (KeyError k), s)
  end.

(** [del d[k]] *)
Definition delitem {S V} (k : string) : M (S * gmap string V) unit := λ s,
  match s.2 !! k with
  | Some _ => (Ok tt, (s.1, delete k s.2))
  | None => (Raise (KeyError k), s)
  end.

(** [d[k] = v] *)
Definition setitem {S V} (k : string) (v : V) : M (S * gmap string V) unit :=
  modify (λ s, (s.1, <[k := v]> s.2)).

Definition get_self {S D} : M (S * D) S := λ s, (Ok s.1, s).
Definition get_arg {S D} : M (S * D) D := λ s, (Ok s.2, s).
Definition set_self {S D} (f : S → S) : M (S * D) unit :=
  modify (λ s, (f s.1, s.2)).

(** The keyword arguments of a batch: tensors by name, each given by its
    elements. *)
Abbreviation batch := (gmap string torch.T1).

(** What [compute_loss] returns, by [return_outputs]. *)
Inductive returned (O : Type) : Type :=
| Loss (loss : scalar)
| LossAndOutputs (loss : scalar) (outputs : O).
Arguments Loss {O} loss.
Arguments LossAndOutputs {O} loss outputs.

Definition returned_loss {O} (r : returned O) : scalar :=
  match r with Loss l => l | LossAndOutputs l _ => l end.

(** ** The part of [transformers] the log hooks touch *)

Inductive pyval : Type :=
| PyFloat (x : scalar)
| PyInt (n : Z).

Abbreviation record := (gmap string pyval).

Record TrainerControl : Type := {
  should_training_stop : bool;
  should_epoch_stop : bool;
  should_save : bool;
  should_evaluate : bool;
  should_log : bool;
}.

Record TrainerState : Type := {
  epoch : option R;
  global_step : Z;
  log_history : list record;
}.

Definition append_log_history (output : record) (st : TrainerState) : TrainerState :=
  {| epoch := epoch st; global_step := global_step st;
     log_history := log_history st ++ [output] |}.

(** The attributes of [self.args] the trainers read or write. *)
Record TrainingArguments : Type := {
  l0d : R;
  l0q : R;
  output_dir : string;
  remove_unused_columns : bool;
}.

Definition set_remove_unused_columns (b : bool) (args : TrainingArguments) :
    TrainingArguments :=
  {| l0d := l0d args; l0q := l0q args; output_dir := output_dir args;
     remove_unused_columns := b |}.

(** [np.mean] of a Python list of floats: [nan] for the empty list and as
    soon as one element is not finite. *)
Definition np_mean (l : list scalar) : scalar :=
  mapM (M := option) (A := option R) (λ x, x) l ≫= torch.mean.

(** ** [class RerankerTrainer] *)

Module RerankerTrainer.

Record t : Type := { n_negatives : nat }.

(** [__init__]: the trainer and [self.args] once it has run. *)
Definition __init__ (n_negatives : nat) (args : TrainingArguments) : t * TrainingArguments :=
  ({| n_negatives := n_negatives |}, set_remove_unused_columns false args).

(** The output of a sequence-classification model: [logits] has one row per
    (query, candidate) pair and at least one column. *)
Record output : Type := { logits : torch.T2 }.

Definition compute_loss (self : t) (model : batch → output) (inputs : batch)
    (return_outputs : bool) : outcome (returned output) :=
  let output := model inputs in
  let logits := logits output in
  let cross_encoder_scores := torch.column 0 logits in
  cross_encoder_scores ← torch.view_rows (n_negatives self + 1) cross_encoder_scores;
  let labels := torch.zeros_long (length cross_encoder_scores) in
  let loss := torch.CrossEntropyLoss cross_encoder_scores labels in
  mret (if return_outputs then LossAndOutputs loss output else Loss loss).

End RerankerTrainer.

(** ** [class RerankerTrainer2] *)

Module RerankerTrainer2.

(** [last_celoss] and [last_distilloss] are attributes that [__init__] does
    not create: [None] until [compute_loss] has run once. *)
Record t : Type := {
  n_negatives : nat;
  mse_margin : bool;
  last_celoss : option scalar;
  last_distilloss : option scalar;
  state : TrainerState;
  control : TrainerControl;
  on_log : TrainerState → TrainerControl → record → TrainerControl;
}.

(** [__init__]: the trainer and [self.args] once it has run; the state, the
    control and the callback handler are those [Trainer.__init__] creates. *)
Definition __init__ (n_negatives : nat) (mse_margin : bool) (args : TrainingArguments)
    (state : TrainerState) (control : TrainerControl)
    (on_log : TrainerState → TrainerControl → record → TrainerControl) :
    t * TrainingArguments :=
  ({| n_negatives := n_negatives; mse_margin := mse_margin;
      last_celoss := None; last_distilloss := None;
      state := state; control := control; on_log := on_log |},
   set_remove_unused_columns false args).

Definition set_last_celoss (x : scalar) (self : t) : t :=
  {| n_negatives := n_negatives self; mse_margin := mse_margin self;
     last_celoss := Some x; last_distilloss := last_distilloss self;
     state := state self; control := control self; on_log := on_log self |}.

Definition set_last_distilloss (x : scalar) (self : t) : t :=
  {| n_negatives := n_negatives self; mse_margin := mse_margin self;
     last_celoss := last_celoss self; last_distilloss := Some x;
     state := state self; control := control self; on_log := on_log self |}.

Definition set_state (st : TrainerState) (self : t) : t :=
  {| n_negatives := n_negatives self; mse_margin := mse_margin self;
     last_celoss := last_celoss self; last_distilloss := last_distilloss self;
     state := st; control := control self; on_log := on_log self |}.

Definition set_control (c : TrainerControl) (self : t) : t :=
  {| n_negatives := n_negatives self; mse_margin := mse_margin self;
     last_celoss := last_celoss self; last_distilloss := last_distilloss self;
     state := state self; control := c; on_log := on_log self |}.

Definition getattr (name : string) (a : option scalar) : M (t * record) scalar :=
  match a with
  | Some x => mret x
  | None => raise (AttributeError name)
  end.

Section log.
(** The builtin [round(x, ndigits)]. *)
Variable round : R → Z → R.

Definition log : M (t * record) unit :=
  self ← get_self;
  match epoch (state self) with
  | Some e => setitem "epoch" (PyFloat (Some (round e 2)))
  | None => mret tt
  end;;
  ce ← getattr "last_celoss" (last_celoss self);
  setitem "ce_loss" (PyFloat ce);;
  distil ← getattr "last_distilloss" (last_distilloss self);
  setitem "distil_loss" (PyFloat distil);;
  logs ← get_arg;
  let output := <["step" := PyInt (global_step (state self))]> logs in
  set_self (λ self, set_state (append_log_history output (state self)) self);;
  set_self (λ self, set_control (on_log self (state self) (control self) logs) self).
End log.

(** Lines 77-95: the distillation term from the scores of the student and
    the teacher's scores. *)
Definition distillation (self : t) (cross_encoder_scores : torch.T2)
    (teacher_scores : torch.T1) : outcome scalar :=
  if mse_margin self then
    let scores_negative_student := map (drop 1) cross_encoder_scores in
    let scores_positive_student := map (take 1) cross_encoder_scores in
    let diff_student := torch.sub_broadcast scores_positive_student scores_negative_student in
    teacher_scores ← torch.view (length cross_encoder_scores)
                        (torch.size1 cross_encoder_scores) teacher_scores;
    let scores_negative_teacher := map (drop 1) teacher_scores in
    let scores_positive_teacher := map (take 1) teacher_scores in
    let diff_teacher := torch.sub_broadcast scores_positive_teacher scores_negative_teacher in
    mret (torch.mean_dim1 (torch.MSELoss diff_student diff_teacher) ≫= torch.mean)
  else
    let local_scores := torch.log_softmax cross_encoder_scores in
    teacher_scores ← torch.view (length cross_encoder_scores)
                        (torch.size1 cross_encoder_scores) teacher_scores;
    let teacher_scores := torch.softmax teacher_scores in
    mret (torch.mean (torch.sum_dim1 (torch.KLDivLoss local_scores teacher_scores))).

Definition compute_loss (model : batch → RerankerTrainer.output)
    (return_outputs : bool) : M (t * batch) (returned RerankerTrainer.output) :=
  teacher_scores ← getitem "scores";
  delitem "scores";;
  inputs ← get_arg;
  let output := model inputs in
  let logits := RerankerTrainer.logits output in
  let cross_encoder_scores := torch.column 0 logits in
  self ← get_self;
  cross_encoder_scores ← lift (torch.view_rows (n_negatives self + 1) cross_encoder_scores);
  let labels := torch.zeros_long (length cross_encoder_scores) in
  let loss := torch.CrossEntropyLoss cross_encoder_scores labels in
  distil_loss ← lift (distillation self cross_encoder_scores teacher_scores);
  set_self (set_last_celoss loss);;
  let loss := sadd (sscale 0.1 loss) (sscale 0.9 distil_loss) in
  set_self (set_last_distilloss distil_loss);;
  mret (if return_outputs then LossAndOutputs loss output else Loss loss).

End RerankerTrainer2.

(** ** [class BaseTrainer] *)

Module BaseTrainer.

(** [torch.sum(torch.mean(torch.abs(inputs), dim=0) ** 2)] *)
Definition _flops (inputs : torch.T2) : scalar :=
  (λ m, torch.sum (map (λ x, x ^ 2) m)) <$> torch.mean_dim0 (torch.abs inputs).

(** [torch.sum(torch.abs(batch_rep), dim=-1).mean()] *)
Definition _L1 (batch_rep : torch.T2) : scalar :=
  torch.mean (torch.sum_dim1 (torch.abs batch_rep)).

(** [torch.count_nonzero(batch_rep, dim=-1).float().mean()] *)
Definition _L0 (batch_rep : torch.T2) : scalar :=
  torch.mean (torch.float (torch.count_nonzero batch_rep)).

(** [splade_max]: [output] has shape (batch, tokens, vocabulary) and
    [attention_mask] shape (batch, tokens). *)
Definition splade_max (output : torch.T3) (attention_mask : torch.T2) : option torch.T2 :=
  torch.max_dim1 (torch.mul_unsqueeze (torch.log1p_relu output) attention_mask).

(** *** Checkpoints

    An encoder is an object on a heap, so that two attributes can denote the
    same encoder; what it holds is its state dictionary.  A file holds a
    state dictionary. *)

Record tensor : Type := { shape : list nat; data : list R }.

Abbreviation state_dict := (gmap string tensor).
Abbreviation loc := positive.

(** The dual-encoder model: its two encoders, its [shared_weights] and its
    attribute [_keys_to_ignore_on_save].  A plain [torch.nn.Module] has no
    such attribute ([None]); a [PreTrainedModel] has one, which is [None] or
    a list of keys. *)
Record model_obj : Type := {
  doc_encoder : loc;
  query_encoder : loc;
  shared_weights : bool;
  _keys_to_ignore_on_save : option (option (gset string));
}.

(** The result of [load_state_dict]. *)
Record IncompatibleKeys : Type := {
  missing_keys : gset string;
  unexpected_keys : gset string;
}.

(** What the trainer does with the result of a load: a warning of the
    logger about the missing keys or about the unexpected keys, or a call of
    the method [tie_weights] of the model. *)
Inductive report : Type :=
| MissingKeysWarning (keys : gset string)
| UnexpectedKeysWarning (keys : gset string)
| TieWeights (m : loc).

Record world : Type := {
  files : gmap string state_dict;
  encoders : gmap loc state_dict;
  models : gmap loc model_obj;
  warned : list report;
}.

Definition set_encoders (e : gmap loc state_dict) (w : world) : world :=
  {| files := files w; encoders := e; models := models w; warned := warned w |}.

Definition set_models (m : gmap loc model_obj) (w : world) : world :=
  {| files := files w; encoders := encoders w; models := m; warned := warned w |}.

Definition set_warned (l : list report) (w : world) : world :=
  {| files := files w; encoders := encoders w; models := models w; warned := l |}.

Record t : Type := { model : loc }.

Definition ends_with_slash (a : string) : bool :=
  match String.get (String.length a - 1) a with
  | Some c => bool_decide (c = "/"%char)
  | None => false
  end.

(** [os.path.join(a, b)] on a POSIX system. *)
Definition os_path_join (a b : string) : string :=
  if String.prefix "/" b then b
  else if bool_decide (a = "") then b
  else if ends_with_slash a then a +:+ b
  else a +:+ "/" +:+ b.

(** [torch.load(path, map_location="cpu")] *)
Definition torch_load (path : string) : M world state_dict := λ w,
  match files w !! path with
  | Some sd => (Ok sd, w)
  | None => (Raise (FileNotFoundError path), w)
  end.

(** The object a reference denotes; a reference of a well-formed heap
    denotes one. *)
Definition deref_model (m : loc) : M world model_obj := λ w,
  match models w !! m with
  | Some o => (Ok o, w)
  | None => (Raise (AttributeError "model"), w)
  end.

(** What [load_state_dict] leaves in a parameter: the entry of the state
    dictionary that has its name and its shape, itself otherwise. *)
Definition loaded (sd : state_dict) (k : string) (v : tensor) : tensor :=
  match sd !! k with
  | Some x => if decide (shape x = shape v) then x else v
  | None => v
  end.

Definition size_mismatch (sd : state_dict) (k : string) (v : tensor) : option unit :=
  match sd !! k with
  | Some x => if decide (shape x = shape v) then None else Some tt
  | None => None
  end.

(** The parameters of an encoder once a state dictionary is loaded. *)
Definition load_params (sd params : state_dict) : state_dict :=
  map_imap (λ k v, Some (loaded sd k v)) params.

(** [encoder.load_state_dict(state_dict, False)]: not strict on the names,
    an error on a parameter of another shape, raised once the others are
    copied. *)
Definition load_state_dict (encoder : loc) (sd : state_dict) : M world IncompatibleKeys := λ w,
  match encoders w !! encoder with
  | None => (Raise (AttributeError "encoder"), w)
  | Some params =>
      let w' := set_encoders (<[encoder := load_params sd params]> (encoders w)) w in
      if decide (map_imap (size_mismatch sd) params = ∅) then
        (Ok {| missing_keys := dom params ∖ dom sd;
               unexpected_keys := dom sd ∖ dom params |}, w')
      else (Raise RuntimeError, w')
  end.

(** [model.query_encoder = encoder] *)
Definition set_query_encoder (m : loc) (encoder : loc) : M world unit := λ w,
  match models w !! m with
  | Some o =>
      (Ok tt, set_models (<[m := {| doc_encoder := doc_encoder o; query_encoder := encoder;
                                    shared_weights := shared_weights o;
                                    _keys_to_ignore_on_save := _keys_to_ignore_on_save o |}]>
                            (models w)) w)
  | None => (Raise (AttributeError "model"), w)
  end.

Definition issue (r : report) : M world unit :=
  modify (λ w, set_warned (warned w ++ [r]) w).

(** [Trainer._issue_warnings_after_load] of transformers 4.26.1, the version
    the adapters of the imports are built on:
<<
    if len(load_result.missing_keys) != 0:
        if self.model._keys_to_ignore_on_save is not None and set(
            load_result.missing_keys) == set(self.model._keys_to_ignore_on_save):
            self.model.tie_weights()
        else:
            logger.warning(... missing keys ...)
    if len(load_result.unexpected_keys) != 0:
        logger.warning(... unexpected keys ...)
>>
    It reads the attribute of [self.model], also when another model is
    loaded; on a model without the attribute the read raises.  The call of
    [tie_weights] is recorded as such. *)
Definition _issue_warnings_after_load (self : t) (load_result : IncompatibleKeys) :
    M world unit :=
  (if decide (missing_keys load_result = ∅) then mret tt
   else
     m ← deref_model (model self);
     match _keys_to_ignore_on_save m with
     | None => raise (AttributeError "_keys_to_ignore_on_save")
     | Some ignore =>
         if decide (ignore = Some (missing_keys load_result))
         then issue (TieWeights (model self))
         else issue (MissingKeysWarning (missing_keys load_result))
     end);;
  if decide (unexpected_keys load_result = ∅) then mret tt
  else issue (UnexpectedKeysWarning (unexpected_keys load_result)).

Definition _load_from_checkpoint (self : t) (resume_from_checkpoint : string)
    (model : option loc) : M world unit :=
  let model := match model with None => BaseTrainer.model self | Some m => m end in
  let WEIGHTS_NAME := "pytorch_model.bin" in
  state_dict ← torch_load (os_path_join resume_from_checkpoint WEIGHTS_NAME);
  m ← deref_model model;
  load_result ← load_state_dict (doc_encoder m) state_dict;
  m ← deref_model model;
  load_result ←
    (if shared_weights m then
       m ← deref_model model;
       set_query_encoder model (doc_encoder m);;
       mret load_result
     else
       state_dict ← torch_load
         (os_path_join (os_path_join resume_from_checkpoint "query") WEIGHTS_NAME);
       m ← deref_model model;
       load_state_dict (query_encoder m) state_dict);
  _issue_warnings_after_load self load_result.

End BaseTrainer.

(** What a dual-encoder model returns: the query vectors, of shape
    (batch, 1, dim), and the document vectors, of shape
    (batch, n_negatives + 1, dim). *)
Abbreviation dual_output := (torch.T3 * torch.T3)%type.

(** ** [class DistilTrainer] *)

Module DistilTrainer.

Record t : Type := {
  n_negatives : nat;
  lambda_d : R;
  lambda_q : R;
  last_celoss : list scalar;
  last_distilloss : list scalar;
  last_flops : list scalar;
  last_anti_zero : list scalar;
  last_docs : list scalar;
  last_queries : list scalar;
  mse_margin : bool;
  shared_weights : bool;
  splade_doc : bool;
  step : nat;
  dense : bool;
  state : TrainerState;
  control : TrainerControl;
  on_log : TrainerState → TrainerControl → record → TrainerControl;
}.

(** [__init__]: the trainer and [self.args] once it has run; the state, the
    control and the callback handler are those [Trainer.__init__] creates. *)
Definition __init__ (n_negatives : nat) (shared_weights mse_margin splade_doc dense : bool)
    (args : TrainingArguments) (state : TrainerState) (control : TrainerControl)
    (on_log : TrainerState → TrainerControl → record → TrainerControl) :
    t * TrainingArguments :=
  let args := set_remove_unused_columns false args in
  ({| n_negatives := n_negatives;
      lambda_d := l0d args;
      lambda_q := l0q args;
      last_celoss := [];
      last_distilloss := [];
      last_flops := [];
      last_anti_zero := [];
      last_docs := [];
      last_queries := [];
      mse_margin := mse_margin;
      shared_weights := shared_weights;
      splade_doc := splade_doc;
      step := 0;
      dense := dense;
      state := state;
      control := control;
      on_log := on_log |}, args).

(** The attributes a method assigns; the others are set by [__init__]. *)
Definition update (self : t)
    (last_celoss' last_distilloss' last_flops' last_anti_zero' last_docs'
     last_queries' : list scalar)
    (step' : nat) (state' : TrainerState) (control' : TrainerControl) : t :=
  {| n_negatives := n_negatives self;
     lambda_d := lambda_d self;
     lambda_q := lambda_q self;
     last_celoss := last_celoss';
     last_distilloss := last_distilloss';
     last_flops := last_flops';
     last_anti_zero := last_anti_zero';
     last_docs := last_docs';
     last_queries := last_queries';
     mse_margin := mse_margin self;
     shared_weights := shared_weights self;
     splade_doc := splade_doc self;
     step := step';
     dense := dense self;
     state := state';
     control := control';
     on_log := on_log self |}.

Definition incr_step (self : t) : t :=
  update self (last_celoss self) (last_distilloss self) (last_flops self)
    (last_anti_zero self) (last_docs self) (last_queries self) (S (step self))
    (state self) (control self).

Definition append_last_celoss (x : scalar) (self : t) : t :=
  update self (last_celoss self ++ [x]) (last_distilloss self) (last_flops self)
    (last_anti_zero self) (last_docs self) (last_queries self) (step self)
    (state self) (control self).

Definition append_last_distilloss (x : scalar) (self : t) : t :=
  update self (last_celoss self) (last_distilloss self ++ [x]) (last_flops self)
    (last_anti_zero self) (last_docs self) (last_queries self) (step self)
    (state self) (control self).

Definition append_last_flops (x : scalar) (self : t) : t :=
  update self (last_celoss self) (last_distilloss self) (last_flops self ++ [x])
    (last_anti_zero self) (last_docs self) (last_queries self) (step self)
    (state self) (control self).

Definition append_last_anti_zero (x : scalar) (self : t) : t :=
  update self (last_celoss self) (last_distilloss self) (last_flops self)
    (last_anti_zero self ++ [x]) (last_docs self) (last_queries self) (step self)
    (state self) (control self).

Definition append_last_docs (x : scalar) (self : t) : t :=
  update self (last_celoss self) (last_distilloss self) (last_flops self)
    (last_anti_zero self) (last_docs self ++ [x]) (last_queries self) (step self)
    (state self) (control self).

Definition append_last_queries (x : scalar) (self : t) : t :=
  update self (last_celoss self) (last_distilloss self) (last_flops self)
    (last_anti_zero self) (last_docs self) (last_queries self ++ [x]) (step self)
    (state self) (control self).

Definition reset_last_celoss (self : t) : t :=
  update self [] (last_distilloss self) (last_flops self) (last_anti_zero self)
    (last_docs self) (last_queries self) (step self) (state self) (control self).

Definition reset_last_distilloss (self : t) : t :=
  update self (last_celoss self) [] (last_flops self) (last_anti_zero self)
    (last_docs self) (last_queries self) (step self) (state self) (control self).

Definition reset_last_flops (self : t) : t :=
  update self (last_celoss self) (last_distilloss self) [] (last_anti_zero self)
    (last_docs self) (last_queries self) (step self) (state self) (control self).

Definition reset_last_anti_zero (self : t) : t :=
  update self (last_celoss self) (last_distilloss self) (last_flops self) []
    (last_docs self) (last_queries self) (step self) (state self) (control self).

Definition reset_last_docs (self : t) : t :=
  update self (last_celoss self) (last_distilloss self) (last_flops self)
    (last_anti_zero self) [] (last_queries self) (step self) (state self)
    (control self).

Definition reset_last_queries (self : t) : t :=
  update self (last_celoss self) (last_distilloss self) (last_flops self)
    (last_anti_zero self) (last_docs self) [] (step self) (state self) (control self).

Definition set_state (st : TrainerState) (self : t) : t :=
  update self (last_celoss self) (last_distilloss self) (last_flops self)
    (last_anti_zero self) (last_docs self) (last_queries self) (step self) st
    (control self).

Definition set_control (c : TrainerControl) (self : t) : t :=
  update self (last_celoss self) (last_distilloss self) (last_flops self)
    (last_anti_zero self) (last_docs self) (last_queries self) (step self)
    (state self) c.

Section log.
(** The builtin [round(x, ndigits)]. *)
Variable round : R → Z → R.

Definition log : M (t * record) unit :=
  self ← get_self;
  match epoch (state self) with
  | Some e => setitem "epoch" (PyFloat (Some (round e 2)))
  | None => mret tt
  end;;
  (if dense self then mret tt
   else
     setitem "L0_d" (PyFloat (np_mean (last_docs self)));;
     setitem "L0_q" (PyFloat (np_mean (last_queries self)));;
     setitem "flops_loss" (PyFloat (np_mean (last_flops self)));;
     setitem "anti-zero" (PyFloat (np_mean (last_anti_zero self))));;
  setitem "ce_loss" (PyFloat (np_mean (last_celoss self)));;
  setitem "distil_loss" (PyFloat (np_mean (last_distilloss self)));;
  set_self reset_last_docs;;
  set_self reset_last_queries;;
  set_self reset_last_flops;;
  set_self reset_last_anti_zero;;
  set_self reset_last_celoss;;
  set_self reset_last_distilloss;;
  logs ← get_arg;
  let output := <["step" := PyInt (global_step (state self))]> logs in
  set_self (λ self, set_state (append_log_history output (state self)) self);;
  set_self (λ self, set_control (on_log self (state self) (control self) logs) self).
End log.

(** [torch.bmm(queries, torch.permute(docs, [0,2,1])).squeeze(1)] *)
Definition pair_scores (queries docs : torch.T3) : torch.T2 :=
  torch.squeeze1 (torch.bmm queries (torch.permute_021 docs)).

(** The score rows of the contrastive loss, from [scores_positive] to
    [all_scores]. *)
Definition all_scores (queries docs : torch.T3) (scores : torch.T2) : outcome torch.T2 :=
  let scores_positive := map (take 1) scores in
  negatives ← torch.reshape_rows (torch.size2 docs) (map (drop 1) docs);
  let negatives := torch.transpose (torch.size2 docs) negatives in
  let scores_negative := torch.matmul (torch.squeeze1 queries) negatives in
  mret (torch.cat_dim1 scores_positive scores_negative).

(** [self.ce_loss(all_scores, labels).mean()] *)
Definition contrastive (queries docs : torch.T3) (scores : torch.T2) : outcome scalar :=
  all_scores ← all_scores queries docs scores;
  let labels := torch.zeros_long (length scores) in
  mret (torch.CrossEntropyLoss all_scores labels).

(** The regulariser the code calls [flops]. *)
Definition flops_term (self : t) (queries docs : torch.T3) : outcome scalar :=
  docs2 ← torch.reshape_rows (torch.size2 docs) docs;
  let flops := sscale (lambda_d self) (BaseTrainer._flops docs2) in
  mret (if splade_doc self then flops
        else sadd flops (sscale (lambda_q self) (BaseTrainer._L1 (torch.squeeze1 queries)))).

(** [1/(torch.sum(queries)**2) + 1/(torch.sum(docs)**2)].  The sums are
    taken over the reals, as everywhere in this file: the rounding of a
    float32 sum, which can bring a sum of entries that are not all zero to
    zero, is not part of the model. *)
Definition anti_zero_term (queries docs : torch.T3) : scalar :=
  sadd (srecip (torch.sum_all queries ^ 2)) (srecip (torch.sum_all docs ^ 2)).

(** [self._L0(rep.reshape(-1, rep.size(2)))] *)
Definition L0_of (rep : torch.T3) : outcome scalar :=
  rep2 ← torch.reshape_rows (torch.size2 rep) rep;
  mret (BaseTrainer._L0 rep2).

(** Lines 218-235: the distillation term. *)
Definition distillation (self : t) (scores : torch.T2) (teacher_scores : torch.T1) :
    outcome scalar :=
  if mse_margin self then
    let scores_negative_student := map (drop 1) scores in
    let scores_positive_student := map (take 1) scores in
    let margin_student := torch.sub_broadcast scores_positive_student scores_negative_student in
    teacher_scores ← torch.view (length scores) (torch.size1 scores) teacher_scores;
    let scores_negative_teacher := map (drop 1) teacher_scores in
    let scores_positive_teacher := map (take 1) teacher_scores in
    let margin_teacher := torch.sub_broadcast scores_positive_teacher scores_negative_teacher in
    mret (torch.mean_dim1 (torch.MSELoss margin_student margin_teacher) ≫= torch.mean)
  else
    let temperature := 1 in
    let student_scores := torch.log_softmax (torch.mul_scalar scores temperature) in
    teacher_scores ← torch.view (length scores) (torch.size1 scores) teacher_scores;
    let teacher_scores := torch.softmax (torch.mul_scalar teacher_scores temperature) in
    mret (torch.mean (torch.sum_dim1 (torch.KLDivLoss student_scores teacher_scores))).

Definition compute_loss (model : batch → dual_output) (return_outputs : bool) :
    M (t * batch) (returned (list dual_output)) :=
  teacher_scores ← getitem "scores";
  delitem "scores";;
  set_self incr_step;;
  inputs ← get_arg;
  let full_output := model inputs in
  let '(queries, docs) := full_output in
  let scores := pair_scores queries docs in
  self ← get_self;
  distil_loss ← lift (distillation self scores teacher_scores);
  ce_loss ← lift (contrastive queries docs scores);
  let loss := sadd (sscale 0.01 ce_loss) (sscale 0.99 distil_loss) in
  set_self (append_last_celoss ce_loss);;
  set_self (append_last_distilloss distil_loss);;
  loss ←
    (if dense self then mret loss
     else
       flops ← lift (flops_term self queries docs);
       let anti_zero := anti_zero_term queries docs in
       l0_d ← lift (L0_of docs);
       set_self (append_last_docs l0_d);;
       l0_q ← lift (L0_of queries);
       set_self (append_last_queries l0_q);;
       set_self (append_last_flops flops);;
       set_self (append_last_anti_zero anti_zero);;
       mret (sadd (sadd loss flops) anti_zero));
  mret (if return_outputs then LossAndOutputs loss [full_output] else Loss loss).

End DistilTrainer.

(** ** [class FirstStageTrainer] *)

Module FirstStageTrainer.

Record t : Type := {
  n_negatives : nat;
  lambda_d : R;
  lambda_q : R;
  last_celoss : list scalar;
  last_flops : list scalar;
  last_anti_zero : list scalar;
  last_docs : list scalar;
  last_queries : list scalar;
  shared_weights : bool;
  splade_doc : bool;
  step : nat;
  dense : bool;
  state : TrainerState;
  control : TrainerControl;
  on_log : TrainerState → TrainerControl → record → TrainerControl;
}.

(** [__init__]: the trainer and [self.args] once it has run; the state, the
    control and the callback handler are those [Trainer.__init__] creates. *)
Definition __init__ (n_negatives : nat) (shared_weights splade_doc dense : bool)
    (args : TrainingArguments) (state : TrainerState) (control : TrainerControl)
    (on_log : TrainerState → TrainerControl → record → TrainerControl) :
    t * TrainingArguments :=
  let args := set_remove_unused_columns false args in
  ({| n_negatives := n_negatives;
      lambda_d := l0d args;
      lambda_q := l0q args;
      last_celoss := [];
      last_flops := [];
      last_anti_zero := [];
      last_docs := [];
      last_queries := [];
      shared_weights := shared_weights;
      splade_doc := splade_doc;
      step := 0;
      dense := dense;
      state := state;
      control := control;
      on_log := on_log |}, args).

(** The attributes a method assigns; the others are set by [__init__]. *)
Definition update (self : t)
    (last_celoss' last_flops' last_anti_zero' last_docs' last_queries' : list scalar)
    (step' : nat) (state' : TrainerState) (control' : TrainerControl) : t :=
  {| n_negatives := n_negatives self;
     lambda_d := lambda_d self;
     lambda_q := lambda_q self;
     last_celoss := last_celoss';
     last_flops := last_flops';
     last_anti_zero := last_anti_zero';
     last_docs := last_docs';
     last_queries := last_queries';
     shared_weights := shared_weights self;
     splade_doc := splade_doc self;
     step := step';
     dense := dense self;
     state := state';
     control := control';
     on_log := on_log self |}.

Definition incr_step (self : t) : t :=
  update self (last_celoss self) (last_flops self) (last_anti_zero self)
    (last_docs self) (last_queries self) (S (step self)) (state self) (control self).

Definition append_last_celoss (x : scalar) (self : t) : t :=
  update self (last_celoss self ++ [x]) (last_flops self) (last_anti_zero self)
    (last_docs self) (last_queries self) (step self) (state self) (control self).

Definition append_last_flops (x : scalar) (self : t) : t :=
  update self (last_celoss self) (last_flops self ++ [x]) (last_anti_zero self)
    (last_docs self) (last_queries self) (step self) (state self) (control self).

Definition append_last_anti_zero (x : scalar) (self : t) : t :=
  update self (last_celoss self) (last_flops self) (last_anti_zero self ++ [x])
    (last_docs self) (last_queries self) (step self) (state self) (control self).

Definition append_last_docs (x : scalar) (self : t) : t :=
  update self (last_celoss self) (last_flops self) (last_anti_zero self)
    (last_docs self ++ [x]) (last_queries self) (step self) (state self)
    (control self).

Definition append_last_queries (x : scalar) (self : t) : t :=
  update self (last_celoss self) (last_flops self) (last_anti_zero self)
    (last_docs self) (last_queries self ++ [x]) (step self) (state self)
    (control self).

Definition reset_last_celoss (self : t) : t :=
  update self [] (last_flops self) (last_anti_zero self) (last_docs self)
    (last_queries self) (step self) (state self) (control self).

Definition reset_last_flops (self : t) : t :=
  update self (last_celoss self) [] (last_anti_zero self) (last_docs self)
    (last_queries self) (step self) (state self) (control self).

Definition reset_last_anti_zero (self : t) : t :=
  update self (last_celoss self) (last_flops self) [] (last_docs self)
    (last_queries self) (step self) (state self) (control self).

Definition reset_last_docs (self : t) : t :=
  update self (last_celoss self) (last_flops self) (last_anti_zero self) []
    (last_queries self) (step self) (state self) (control self).

Definition reset_last_queries (self : t) : t :=
  update self (last_celoss self) (last_flops self) (last_anti_zero self)
    (last_docs self) [] (step self) (state self) (control self).

Definition set_state (st : TrainerState) (self : t) : t :=
  update self (last_celoss self) (last_flops self) (last_anti_zero self)
    (last_docs self) (last_queries self) (step self) st (control self).

Definition set_control (c : TrainerControl) (self : t) : t :=
  update self (last_celoss self) (last_flops self) (last_anti_zero self)
    (last_docs self) (last_queries self) (step self) (state self) c.

Section log.
(** The builtin [round(x, ndigits)]. *)
Variable round : R → Z → R.

Definition log : M (t * record) unit :=
  self ← get_self;
  match epoch (state self) with
  | Some e => setitem "epoch" (PyFloat (Some (round e 2)))
  | None => mret tt
  end;;
  (if dense self then mret tt
   else
     setitem "L0_d" (PyFloat (np_mean (last_docs self)));;
     setitem "L0_q" (PyFloat (np_mean (last_queries self)));;
     setitem "flops_loss" (PyFloat (np_mean (last_flops self)));;
     setitem "anti-zero" (PyFloat (np_mean (last_anti_zero self))));;
  setitem "ce_loss" (PyFloat (np_mean (last_celoss self)));;
  set_self reset_last_docs;;
  set_self reset_last_queries;;
  set_self reset_last_flops;;
  set_self reset_last_anti_zero;;
  set_self reset_last_celoss;;
  logs ← get_arg;
  let output := <["step" := PyInt (global_step (state self))]> logs in
  set_self (λ self, set_state (append_log_history output (state self)) self);;
  set_self (λ self, set_control (on_log self (state self) (control self) logs) self).
End log.

(** [torch.bmm(queries, torch.permute(docs, [0,2,1])).squeeze(1)] *)
Definition pair_scores (queries docs : torch.T3) : torch.T2 :=
  torch.squeeze1 (torch.bmm queries (torch.permute_021 docs)).

(** The score rows of the contrastive loss, from [scores_positive] to
    [all_scores]. *)
Definition all_scores (queries docs : torch.T3) (scores : torch.T2) : outcome torch.T2 :=
  let scores_positive := map (take 1) scores in
  negatives ← torch.reshape_rows (torch.size2 docs) (map (drop 1) docs);
  let negatives := torch.transpose (torch.size2 docs) negatives in
  let scores_negative := torch.matmul (torch.squeeze1 queries) negatives in
  mret (torch.cat_dim1 scores_positive scores_negative).

(** [self.ce_loss(all_scores, labels).mean()] *)
Definition contrastive (queries docs : torch.T3) (scores : torch.T2) : outcome scalar :=
  all_scores ← all_scores queries docs scores;
  let labels := torch.zeros_long (length scores) in
  mret (torch.CrossEntropyLoss all_scores labels).

(** The regulariser the code calls [flops]. *)
Definition flops_term (self : t) (queries docs : torch.T3) : outcome scalar :=
  docs2 ← torch.reshape_rows (torch.size2 docs) docs;
  let flops := sscale (lambda_d self) (BaseTrainer._flops docs2) in
  mret (if splade_doc self then flops
        else sadd flops (sscale (lambda_q self) (BaseTrainer._L1 (torch.squeeze1 queries)))).

(** [1/(torch.sum(queries)**2) + 1/(torch.sum(docs)**2)].  The sums are
    taken over the reals, as everywhere in this file: the rounding of a
    float32 sum, which can bring a sum of entries that are not all zero to
    zero, is not part of the model. *)
Definition anti_zero_term (queries docs : torch.T3) : scalar :=
  sadd (srecip (torch.sum_all queries ^ 2)) (srecip (torch.sum_all docs ^ 2)).

(** [self._L0(rep.reshape(-1, rep.size(2)))] *)
Definition L0_of (rep : torch.T3) : outcome scalar :=
  rep2 ← torch.reshape_rows (torch.size2 rep) rep;
  mret (BaseTrainer._L0 rep2).

Definition compute_loss (model : batch → dual_output) (return_outputs : bool) :
    M (t * batch) (returned (list dual_output)) :=
  try_pass (delitem "scores");;
  set_self incr_step;;
  inputs ← get_arg;
  let full_output := model inputs in
  let '(queries, docs) := full_output in
  let scores := pair_scores queries docs in
  loss ← lift (contrastive queries docs scores);
  set_self (append_last_celoss loss);;
  self ← get_self;
  loss ←
    (if dense self then mret loss
     else
       flops ← lift (flops_term self queries docs);
       let anti_zero := anti_zero_term queries docs in
       let loss := sadd (sadd loss flops) anti_zero in
       l0_d ← lift (L0_of docs);
       set_self (append_last_docs l0_d);;
       l0_q ← lift (L0_of queries);
       set_self (append_last_queries l0_q);;
       set_self (append_last_flops flops);;
       set_self (append_last_anti_zero anti_zero);;
       mret loss);
  mret (if return_outputs then LossAndOutputs loss [full_output] else Loss loss).

End FirstStageTrainer.

(** ** Shapes and the specification's wording of the contrastive rows *)

Definition shape2 (rows cols : nat) (t : torch.T2) : Prop :=
  length t = rows ∧ Forall (λ row, length row = cols) t.

Definition shape3 (b rows cols : nat) (t : torch.T3) : Prop :=
  length t = b ∧ Forall (shape2 rows cols) t.

(** The score row of one query as the specification words it: the dot
    product with its own positive document, then the dot products with every
    negative document of the batch. *)
Definition in_batch_row (docs : torch.T3) (q : torch.T2) (ds : torch.T2) : torch.T1 :=
  torch.dot (hd [] q) (hd [] ds)
  :: map (torch.dot (hd [] q)) (concat (map (drop 1) docs)).

Definition in_batch_rows (queries docs : torch.T3) : torch.T2 :=
  zip_with (in_batch_row docs) queries docs.

(** Cross-entropy of one score row against class 0. *)
Definition ce_label0 (row : torch.T1) : R :=
  - (nth 0 row 0 - ln (torch.sum (map exp row))).

(** ** What a step leaves in [self] *)

(** What a step of [FirstStageTrainer] leaves in [self]. *)
Definition FirstStage_after (self : FirstStageTrainer.t) (ce fl az l0d l0q : scalar) :
    FirstStageTrainer.t :=
  let self := FirstStageTrainer.append_last_celoss ce (FirstStageTrainer.incr_step self) in
  if FirstStageTrainer.dense self then self
  else FirstStageTrainer.append_last_anti_zero az
         (FirstStageTrainer.append_last_flops fl
            (FirstStageTrainer.append_last_queries l0q
               (FirstStageTrainer.append_last_docs l0d self))).

(** What a step of [DistilTrainer] leaves in [self]. *)
Definition Distil_after (self : DistilTrainer.t) (ce dl fl az l0d l0q : scalar) :
    DistilTrainer.t :=
  let self := DistilTrainer.append_last_distilloss dl
                (DistilTrainer.append_last_celoss ce (DistilTrainer.incr_step self)) in
  if DistilTrainer.dense self then self
  else DistilTrainer.append_last_anti_zero az
         (DistilTrainer.append_last_flops fl
            (DistilTrainer.append_last_queries l0q
               (DistilTrainer.append_last_docs l0d self))).

(** ** The wording of the specification *)

(** The (positive minus negative) margins of a score table. *)
Definition margins (scores : torch.T2) : torch.T2 :=
  torch.sub_broadcast (map (take 1) scores) (map (drop 1) scores).

(** The L1 norm of a vector, and the mean L1 norm of the rows of a batch. *)
Definition l1_norm (v : torch.T1) : R := torch.sum (map Rabs v).

Definition mean_l1_norm (rep : torch.T2) : R :=
  torch.sum (map l1_norm rep) / INR (length rep).

(** The mean absolute activation of dimension [j] over the rows. *)
Definition mean_abs (inputs : torch.T2) (j : nat) : R :=
  torch.sum (map Rabs (torch.column j inputs)) / INR (length inputs).

Definition sum_sq (m : torch.T1) : R := torch.sum (map (λ x, x ^ 2) m).


Definition is_nonzero (x : R) : bool := if Req_dec_T x 0 then false else true.

(** The number of strictly non-zero entries of a vector. *)
Definition nonzero_count (v : torch.T1) : nat := length (List.filter is_nonzero v).

(** Two batches with the same pattern of zeros. *)
Definition same_zeros (rep rep' : torch.T2) : Prop :=
  Forall2 (Forall2 (λ x y, x = 0 ↔ y = 0)) rep rep'.

(** ** The training loop between two log events *)

(** The values one call of [compute_loss] computes for the metrics. *)
Record step_values : Type := {
  v_ce : scalar;
  v_distil : scalar;
  v_flops : scalar;
  v_anti_zero : scalar;
  v_l0d : scalar;
  v_l0q : scalar;
}.

(** The metric values of a step of [DistilTrainer] on a batch; a dense
    model has no sparsity metric. *)
Definition Distil_step (self : DistilTrainer.t) (model : batch → dual_output) (b : batch) :
    outcome step_values :=
  match b !! "scores" with
  | None => Raise (KeyError "scores")
  | Some ts =>
      let '(q, d) := model (delete "scores" b) in
      dl ← DistilTrainer.distillation self (DistilTrainer.pair_scores q d) ts;
      ce ← DistilTrainer.contrastive q d (DistilTrainer.pair_scores q d);
      if DistilTrainer.dense self then
        mret {| v_ce := ce; v_distil := dl; v_flops := None; v_anti_zero := None;
                v_l0d := None; v_l0q := None |}
      else
        fl ← DistilTrainer.flops_term self q d;
        l0d ← DistilTrainer.L0_of d;
        l0q ← DistilTrainer.L0_of q;
        mret {| v_ce := ce; v_distil := dl; v_flops := fl;
                v_anti_zero := DistilTrainer.anti_zero_term q d;
                v_l0d := l0d; v_l0q := l0q |}
  end.

(** The calls of [compute_loss] the training loop makes between two log
    events, one per batch; an exception ends the training. *)
Fixpoint Distil_steps (model : batch → dual_output) (batches : list batch)
    (self : DistilTrainer.t) : outcome DistilTrainer.t :=
  match batches with
  | [] => Ok self
  | b :: batches' =>
      match DistilTrainer.compute_loss model false (self, b) with
      | (Ok _, (self', _)) => Distil_steps model batches' self'
      | (Raise e, _) => Raise e
      end
  end.

(** The attributes [__init__] sets and no method assigns. *)
Definition Distil_config (self : DistilTrainer.t) : bool * bool * bool * R * R :=
  (DistilTrainer.mse_margin self, DistilTrainer.splade_doc self, DistilTrainer.dense self,
   DistilTrainer.lambda_d self, DistilTrainer.lambda_q self).

(** The metric values of a step of [FirstStageTrainer] on a batch. *)
Definition FirstStage_step (self : FirstStageTrainer.t) (model : batch → dual_output)
    (b : batch) : outcome step_values :=
  let '(q, d) := model (delete "scores" b) in
  ce ← FirstStageTrainer.contrastive q d (FirstStageTrainer.pair_scores q d);
  if FirstStageTrainer.dense self then
    mret {| v_ce := ce; v_distil := None; v_flops := None; v_anti_zero := None;
            v_l0d := None; v_l0q := None |}
  else
    fl ← FirstStageTrainer.flops_term self q d;
    l0d ← FirstStageTrainer.L0_of d;
    l0q ← FirstStageTrainer.L0_of q;
    mret {| v_ce := ce; v_distil := None; v_flops := fl;
            v_anti_zero := FirstStageTrainer.anti_zero_term q d;
            v_l0d := l0d; v_l0q := l0q |}.

Fixpoint FirstStage_steps (model : batch → dual_output) (batches : list batch)
    (self : FirstStageTrainer.t) : outcome FirstStageTrainer.t :=
  match batches with
  | [] => Ok self
  | b :: batches' =>
      match FirstStageTrainer.compute_loss model false (self, b) with
      | (Ok _, (self', _)) => FirstStage_steps model batches' self'
      | (Raise e, _) => Raise e
      end
  end.

Definition FirstStage_config (self : FirstStageTrainer.t) : bool * bool * R * R :=
  (FirstStageTrainer.splade_doc self, FirstStageTrainer.dense self,
   FirstStageTrainer.lambda_d self, FirstStageTrainer.lambda_q self).

(** The contrastive and distillation values of a step of
    [RerankerTrainer2] on a batch. *)
Definition Reranker2_step (self : RerankerTrainer2.t)
    (model : batch → RerankerTrainer.output) (b : batch) : outcome (scalar * scalar) :=
  match b !! "scores" with
  | None => Raise (KeyError "scores")
  | Some ts =>
      scores ← torch.view_rows (RerankerTrainer2.n_negatives self + 1)
                  (torch.column 0 (RerankerTrainer.logits (model (delete "scores" b))));
      dl ← RerankerTrainer2.distillation self scores ts;
      mret (torch.CrossEntropyLoss scores (torch.zeros_long (length scores)), dl)
  end.

Fixpoint Reranker2_steps (model : batch → RerankerTrainer.output) (batches : list batch)
    (self : RerankerTrainer2.t) : outcome RerankerTrainer2.t :=
  match batches with
  | [] => Ok self
  | b :: batches' =>
      match RerankerTrainer2.compute_loss model false (self, b) with
      | (Ok _, (self', _)) => Reranker2_steps model batches' self'
      | (Raise e, _) => Raise e
      end
  end.

(** Every accumulation list is empty. *)
Definition Distil_flushed (self : DistilTrainer.t) : Prop :=
  DistilTrainer.last_celoss self = [] ∧ DistilTrainer.last_distilloss self = []
  ∧ DistilTrainer.last_flops self = [] ∧ DistilTrainer.last_anti_zero self = []
  ∧ DistilTrainer.last_docs self = [] ∧ DistilTrainer.last_queries self = [].

Definition FirstStage_flushed (self : FirstStageTrainer.t) : Prop :=
  FirstStageTrainer.last_celoss self = [] ∧ FirstStageTrainer.last_flops self = []
  ∧ FirstStageTrainer.last_anti_zero self = []
  ∧ FirstStageTrainer.last_docs self = [] ∧ FirstStageTrainer.last_queries self = [].

(** The record holds, for every metric a trainer tracks, the [np.mean] of
    the values of the steps [vs]. *)
Definition emits_means (distil dense : bool) (vs : list step_values) (logs : record) : Prop :=
  logs !! "ce_loss" = Some (PyFloat (np_mean (map v_ce vs)))
  ∧ (distil = true → logs !! "distil_loss" = Some (PyFloat (np_mean (map v_distil vs))))
  ∧ (dense = false →
     logs !! "L0_d" = Some (PyFloat (np_mean (map v_l0d vs)))
     ∧ logs !! "L0_q" = Some (PyFloat (np_mean (map v_l0q vs)))
     ∧ logs !! "flops_loss" = Some (PyFloat (np_mean (map v_flops vs)))
     ∧ logs !! "anti-zero" = Some (PyFloat (np_mean (map v_anti_zero vs)))).

(** The record holds the epoch, rounded, when the trainer state has one. *)
Definition emits_epoch (round : R → Z → R) (st : TrainerState) (logs : record) : Prop :=
  ∀ e, epoch st = Some e → logs !! "epoch" = Some (PyFloat (Some (round e 2%Z))).

(** ** Sample objects *)

Module sample.

Definition control : TrainerControl :=
  {| should_training_stop := false; should_epoch_stop := false; should_save := false;
     should_evaluate := false; should_log := false |}.

Definition state : TrainerState :=
  {| epoch := Some 1; global_step := 10; log_history := [] |}.

Definition on_log (st : TrainerState) (c : TrainerControl) (logs : record) : TrainerControl := c.

Definition first_stage (splade_doc dense : bool) : FirstStageTrainer.t :=
  {| FirstStageTrainer.n_negatives := 1;
     FirstStageTrainer.lambda_d := 1; FirstStageTrainer.lambda_q := 1;
     FirstStageTrainer.last_celoss := []; FirstStageTrainer.last_flops := [];
     FirstStageTrainer.last_anti_zero := []; FirstStageTrainer.last_docs := [];
     FirstStageTrainer.last_queries := [];
     FirstStageTrainer.shared_weights := true; FirstStageTrainer.splade_doc := splade_doc;
     FirstStageTrainer.step := 0; FirstStageTrainer.dense := dense;
     FirstStageTrainer.state := state; FirstStageTrainer.control := control;
     FirstStageTrainer.on_log := on_log |}.

Definition distil (mse_margin splade_doc dense : bool) : DistilTrainer.t :=
  {| DistilTrainer.n_negatives := 1;
     DistilTrainer.lambda_d := 1; DistilTrainer.lambda_q := 1;
     DistilTrainer.last_celoss := []; DistilTrainer.last_distilloss := [];
     DistilTrainer.last_flops := []; DistilTrainer.last_anti_zero := [];
     DistilTrainer.last_docs := []; DistilTrainer.last_queries := [];
     DistilTrainer.mse_margin := mse_margin;
     DistilTrainer.shared_weights := true; DistilTrainer.splade_doc := splade_doc;
     DistilTrainer.step := 0; DistilTrainer.dense := dense;
     DistilTrainer.state := state; DistilTrainer.control := control;
     DistilTrainer.on_log := on_log |}.

Definition reranker2 (n_negatives : nat) (mse_margin : bool) : RerankerTrainer2.t :=
  {| RerankerTrainer2.n_negatives := n_negatives;
     RerankerTrainer2.mse_margin := mse_margin;
     RerankerTrainer2.last_celoss := None; RerankerTrainer2.last_distilloss := None;
     RerankerTrainer2.state := state; RerankerTrainer2.control := control;
     RerankerTrainer2.on_log := on_log |}.

(** Two queries with one negative each, in dimension two. *)
Definition queries : torch.T3 := [[[1; 0]]; [[0; 1]]].
Definition docs : torch.T3 := [[[1; 0]; [0; 1]]; [[0; 1]; [1; 1]]].
Definition teacher : torch.T1 := [1; 2; 3; 4].

(** One query with its positive alone, in dimension one. *)
Definition query1 : torch.T3 := [[[2]]].
Definition doc1 : torch.T3 := [[[3]]].

Definition dual_model (q d : torch.T3) (inputs : batch) : dual_output := (q, d).

Definition cross_model (logits : torch.T2) (inputs : batch) : RerankerTrainer.output :=
  {| RerankerTrainer.logits := logits |}.

End sample.

Module sample_checkpoint.

Definition tensor2 (x y : R) : BaseTrainer.tensor :=
  {| BaseTrainer.shape := [2%nat]; BaseTrainer.data := [x; y] |}.

Definition doc_file : BaseTrainer.state_dict := {["w" := tensor2 1 2]}.
Definition query_file : BaseTrainer.state_dict := {["w" := tensor2 3 4]}.
Definition fresh : BaseTrainer.state_dict := {["w" := tensor2 0 0]}.

Definition world (shared : bool) : BaseTrainer.world :=
  {| BaseTrainer.files :=
       {["ckpt/pytorch_model.bin" := doc_file; "ckpt/query/pytorch_model.bin" := query_file]};
     BaseTrainer.encoders := {[1%positive := fresh; 2%positive := fresh]};
     BaseTrainer.models :=
       {[3%positive := {| BaseTrainer.doc_encoder := 1; BaseTrainer.query_encoder := 2;
                          BaseTrainer.shared_weights := shared;
                          BaseTrainer._keys_to_ignore_on_save := None |}]};
     BaseTrainer.warned := [] |}.

Definition trainer : BaseTrainer.t := {| BaseTrainer.model := 3 |}.

End sample_checkpoint.

Module sample_log.

(** A stand-in for the builtin [round]. *)
Definition round (x : R) (ndigits : Z) : R := x.

(** A cross-encoder that scores each candidate by the number the batch holds
    for it. *)
Definition cross_model (inputs : batch) : RerankerTrainer.output :=
  {| RerankerTrainer.logits := map (λ x, [x]) (default [] (inputs !! "input_ids")) |}.

Definition batch1 : batch := {["input_ids" := [1; 0]; "scores" := [0; 0]]}.
Definition batch2 : batch := {["input_ids" := [3; 0]; "scores" := [0; 0]]}.

(** Batches of the dual encoders, with the teacher scores of [sample]. *)
Definition dual_batch : batch := {["scores" := sample.teacher]}.

(** A second batch, with other teacher scores. *)
Definition dual_batch2 : batch := {["scores" := [2; 1; 1; 1]]}.

(** A dual encoder whose document vector depends on the batch: one query
    with its positive alone, in dimension two. *)
Definition dual_model (inputs : batch) : dual_output :=
  ([[[1; 0]]], [[[1; hd 0 (default [] (inputs !! "input_ids"))]]]).

Definition ids_batch1 : batch := {["input_ids" := [0]]}.
Definition ids_batch2 : batch := {["input_ids" := [1]]}.

Definition args : TrainingArguments :=
  {| l0d := 1; l0q := 1; output_dir := "out"; remove_unused_columns := true |}.

(** Trainers as [__init__] builds them. *)
Definition distil_init : DistilTrainer.t :=
  (DistilTrainer.__init__ 1 true true false false args sample.state sample.control
     sample.on_log).1.

Definition first_stage_init : FirstStageTrainer.t :=
  (FirstStageTrainer.__init__ 0 true false false args sample.state sample.control
     sample.on_log).1.

End sample_log.

(** ** The keys the log hooks write *)

Definition Distil_log_keys : list string :=
  ["epoch"; "L0_d"; "L0_q"; "flops_loss"; "anti-zero"; "ce_loss"; "distil_loss"].

Definition FirstStage_log_keys : list string :=
  ["epoch"; "L0_d"; "L0_q"; "flops_loss"; "anti-zero"; "ce_loss"].

(** The record holds [nan] for every metric a trainer tracks. *)
Definition emits_nan (distil dense : bool) (logs : record) : Prop :=
  logs !! "ce_loss" = Some (PyFloat None)
  ∧ (distil = true → logs !! "distil_loss" = Some (PyFloat None))
  ∧ (dense = false →
     logs !! "L0_d" = Some (PyFloat None)
     ∧ logs !! "L0_q" = Some (PyFloat None)
     ∧ logs !! "flops_loss" = Some (PyFloat None)
     ∧ logs !! "anti-zero" = Some (PyFloat None)).

(** The list [l'] is [l] followed by [k] more values. *)
Definition grown_by (k : nat) (l l' : list scalar) : Prop :=
  ∃ vs, l' = l ++ vs ∧ length vs = k.

(** The record holds [nan] under [key] exactly when the list is empty or
    holds a value that is not finite. *)
Definition emits_nan_iff (logs : record) (key : string) (l : list scalar) : Prop :=
  logs !! key = Some (PyFloat None) ↔ l = [] ∨ None ∈ l.

(** A score table with the constant [c] of each row added to its entries. *)
Definition shift_rows (cs : list R) (t : torch.T2) : torch.T2 :=
  zip_with (λ c row, map (λ x, x + c) row) cs t.

(** ** Encoders of the same architecture *)

(** Two state dictionaries with the same parameter names and, name by name,
    the same shapes. *)
Definition same_architecture (ps ps' : BaseTrainer.state_dict) : Prop :=
  dom ps' = dom ps
  ∧ ∀ k v v', ps !! k = Some v → ps' !! k = Some v' →
              BaseTrainer.shape v' = BaseTrainer.shape v.

(** A heap with the two encoders of [sample_checkpoint] and the given
    checkpoint files. *)
Definition sample_world_with (files : gmap string BaseTrainer.state_dict) (shared : bool) :
    BaseTrainer.world :=
  {| BaseTrainer.files := files;
     BaseTrainer.encoders :=
       {[1%positive := sample_checkpoint.fresh; 2%positive := sample_checkpoint.fresh]};
     BaseTrainer.models :=
       {[3%positive := {| BaseTrainer.doc_encoder := 1; BaseTrainer.query_encoder := 2;
                          BaseTrainer.shared_weights := shared;
                          BaseTrainer._keys_to_ignore_on_save := None |}]};
     BaseTrainer.warned := [] |}.

(** A checkpoint file whose parameter has another shape than the encoders'. *)
Definition sample_wide_file : BaseTrainer.state_dict :=
  {["w" := {| BaseTrainer.shape := [3%nat]; BaseTrainer.data := [1; 2; 3] |}]}.

(** What [_load_from_checkpoint] may change in the encoders [E] of a heap,
    for a model whose encoders are [doc] and [query]: the weights of these
    two encoders, of the first one alone when [shared] is set.  No encoder
    is created or lost, and none changes its parameter names or their
    shapes. *)
Definition encoders_frame (doc query : BaseTrainer.loc) (shared : bool)
    (E E' : gmap BaseTrainer.loc BaseTrainer.state_dict) : Prop :=
  (∀ e, e ≠ doc → (shared = false → e ≠ query) → E' !! e = E !! e)
  ∧ dom E' = dom E
  ∧ (∀ e ps, E !! e = Some ps → ∃ ps', E' !! e = Some ps' ∧ same_architecture ps ps').

(** What it may change in the heap: these encoders and the model [mloc]
    itself, never a file. *)
Definition checkpoint_frame (mloc doc query : BaseTrainer.loc) (shared : bool)
    (w w' : BaseTrainer.world) : Prop :=
  BaseTrainer.files w' = BaseTrainer.files w
  ∧ (∀ l, l ≠ mloc → BaseTrainer.models w' !! l = BaseTrainer.models w !! l)
  ∧ encoders_frame doc query shared (BaseTrainer.encoders w) (BaseTrainer.encoders w').

(** ** The activations [splade_max] takes the maximum of *)

(** [log(1 + relu(output[i][l][j])) * attention_mask[i][l]]: the activation
    of token [l] of sequence [i] on the vocabulary entry [j]. *)
Definition activation (output : torch.T3) (attention_mask : torch.T2) (i l j : nat) : R :=
  ln (1 + torch.relu (nth j (nth l (nth i output []) []) 0))
  * nth l (nth i attention_mask []) 0.

(** The result of the last [load_state_dict] of [_load_from_checkpoint] when
    both loads return: that of the document encoder with [shared_weights],
    that of the query encoder without. *)
Definition last_load_result (m : BaseTrainer.model_obj)
    (sd params sdq paramsq : BaseTrainer.state_dict) : BaseTrainer.IncompatibleKeys :=
  if BaseTrainer.shared_weights m
  then {| BaseTrainer.missing_keys := dom params ∖ dom sd;
          BaseTrainer.unexpected_keys := dom sd ∖ dom params |}
  else {| BaseTrainer.missing_keys := dom paramsq ∖ dom sdq;
          BaseTrainer.unexpected_keys := dom sdq ∖ dom paramsq |}.

(** The warning about the unexpected keys of a load result, when it has
    some. *)
Definition unexpected_warning (r : BaseTrainer.IncompatibleKeys) : list BaseTrainer.report :=
  if decide (BaseTrainer.unexpected_keys r = ∅) then []
  else [BaseTrainer.UnexpectedKeysWarning (BaseTrainer.unexpected_keys r)].

(** * Properties *)

(** ** Lists and sums *)

Lemma sum_app u v : torch.sum (u ++ v) = torch.sum u + torch.sum v.
Proof. induction u as [|x u IH]; simpl; [lra | rewrite IH; lra]. Qed.

Lemma sum_zero v : Forall (λ x, x = 0) v → torch.sum v = 0.
Proof. induction 1 as [|x v Hx _ IH]; simpl; [done | rewrite Hx, IH; lra]. Qed.

Lemma mean_zero v : v ≠ [] → Forall (λ x, x = 0) v → torch.mean v = Some 0.
Proof.
  intros Hne Hz. destruct v as [|x v]; [done|].
  unfold torch.mean. rewrite (sum_zero _ Hz). f_equal. unfold Rdiv. lra.
Qed.

Lemma mean_nonempty v :
  (0 < length v)%nat → torch.mean v = Some (torch.sum v / INR (length v)).
Proof. destruct v; simpl; [lia | done]. Qed.

Lemma map_nth_seq (v : list R) d :
  length v = d → map (λ i, nth i v 0) (seq 0 d) = v.
Proof.
  intros <-. induction v as [|x v IH]; [done|].
  simpl. f_equal. rewrite <- seq_shift, map_map. exact IH.
Qed.

Lemma map_seq_nth {A} (f : list R → A) (l : list (list R)) :
  map (λ j, f (nth j l [])) (seq 0 (length l)) = map f l.
Proof.
  induction l as [|x l IH]; [done|].
  simpl. f_equal. rewrite <- seq_shift, map_map. exact IH.
Qed.

Lemma nth_column i j t : nth j (torch.column i t) 0 = nth i (nth j t []) 0.
Proof.
  unfold torch.column. revert j. induction t as [|row t IH]; intros [|j]; simpl; try done.
  - by destruct i.
  - by destruct i.
Qed.

(** A column of the transpose is a row. *)
Lemma column_transpose d t j :
  Forall (λ row, length row = d) t → (j < length t)%nat →
  torch.column j (torch.transpose d t) = nth j t [].
Proof.
  intros Hrows Hj. unfold torch.transpose.
  unfold torch.column at 1. rewrite map_map.
  erewrite map_ext; [|intros i; apply nth_column].
  apply map_nth_seq.
  rewrite Forall_forall in Hrows. apply Hrows. apply list_elem_of_In, nth_In. done.
Qed.

Lemma size1_transpose d t : (0 < d)%nat → torch.size1 (torch.transpose d t) = length t.
Proof.
  intros Hd. unfold torch.size1, torch.transpose.
  destruct d as [|d]; [lia|]. simpl. unfold torch.column. by rewrite length_map.
Qed.

(** The product with a transpose is the table of dot products. *)
Lemma matmul_transpose d a t :
  (0 < d)%nat → Forall (λ row, length row = d) t →
  torch.matmul a (torch.transpose d t) = map (λ row, map (torch.dot row) t) a.
Proof.
  intros Hd Hrows. unfold torch.matmul. rewrite size1_transpose by done.
  apply map_ext. intros row.
  etrans; [|apply (map_seq_nth (torch.dot row) t)].
  apply map_ext_in. intros j Hj. apply in_seq in Hj.
  rewrite column_transpose; [done|done|lia].
Qed.

Lemma zip_with_ext_Forall {A B C} (P : A → Prop) (Q : B → Prop) (f g : A → B → C) l k :
  Forall P l → Forall Q k → (∀ x y, P x → Q y → f x y = g x y) →
  zip_with f l k = zip_with g l k.
Proof.
  intros Hl. revert k. induction Hl as [|x l Hx _ IH]; intros k Hk Hfg; [done|].
  destruct Hk as [|y k Hy Hk]; [done|]. simpl. f_equal; auto.
Qed.

Lemma map_zip_with {A B C D} (g : C → D) (f : A → B → C) l k :
  map g (zip_with f l k) = zip_with (λ x y, g (f x y)) l k.
Proof. revert k. induction l as [|x l IH]; intros [|y k]; simpl; try done. by rewrite IH. Qed.

Lemma Forall_zip_with_all {A B C} (P : C → Prop) (f : A → B → C) l k :
  (∀ x y, P (f x y)) → Forall P (zip_with f l k).
Proof.
  intros Hf. revert k. induction l as [|x l IH]; intros [|y k]; simpl; constructor; auto.
Qed.

Lemma zip_with_app_map {A B C} (f : A → B → list C) (g : A → list C) l k :
  length l = length k →
  zip_with app (zip_with f l k) (map g l) = zip_with (λ x y, f x y ++ g x) l k.
Proof.
  revert k. induction l as [|x l IH]; intros [|y k] Hlen; simpl in *; try done.
  f_equal. apply IH. lia.
Qed.

Lemma zip_with_replicate {A B C} (f : A → B → C) l (b : B) :
  zip_with f l (replicate (length l) b) = map (λ x, f x b) l.
Proof. induction l as [|x l IH]; simpl; [done | by rewrite IH]. Qed.

Lemma length_concat_shape {A} (t : list (list A)) n :
  Forall (λ row, length row = n) t → length (concat t) = (length t * n)%nat.
Proof.
  induction 1 as [|row t Hrow _ IH]; simpl; [done|].
  rewrite length_app, IH, Hrow. lia.
Qed.

Lemma Forall_concat {A} (P : A → Prop) (t : list (list A)) :
  Forall (Forall P) t → Forall P (concat t).
Proof. induction 1; simpl; [constructor | apply Forall_app; done]. Qed.

(** ** Shapes *)

Lemma shape3_size2 b rows cols t :
  (0 < b)%nat → (0 < rows)%nat → shape3 b rows cols t → torch.size2 t = cols.
Proof.
  intros Hb Hr [Hlen Hall]. unfold torch.size2.
  destruct t as [|m t]; simpl in *; [lia|].
  apply Forall_cons in Hall as [[Hm Hrows] _].
  destruct m as [|row m]; simpl in *; [lia|].
  by apply Forall_cons in Hrows as [? _].
Qed.

Lemma shape3_drop1 b rows cols t :
  shape3 b (S rows) cols t → shape3 b rows cols (map (drop 1) t).
Proof.
  intros [Hlen Hall]. split; [by rewrite length_map|].
  apply Forall_map. eapply Forall_impl; [exact Hall|].
  intros m [Hm Hrows]. split.
  - rewrite length_drop. lia.
  - by apply Forall_drop.
Qed.

Lemma shape3_concat b rows cols t :
  shape3 b rows cols t → shape2 (b * rows) cols (concat t).
Proof.
  intros [Hlen Hall]. split.
  - rewrite <- Hlen. apply length_concat_shape.
    eapply Forall_impl; [exact Hall|]. by intros m [? _].
  - apply Forall_concat. eapply Forall_impl; [exact Hall|]. by intros m [_ ?].
Qed.

(** ** The score rows of the dual encoders *)

(** [scores[b][j]] is the dot product of query [b] with its candidate [j]. *)
Lemma pair_scores_dot b n d queries docs :
  (0 < b)%nat → (0 < d)%nat →
  shape3 b 1 d queries → shape3 b (S n) d docs →
  FirstStageTrainer.pair_scores queries docs
  = zip_with (λ q ds, map (torch.dot (hd [] q)) ds) queries docs.
Proof.
  intros Hb Hd Hq Hdocs. unfold FirstStageTrainer.pair_scores, torch.permute_021.
  rewrite (shape3_size2 b (S n) d docs) by (done || lia).
  unfold torch.squeeze1, torch.bmm.
  rewrite zip_with_fmap_r.
  rewrite map_zip_with.
  destruct Hq as [_ Hq], Hdocs as [_ Hdocs].
  eapply zip_with_ext_Forall; [exact Hq | exact Hdocs |].
  intros q ds [Hqlen _] [_ Hrows]. simpl.
  rewrite (matmul_transpose d) by done.
  destruct q as [|qv [|]]; simpl in *; done.
Qed.

Lemma all_scores_in_batch b n d queries docs :
  (0 < b)%nat → (0 < d)%nat →
  shape3 b 1 d queries → shape3 b (S n) d docs →
  FirstStageTrainer.all_scores queries docs (FirstStageTrainer.pair_scores queries docs)
  = Ok (in_batch_rows queries docs).
Proof.
  intros Hb Hd Hq Hdocs. unfold FirstStageTrainer.all_scores.
  rewrite (pair_scores_dot b n d) by done.
  rewrite (shape3_size2 b (S n) d docs) by (done || lia).
  unfold torch.reshape_rows. destruct (decide (d = 0%nat)) as [|_]; [lia|].
  simpl. f_equal.
  pose proof (shape3_concat _ _ _ _ (shape3_drop1 _ _ _ _ Hdocs)) as [_ Hneg].
  rewrite (matmul_transpose d) by done.
  unfold torch.squeeze1, torch.cat_dim1.
  rewrite map_zip_with, map_map.
  rewrite (zip_with_app_map _ (λ q, map (torch.dot (hd [] q)) (concat (map (drop 1) docs))))
    by (destruct Hq as [? _], Hdocs as [? _]; congruence).
  unfold in_batch_rows, in_batch_row.
  destruct Hq as [_ Hq], Hdocs as [_ Hdocs].
  eapply zip_with_ext_Forall; [exact Hq | exact Hdocs |].
  intros q ds _ [Hds _]. destruct ds; simpl in *; [lia | done].
Qed.

Lemma in_batch_rows_shape b n d queries docs :
  shape3 b 1 d queries → shape3 b (S n) d docs →
  shape2 b (1 + b * n) (in_batch_rows queries docs).
Proof.
  intros Hq Hdocs. pose proof (shape3_concat _ _ _ _ (shape3_drop1 _ _ _ _ Hdocs)) as [Hlen _].
  destruct Hq as [Hql _], Hdocs as [Hdl _]. split.
  - unfold in_batch_rows. rewrite length_zip_with. lia.
  - unfold in_batch_rows. apply Forall_zip_with_all. intros q ds.
    unfold in_batch_row. simpl. rewrite length_map. lia.
Qed.

(** ** Cross-entropy against class 0 *)

Lemma CrossEntropyLoss_label0 rows :
  Forall (λ row, row ≠ []) rows →
  torch.CrossEntropyLoss rows (torch.zeros_long (length rows))
  = torch.mean (map ce_label0 rows).
Proof.
  intros Hne. unfold torch.CrossEntropyLoss, torch.zeros_long.
  rewrite zip_with_replicate. f_equal.
  apply map_ext_Forall. eapply Forall_impl; [exact Hne|].
  intros [|x row] Hrow; [done|]. reflexivity.
Qed.

Lemma length_pair_scores queries docs :
  length (FirstStageTrainer.pair_scores queries docs) = (length queries `min` length docs)%nat.
Proof.
  unfold FirstStageTrainer.pair_scores, torch.squeeze1, torch.bmm, torch.permute_021.
  by rewrite length_map, length_zip_with, length_map.
Qed.

Lemma contrastive_in_batch b n d queries docs :
  (0 < b)%nat → (0 < d)%nat →
  shape3 b 1 d queries → shape3 b (S n) d docs →
  FirstStageTrainer.contrastive queries docs (FirstStageTrainer.pair_scores queries docs)
  = Ok (torch.mean (map ce_label0 (in_batch_rows queries docs))).
Proof.
  intros Hb Hd Hq Hdocs. unfold FirstStageTrainer.contrastive.
  rewrite (all_scores_in_batch b n d) by done. simpl. f_equal.
  pose proof (in_batch_rows_shape b n d _ _ Hq Hdocs) as [Hlen Hrows].
  rewrite length_pair_scores.
  replace (length queries `min` length docs)%nat with (length (in_batch_rows queries docs))
    by (destruct Hq as [? _], Hdocs as [? _]; lia).
  apply CrossEntropyLoss_label0.
  eapply Forall_impl; [exact Hrows|]. intros [|x row]; simpl; [lia | done].
Qed.

Lemma reshape_rows_ok b rows d t :
  (0 < b)%nat → (0 < rows)%nat → (0 < d)%nat → shape3 b rows d t →
  torch.reshape_rows (torch.size2 t) t = Ok (concat t).
Proof.
  intros Hb Hr Hd Ht. rewrite (shape3_size2 b rows d) by done.
  unfold torch.reshape_rows. destruct (decide (d = 0%nat)); [lia | done].
Qed.

(** ** Runs of [compute_loss] in the dual-encoder trainers *)

Ltac run_monad :=
  unfold try_pass, getitem, delitem, setitem, set_self, modify, get_arg, get_self, lift, raise,
    mbind, M_bind, mret, M_ret; simpl.

Lemma FirstStage_run model ro self inputs queries docs ce fl l0d l0q :
  model (delete "scores" inputs) = (queries, docs) →
  FirstStageTrainer.contrastive queries docs (FirstStageTrainer.pair_scores queries docs) = Ok ce →
  FirstStageTrainer.flops_term self queries docs = Ok fl →
  FirstStageTrainer.L0_of docs = Ok l0d →
  FirstStageTrainer.L0_of queries = Ok l0q →
  let az := FirstStageTrainer.anti_zero_term queries docs in
  let loss := if FirstStageTrainer.dense self then ce else sadd (sadd ce fl) az in
  FirstStageTrainer.compute_loss model ro (self, inputs)
  = (Ok (if ro then LossAndOutputs loss [(queries, docs)] else Loss loss),
     (FirstStage_after self ce fl az l0d l0q, delete "scores" inputs)).
Proof.
  intros Hmodel Hce Hfl Hd Hq az loss.
  assert (FirstStageTrainer.compute_loss model ro (self, delete "scores" inputs)
          = FirstStageTrainer.compute_loss model ro (self, inputs)) as <-.
  { unfold FirstStageTrainer.compute_loss. run_monad.
    rewrite lookup_delete_eq. destruct (inputs !! "scores") eqn:Hs; simpl; [done|].
    by rewrite delete_id. }
  unfold FirstStageTrainer.compute_loss. run_monad. rewrite lookup_delete_eq. simpl.
  rewrite Hmodel, Hce. simpl. unfold FirstStage_after, loss. simpl.
  destruct (FirstStageTrainer.dense self) eqn:Hdense; simpl; [done|].
  change (FirstStageTrainer.flops_term _ queries docs)
    with (FirstStageTrainer.flops_term self queries docs).
  rewrite Hfl, Hd, Hq. done.
Qed.

Lemma Distil_run model ro self inputs ts queries docs dl ce fl l0d l0q :
  inputs !! "scores" = Some ts →
  model (delete "scores" inputs) = (queries, docs) →
  DistilTrainer.distillation self (DistilTrainer.pair_scores queries docs) ts = Ok dl →
  DistilTrainer.contrastive queries docs (DistilTrainer.pair_scores queries docs) = Ok ce →
  DistilTrainer.flops_term self queries docs = Ok fl →
  DistilTrainer.L0_of docs = Ok l0d →
  DistilTrainer.L0_of queries = Ok l0q →
  let az := DistilTrainer.anti_zero_term queries docs in
  let loss := sadd (sscale 0.01 ce) (sscale 0.99 dl) in
  let loss := if DistilTrainer.dense self then loss else sadd (sadd loss fl) az in
  DistilTrainer.compute_loss model ro (self, inputs)
  = (Ok (if ro then LossAndOutputs loss [(queries, docs)] else Loss loss),
     (Distil_after self ce dl fl az l0d l0q, delete "scores" inputs)).
Proof.
  intros Hs Hmodel Hdl Hce Hfl Hd Hq az loss0 loss.
  unfold DistilTrainer.compute_loss. run_monad. repeat (rewrite Hs; simpl).
  rewrite Hmodel.
  change (DistilTrainer.distillation _ ?x ?y) with (DistilTrainer.distillation self x y).
  rewrite Hdl. simpl. rewrite Hce. simpl.
  unfold Distil_after, loss, loss0. simpl.
  destruct (DistilTrainer.dense self) eqn:Hdense; simpl; [done|].
  change (DistilTrainer.flops_term _ queries docs)
    with (DistilTrainer.flops_term self queries docs).
  rewrite Hfl, Hd, Hq. done.
Qed.

(** The value of every part of a step on a well-shaped model output. *)
Lemma L0_of_shaped b rows d t :
  (0 < b)%nat → (0 < rows)%nat → (0 < d)%nat → shape3 b rows d t →
  FirstStageTrainer.L0_of t = Ok (BaseTrainer._L0 (concat t)).
Proof.
  intros. unfold FirstStageTrainer.L0_of. by rewrite (reshape_rows_ok b rows d).
Qed.

Lemma FirstStage_flops_term_shaped b rows d self queries docs :
  (0 < b)%nat → (0 < rows)%nat → (0 < d)%nat → shape3 b rows d docs →
  FirstStageTrainer.flops_term self queries docs
  = Ok (let flops := sscale (FirstStageTrainer.lambda_d self) (BaseTrainer._flops (concat docs)) in
        if FirstStageTrainer.splade_doc self then flops
        else sadd flops (sscale (FirstStageTrainer.lambda_q self)
                           (BaseTrainer._L1 (torch.squeeze1 queries)))).
Proof.
  intros. unfold FirstStageTrainer.flops_term. by rewrite (reshape_rows_ok b rows d).
Qed.

Lemma Distil_flops_term_shaped b rows d self queries docs :
  (0 < b)%nat → (0 < rows)%nat → (0 < d)%nat → shape3 b rows d docs →
  DistilTrainer.flops_term self queries docs
  = Ok (let flops := sscale (DistilTrainer.lambda_d self) (BaseTrainer._flops (concat docs)) in
        if DistilTrainer.splade_doc self then flops
        else sadd flops (sscale (DistilTrainer.lambda_q self)
                           (BaseTrainer._L1 (torch.squeeze1 queries)))).
Proof.
  intros. unfold DistilTrainer.flops_term. by rewrite (reshape_rows_ok b rows d).
Qed.

(** A well-shaped model output takes [FirstStageTrainer.compute_loss] to its
    end, with the contrastive loss of the in-batch rows in [last_celoss]. *)
Lemma FirstStage_run_shaped b n d model ro self inputs queries docs :
  (0 < b)%nat → (0 < d)%nat →
  model (delete "scores" inputs) = (queries, docs) →
  shape3 b 1 d queries → shape3 b (S n) d docs →
  ∃ r self',
    FirstStageTrainer.compute_loss model ro (self, inputs)
    = (Ok r, (self', delete "scores" inputs))
    ∧ FirstStageTrainer.last_celoss self'
      = FirstStageTrainer.last_celoss self
        ++ [torch.mean (map ce_label0 (in_batch_rows queries docs))]
    ∧ (FirstStageTrainer.dense self = true →
       returned_loss r = torch.mean (map ce_label0 (in_batch_rows queries docs))).
Proof.
  intros Hb Hd Hmodel Hq Hdocs.
  eexists _, _. split; [|split].
  - eapply FirstStage_run; [exact Hmodel | by apply (contrastive_in_batch b n d) | |
      by apply (L0_of_shaped b (S n) d); try lia | by apply (L0_of_shaped b 1 d); try lia].
    by apply (FirstStage_flops_term_shaped b (S n) d); try lia.
  - unfold FirstStage_after. simpl. by destruct (FirstStageTrainer.dense self).
  - intros ->. by destruct ro.
Qed.

Lemma pair_scores_shape b n d queries docs :
  (0 < b)%nat → (0 < d)%nat →
  shape3 b 1 d queries → shape3 b (S n) d docs →
  shape2 b (S n) (FirstStageTrainer.pair_scores queries docs).
Proof.
  intros Hb Hd Hq Hdocs. rewrite (pair_scores_dot b n d) by done.
  destruct Hq as [Hql _], Hdocs as [Hdl Hdocs]. split.
  - rewrite length_zip_with. lia.
  - apply Forall_zip_with_snd with (P := shape2 (S n) d); [|done].
    apply Forall_forall. intros q _ ds [Hlen _]. by rewrite length_map.
Qed.

Lemma shape2_size1 rows cols t : (0 < rows)%nat → shape2 rows cols t → torch.size1 t = cols.
Proof.
  intros Hr [Hlen Hall]. unfold torch.size1. destruct t as [|row t]; simpl in *; [lia|].
  by apply Forall_cons in Hall as [? _].
Qed.

Lemma view_ok rows cols t flat :
  (0 < rows)%nat → shape2 rows cols t → length flat = (rows * cols)%nat →
  torch.view (length t) (torch.size1 t) flat = Ok (torch.chunks rows cols flat).
Proof.
  intros Hr Ht Hflat. rewrite (shape2_size1 rows cols) by done.
  destruct Ht as [-> _]. unfold torch.view.
  destruct (decide (length flat = (rows * cols)%nat)); done.
Qed.

Lemma Distil_distillation_ok rows cols self scores ts :
  (0 < rows)%nat → shape2 rows cols scores → length ts = (rows * cols)%nat →
  ∃ dl, DistilTrainer.distillation self scores ts = Ok dl.
Proof.
  intros Hr Hs Hts. unfold DistilTrainer.distillation.
  rewrite (view_ok rows cols) by done.
  destruct (DistilTrainer.mse_margin self); simpl; eauto.
Qed.

(** A well-shaped model output and teacher scores of the size of the score
    table take [DistilTrainer.compute_loss] to its end. *)
Lemma Distil_run_shaped b n d model ro self inputs ts queries docs :
  (0 < b)%nat → (0 < d)%nat →
  inputs !! "scores" = Some ts → length ts = (b * S n)%nat →
  model (delete "scores" inputs) = (queries, docs) →
  shape3 b 1 d queries → shape3 b (S n) d docs →
  ∃ r self',
    DistilTrainer.compute_loss model ro (self, inputs)
    = (Ok r, (self', delete "scores" inputs))
    ∧ DistilTrainer.last_celoss self'
      = DistilTrainer.last_celoss self
        ++ [torch.mean (map ce_label0 (in_batch_rows queries docs))].
Proof.
  intros Hb Hd Hs Hts Hmodel Hq Hdocs.
  destruct (Distil_distillation_ok b (S n) self (DistilTrainer.pair_scores queries docs) ts)
    as [dl Hdl]; [done | by apply (pair_scores_shape b n d) | done |].
  eexists _, _. split.
  - eapply Distil_run; [exact Hs | exact Hmodel | exact Hdl |
      by apply (contrastive_in_batch b n d) | |
      by apply (L0_of_shaped b (S n) d); try lia | by apply (L0_of_shaped b 1 d); try lia].
    by apply (Distil_flops_term_shaped b (S n) d); try lia.
  - unfold Distil_after. simpl. by destruct (DistilTrainer.dense self).
Qed.

(** ** Tactics for concrete tensors *)

Ltac shape_of_sample := repeat (split || constructor || reflexivity).

(** Equality of two tensors given by their elements, left to [tac] on the
    numbers. *)
Ltac tensor_eq tac :=
  repeat match goal with
         | |- @eq (list _) (_ :: _) (_ :: _) => apply (f_equal2 (@cons _))
         | |- @eq (list _) [] [] => reflexivity
         | |- @eq R _ _ => tac
         end.

(** ** C1: the contrastive loss of the dual encoders *)

(** C1. In [FirstStageTrainer.compute_loss] and [DistilTrainer.compute_loss],
    on a batch of [b] queries with [n] negatives each, the rows given to the
    cross-entropy are the in-batch rows: for each query its dot product with
    its own positive document, then its dot products with every negative
    document of the batch, [1 + b * n] columns in all; the loss is the mean
    over the batch of the cross-entropy of each row against class 0, and it
    is the value each trainer records in [last_celoss]. *)
Theorem contrastive_over_in_batch_rows
    (b n d : nat) (queries docs : torch.T3)
    (fs_model ds_model : batch → dual_output) (ro : bool)
    (fs_self : FirstStageTrainer.t) (ds_self : DistilTrainer.t)
    (fs_inputs ds_inputs : batch) (ts : torch.T1) :
  (0 < b)%nat → (0 < d)%nat →
  shape3 b 1 d queries → shape3 b (S n) d docs →
  fs_model (delete "scores" fs_inputs) = (queries, docs) →
  ds_model (delete "scores" ds_inputs) = (queries, docs) →
  ds_inputs !! "scores" = Some ts → length ts = (b * S n)%nat →
  let rows := in_batch_rows queries docs in
  let ce := torch.mean (map ce_label0 rows) in
  shape2 b (1 + b * n) rows
  ∧ FirstStageTrainer.all_scores queries docs (FirstStageTrainer.pair_scores queries docs)
    = Ok rows
  ∧ DistilTrainer.all_scores queries docs (DistilTrainer.pair_scores queries docs) = Ok rows
  ∧ ce = Some (torch.sum (map ce_label0 rows) / INR b)
  ∧ (∃ r self',
       FirstStageTrainer.compute_loss fs_model ro (fs_self, fs_inputs)
       = (Ok r, (self', delete "scores" fs_inputs))
       ∧ FirstStageTrainer.last_celoss self' = FirstStageTrainer.last_celoss fs_self ++ [ce])
  ∧ (∃ r self',
       DistilTrainer.compute_loss ds_model ro (ds_self, ds_inputs)
       = (Ok r, (self', delete "scores" ds_inputs))
       ∧ DistilTrainer.last_celoss self' = DistilTrainer.last_celoss ds_self ++ [ce]).
Proof.
  intros Hb Hd Hq Hdocs Hfs Hds Hs Hts rows ce.
  pose proof (in_batch_rows_shape b n d _ _ Hq Hdocs) as Hshape.
  split; [done|]. split; [by apply (all_scores_in_batch b n d)|].
  split; [by apply (all_scores_in_batch b n d)|]. split.
  - destruct Hshape as [Hlen _]. unfold ce, rows.
    rewrite mean_nonempty; rewrite length_map, Hlen; [done | lia].
  - split.
    + destruct (FirstStage_run_shaped b n d fs_model ro fs_self fs_inputs queries docs)
        as (r & self' & Hrun & Hce & _); eauto.
    + destruct (Distil_run_shaped b n d ds_model ro ds_self ds_inputs ts queries docs)
        as (r & self' & Hrun & Hce); eauto.
Qed.

Lemma contrastive_over_in_batch_rows_witness :
  shape2 2 3 (in_batch_rows sample.queries sample.docs)
  ∧ FirstStageTrainer.all_scores sample.queries sample.docs
      (FirstStageTrainer.pair_scores sample.queries sample.docs)
    = Ok (in_batch_rows sample.queries sample.docs)
  ∧ ∃ r self',
      DistilTrainer.compute_loss (sample.dual_model sample.queries sample.docs) false
        (sample.distil true false false, {["scores" := sample.teacher]})
      = (Ok r, (self', delete "scores" {["scores" := sample.teacher]}))
      ∧ DistilTrainer.last_celoss self'
        = [torch.mean (map ce_label0 (in_batch_rows sample.queries sample.docs))].
Proof.
  destruct (contrastive_over_in_batch_rows 2 1 2 sample.queries sample.docs
              (sample.dual_model sample.queries sample.docs)
              (sample.dual_model sample.queries sample.docs) false
              (sample.first_stage false false) (sample.distil true false false)
              ∅ {["scores" := sample.teacher]} sample.teacher)
    as (H1 & H2 & _ & _ & _ & H3);
    [lia | lia | shape_of_sample | shape_of_sample | reflexivity | reflexivity
    | apply lookup_singleton_eq | reflexivity |].
  split; [exact H1|]. split; [exact H2|]. exact H3.
Defined.

(** ** C5: one candidate per query *)

Lemma ce_label0_single x : ce_label0 [x] = 0.
Proof.
  unfold ce_label0. simpl. rewrite Rplus_0_r, ln_exp. lra.
Qed.

Lemma mean_ce_single_column rows :
  (0 < length rows)%nat → Forall (λ row, length row = 1%nat) rows →
  torch.mean (map ce_label0 rows) = Some 0.
Proof.
  intros Hne Hrows. apply mean_zero.
  - destruct rows; simpl in *; [lia | done].
  - apply Forall_map. eapply Forall_impl; [exact Hrows|].
    intros [|x [|]]; simpl; try done. intros _. apply ce_label0_single.
Qed.

Lemma length_chunks rows cols flat : length (torch.chunks rows cols flat) = rows.
Proof. revert flat. induction rows as [|r IH]; intros flat; simpl; [done | by rewrite IH]. Qed.

Lemma chunks_rows rows cols flat :
  length flat = (rows * cols)%nat →
  Forall (λ row, length row = cols) (torch.chunks rows cols flat).
Proof.
  revert flat. induction rows as [|r IH]; intros flat Hlen; simpl; constructor.
  - rewrite length_take. lia.
  - apply IH. rewrite length_drop. lia.
Qed.

Lemma view_rows_ok cols flat rows :
  (0 < cols)%nat → length flat = (rows * cols)%nat →
  torch.view_rows cols flat = Ok (torch.chunks rows cols flat).
Proof.
  intros Hc Hlen. unfold torch.view_rows.
  assert (length flat `mod` cols = 0)%nat as Hmod
    by (rewrite Hlen; apply Nat.Div0.mod_mul).
  assert (length flat `div` cols = rows)%nat as Hdiv
    by (rewrite Hlen; apply Nat.div_mul; lia).
  destruct (decide _) as [_|Hn]; [by rewrite Hdiv|].
  exfalso. apply Hn. split; [lia | done].
Qed.

Lemma Reranker_single_candidate self model inputs ro :
  RerankerTrainer.n_negatives self = 0%nat →
  RerankerTrainer.logits (model inputs) ≠ [] →
  ∃ r, RerankerTrainer.compute_loss self model inputs ro = Ok r ∧ returned_loss r = Some 0.
Proof.
  intros Hn Hne. unfold RerankerTrainer.compute_loss. rewrite Hn.
  change (0 + 1)%nat with 1%nat.
  set (flat := torch.column 0 (RerankerTrainer.logits (model inputs))).
  assert (0 < length flat)%nat as Hflat.
  { unfold flat, torch.column. rewrite length_map.
    destruct (RerankerTrainer.logits (model inputs)); simpl; [done | lia]. }
  rewrite (view_rows_ok 1 flat (length flat)) by lia. simpl.
  eexists. split; [reflexivity|].
  assert (torch.CrossEntropyLoss (torch.chunks (length flat) 1 flat)
            (torch.zeros_long (length (torch.chunks (length flat) 1 flat))) = Some 0) as ->.
  { pose proof (chunks_rows (length flat) 1 flat ltac:(lia)) as Hrows.
    rewrite CrossEntropyLoss_label0.
    - apply mean_ce_single_column; [by rewrite length_chunks | done].
    - eapply Forall_impl; [exact Hrows|]. intros [|x row]; simpl; [lia | done]. }
  by destruct ro.
Qed.

Lemma in_batch_single_candidate b d queries docs :
  (0 < b)%nat → shape3 b 1 d queries → shape3 b 1 d docs →
  torch.mean (map ce_label0 (in_batch_rows queries docs)) = Some 0.
Proof.
  intros Hb Hq Hdocs.
  destruct (in_batch_rows_shape b 0 d _ _ Hq Hdocs) as [Hlen Hrows].
  apply mean_ce_single_column; [lia|].
  eapply Forall_impl; [exact Hrows|]. intros row ->. lia.
Qed.

(** C5. With [n_negatives = 0], each query has its positive as only
    candidate, and the contrastive cross-entropy is zero on every non-empty
    batch: it is the loss [RerankerTrainer.compute_loss] returns, the value
    [FirstStageTrainer.compute_loss] and [DistilTrainer.compute_loss] record
    in [last_celoss], and the loss the former returns for a dense model. *)
Theorem single_candidate_contrastive_zero
    (b d : nat) (queries docs : torch.T3) (ro : bool)
    (rr_self : RerankerTrainer.t) (rr_model : batch → RerankerTrainer.output)
    (rr_inputs : batch)
    (fs_model ds_model : batch → dual_output)
    (fs_self : FirstStageTrainer.t) (ds_self : DistilTrainer.t)
    (fs_inputs ds_inputs : batch) (ts : torch.T1) :
  (0 < b)%nat → (0 < d)%nat →
  shape3 b 1 d queries → shape3 b 1 d docs →
  RerankerTrainer.n_negatives rr_self = 0%nat →
  RerankerTrainer.logits (rr_model rr_inputs) ≠ [] →
  fs_model (delete "scores" fs_inputs) = (queries, docs) →
  ds_model (delete "scores" ds_inputs) = (queries, docs) →
  ds_inputs !! "scores" = Some ts → length ts = b →
  (∃ r, RerankerTrainer.compute_loss rr_self rr_model rr_inputs ro = Ok r
        ∧ returned_loss r = Some 0)
  ∧ (∃ r self',
       FirstStageTrainer.compute_loss fs_model ro (fs_self, fs_inputs)
       = (Ok r, (self', delete "scores" fs_inputs))
       ∧ FirstStageTrainer.last_celoss self'
         = FirstStageTrainer.last_celoss fs_self ++ [Some 0]
       ∧ (FirstStageTrainer.dense fs_self = true → returned_loss r = Some 0))
  ∧ (∃ r self',
       DistilTrainer.compute_loss ds_model ro (ds_self, ds_inputs)
       = (Ok r, (self', delete "scores" ds_inputs))
       ∧ DistilTrainer.last_celoss self' = DistilTrainer.last_celoss ds_self ++ [Some 0]).
Proof.
  intros Hb Hd Hq Hdocs Hn Hne Hfs Hds Hs Hts.
  pose proof (in_batch_single_candidate b d queries docs Hb Hq Hdocs) as Hzero.
  split; [by apply Reranker_single_candidate|]. split.
  - destruct (FirstStage_run_shaped b 0 d fs_model ro fs_self fs_inputs queries docs)
      as (r & self' & Hrun & Hce & Hloss); try done.
    exists r, self'. rewrite Hzero in Hce, Hloss. done.
  - destruct (Distil_run_shaped b 0 d ds_model ro ds_self ds_inputs ts queries docs)
      as (r & self' & Hrun & Hce); try done; [lia|].
    exists r, self'. rewrite Hzero in Hce. done.
Qed.

Lemma single_candidate_contrastive_zero_witness :
  (∃ r, RerankerTrainer.compute_loss {| RerankerTrainer.n_negatives := 0 |}
          (sample.cross_model [[5]; [7]]) ∅ false = Ok r
        ∧ returned_loss r = Some 0)
  ∧ (∃ r self',
       FirstStageTrainer.compute_loss (sample.dual_model sample.query1 sample.doc1) false
         (sample.first_stage false true, ∅)
       = (Ok r, (self', delete "scores" ∅))
       ∧ FirstStageTrainer.last_celoss self' = [Some 0]
       ∧ returned_loss r = Some 0).
Proof.
  destruct (single_candidate_contrastive_zero 1 1 sample.query1 sample.doc1 false
              {| RerankerTrainer.n_negatives := 0 |} (sample.cross_model [[5]; [7]]) ∅
              (sample.dual_model sample.query1 sample.doc1)
              (sample.dual_model sample.query1 sample.doc1)
              (sample.first_stage false true) (sample.distil true false true)
              ∅ {["scores" := [4]]} [4])
    as (H1 & H2 & _);
    [lia | lia | shape_of_sample | shape_of_sample | reflexivity | discriminate
    | reflexivity | reflexivity | apply lookup_singleton_eq | reflexivity |].
  split; [exact H1|].
  destruct H2 as (r & self' & Hrun & Hce & Hloss).
  exists r, self'. split; [exact Hrun|]. split; [exact Hce|]. exact (Hloss eq_refl).
Defined.

(** ** C2: the distillation term when the student matches the teacher *)

Lemma sum_exp_nonneg v : 0 <= torch.sum (map exp v).
Proof.
  induction v as [|x v IH]; simpl; [lra|]. pose proof (exp_pos x). lra.
Qed.

Lemma sum_exp_pos x v : 0 < torch.sum (map exp (x :: v)).
Proof. simpl. pose proof (exp_pos x). pose proof (sum_exp_nonneg v). lra. Qed.

Lemma zip_with_map_map {A B C D} (f : B → C → D) (g : A → B) (h : A → C) l :
  zip_with f (map g l) (map h l) = map (λ x, f (g x) (h x)) l.
Proof. induction l as [|x l IH]; simpl; [done | by rewrite IH]. Qed.

Lemma kl_pointwise_zero x S :
  0 < S → torch.xlogy (exp x / S) (exp x / S) - exp x / S * (x - ln S) = 0.
Proof.
  intros HS. pose proof (exp_pos x) as Hx.
  assert (0 < exp x / S) as Hp by (apply Rdiv_lt_0_compat; done).
  unfold torch.xlogy. destruct (Req_dec_T (exp x / S) 0) as [H0|_]; [lra|].
  assert (ln (exp x / S) = x - ln S) as ->; [|lra].
  unfold Rdiv. rewrite ln_mult by (done || by apply Rinv_0_lt_compat).
  rewrite ln_Rinv by done. rewrite ln_exp. lra.
Qed.

Lemma kl_row_zero v :
  torch.sum (zip_with (λ x t, torch.xlogy t t - t * x)
               (torch.log_softmax_row v) (torch.softmax_row v)) = 0.
Proof.
  unfold torch.log_softmax_row, torch.softmax_row. rewrite zip_with_map_map.
  destruct v as [|y v]; [done|].
  pose proof (sum_exp_pos y v) as HS.
  apply sum_zero, Forall_map, Forall_forall. intros x _. by apply kl_pointwise_zero.
Qed.

Lemma kl_same_distribution scores :
  (0 < length scores)%nat →
  torch.mean (torch.sum_dim1 (torch.KLDivLoss (torch.log_softmax scores) (torch.softmax scores)))
  = Some 0.
Proof.
  intros Hne. unfold torch.KLDivLoss, torch.log_softmax, torch.softmax, torch.sum_dim1.
  rewrite zip_with_map_map, map_map. apply mean_zero.
  - destruct scores; simpl in *; [lia | done].
  - apply Forall_map, Forall_forall. intros v _. apply kl_row_zero.
Qed.

Lemma mul_scalar_1 t : torch.mul_scalar t 1 = t.
Proof.
  unfold torch.mul_scalar. rewrite <- (map_id t) at 2. apply map_ext. intros row.
  rewrite <- (map_id row) at 2. apply map_ext. intros x. lra.
Qed.

Lemma MSELoss_same m : torch.MSELoss m m = map (map (λ _, 0)) m.
Proof.
  unfold torch.MSELoss. induction m as [|row m IH]; simpl; [done|]. f_equal; [|done].
  clear. induction row as [|x row IH]; simpl; [done|]. f_equal; [lra | done].
Qed.

Lemma mse_same_margins m :
  (0 < length m)%nat → Forall (λ row, (0 < length row)%nat) m →
  torch.mean_dim1 (torch.MSELoss m m) ≫= torch.mean = Some 0.
Proof.
  intros Hne Hrows. rewrite MSELoss_same. unfold torch.mean_dim1.
  assert (mapM torch.mean (map (map (λ _ : R, 0)) m) = Some (map (λ _, 0) m)) as ->.
  { clear Hne. induction Hrows as [|row m Hrow _ IH]; [done|].
    simpl. rewrite (mean_zero (map _ row)).
    - simpl. by rewrite IH.
    - destruct row; simpl in *; [lia | done].
    - apply Forall_map, Forall_true. done. }
  simpl. apply mean_zero.
  - destruct m; simpl in *; [lia | done].
  - apply Forall_map, Forall_true. done.
Qed.

Lemma margins_rows b n scores :
  shape2 b (S n) scores → shape2 b n (margins scores).
Proof.
  intros [Hlen Hrows]. unfold margins, torch.sub_broadcast. split.
  - rewrite length_zip_with, !length_map. lia.
  - rewrite zip_with_map_map. apply Forall_map. eapply Forall_impl; [exact Hrows|].
    intros row Hrow. simpl in *. rewrite length_map, length_drop. lia.
Qed.

(** C2, as amended.  On a non-empty batch whose teacher scores have the size
    of the score table, the distillation term of [RerankerTrainer2] and of
    [DistilTrainer] is exactly zero: in margin-MSE mode when there is at
    least one negative per query and the student's margins equal the
    teacher's; in KL mode when the softmax of the student's scores equals the
    softmax of the teacher's. *)
Theorem distillation_zero_when_student_matches_teacher
    (b n : nat) (mse : bool) (scores : torch.T2) (ts : torch.T1)
    (r2_self : RerankerTrainer2.t) (ds_self : DistilTrainer.t) :
  (0 < b)%nat → shape2 b (S n) scores → length ts = (b * S n)%nat →
  RerankerTrainer2.mse_margin r2_self = mse →
  DistilTrainer.mse_margin ds_self = mse →
  (if mse
   then (0 < n)%nat ∧ margins scores = margins (torch.chunks b (S n) ts)
   else torch.softmax scores = torch.softmax (torch.chunks b (S n) ts)) →
  RerankerTrainer2.distillation r2_self scores ts = Ok (Some 0)
  ∧ DistilTrainer.distillation ds_self scores ts = Ok (Some 0).
Proof.
  intros Hb Hshape Hts Hr2 Hds Hmatch.
  unfold RerankerTrainer2.distillation, DistilTrainer.distillation.
  rewrite Hr2, Hds, (view_ok b (S n)) by done.
  destruct mse; simpl.
  - destruct Hmatch as [Hn Hmatch].
    fold (margins scores). fold (margins (torch.chunks b (S n) ts)).
    rewrite <- Hmatch.
    destruct (margins_rows b n scores Hshape) as [Hlen Hrows].
    assert (torch.mean_dim1 (torch.MSELoss (margins scores) (margins scores)) ≫= torch.mean
            = Some 0) as ->; [|done].
    apply mse_same_margins; [lia|].
    eapply Forall_impl; [exact Hrows|]. simpl. intros row ->. lia.
  - rewrite !mul_scalar_1, <- Hmatch.
    destruct Hshape as [Hlen _].
    rewrite kl_same_distribution by lia. done.
Qed.

Lemma Reranker2_run model ro self inputs ts scores dl :
  inputs !! "scores" = Some ts →
  torch.view_rows (RerankerTrainer2.n_negatives self + 1)
    (torch.column 0 (RerankerTrainer.logits (model (delete "scores" inputs)))) = Ok scores →
  RerankerTrainer2.distillation self scores ts = Ok dl →
  let ce := torch.CrossEntropyLoss scores (torch.zeros_long (length scores)) in
  let loss := sadd (sscale 0.1 ce) (sscale 0.9 dl) in
  RerankerTrainer2.compute_loss model ro (self, inputs)
  = (Ok (if ro then LossAndOutputs loss (model (delete "scores" inputs)) else Loss loss),
     (RerankerTrainer2.set_last_distilloss dl (RerankerTrainer2.set_last_celoss ce self),
      delete "scores" inputs)).
Proof.
  intros Hs Hview Hdl ce loss.
  unfold RerankerTrainer2.compute_loss. run_monad. repeat (rewrite Hs; simpl).
  rewrite Hview. simpl. rewrite Hdl. done.
Qed.

Lemma distillation_zero_when_student_matches_teacher_witness :
  (RerankerTrainer2.distillation (sample.reranker2 1 true) [[3; 1]; [2; 2]] [5; 3; 7; 7]
   = Ok (Some 0)
   ∧ DistilTrainer.distillation (sample.distil true false false) [[3; 1]; [2; 2]] [5; 3; 7; 7]
     = Ok (Some 0))
  ∧ (RerankerTrainer2.distillation (sample.reranker2 1 false) [[1; 2]] [3; 4] = Ok (Some 0)
     ∧ DistilTrainer.distillation (sample.distil false false false) [[1; 2]] [3; 4]
       = Ok (Some 0)).
Proof.
  split.
  - apply (distillation_zero_when_student_matches_teacher 2 1 true);
      [lia | shape_of_sample | reflexivity | reflexivity | reflexivity |].
    split; [lia|]. unfold margins. simpl. tensor_eq lra.
  - apply (distillation_zero_when_student_matches_teacher 1 1 false);
      [lia | shape_of_sample | reflexivity | reflexivity | reflexivity |].
    simpl. unfold torch.softmax_row. simpl.
    replace 3 with (1 + 2) by lra. replace 4 with (2 + 2) by lra.
    rewrite !exp_plus. pose proof (exp_pos 1). pose proof (exp_pos 2).
    tensor_eq ltac:(field; nra).
Defined.

(** C2 does not hold without negatives: the margin tensors are then empty,
    so the student's margins equal the teacher's, and the mean over the empty
    dimension makes the margin-MSE term [nan], not zero. *)
Lemma margin_mse_nan_without_negatives :
  margins [[5]] = margins (torch.chunks 1 1 [7])
  ∧ RerankerTrainer2.distillation (sample.reranker2 0 true) [[5]] [7] = Ok None
  ∧ DistilTrainer.distillation (sample.distil true false false) [[5]] [7] = Ok None
  ∧ (RerankerTrainer2.compute_loss (sample.cross_model [[5]]) false
       (sample.reranker2 0 true, {["scores" := [7]]})).1 = Ok (Loss None).
Proof.
  split; [reflexivity|]. split; [reflexivity|]. split; [reflexivity|].
  erewrite Reranker2_run; [| apply lookup_singleton_eq | reflexivity | reflexivity].
  reflexivity.
Qed.

(** ** C3: the L1 penalty on the queries *)

Lemma mapM_Some_map {A B} (f : A → option B) (g : A → B) l :
  (∀ x, x ∈ l → f x = Some (g x)) → mapM f l = Some (map g l).
Proof.
  induction l as [|x l IH]; intros Hf; [done|].
  simpl. rewrite Hf by left. simpl. rewrite IH; [done|].
  intros y Hy. apply Hf. by right.
Qed.

Lemma column_abs j t : torch.column j (torch.abs t) = map Rabs (torch.column j t).
Proof.
  unfold torch.column, torch.abs. rewrite !map_map. apply map_ext. intros row.
  destruct (decide (j < length row)%nat) as [Hj|Hj].
  - rewrite (nth_indep _ 0 (Rabs 0)) by (rewrite length_map; done).
    apply (map_nth Rabs).
  - rewrite !nth_overflow; [by rewrite Rabs_R0 | lia | rewrite length_map; lia].
Qed.

Lemma size1_abs t : torch.size1 (torch.abs t) = torch.size1 t.
Proof. unfold torch.size1, torch.abs. destruct t; simpl; [done | by rewrite length_map]. Qed.

Lemma mean_dim0_abs inputs :
  (0 < length inputs)%nat →
  torch.mean_dim0 (torch.abs inputs)
  = Some (map (mean_abs inputs) (seq 0 (torch.size1 inputs))).
Proof.
  intros Hne. unfold torch.mean_dim0. rewrite size1_abs.
  apply mapM_Some_map. intros j _.
  rewrite column_abs, mean_nonempty.
  - unfold mean_abs, torch.column. by rewrite !length_map.
  - unfold torch.column. by rewrite !length_map.
Qed.

Lemma _flops_value inputs :
  (0 < length inputs)%nat →
  BaseTrainer._flops inputs
  = Some (sum_sq (map (mean_abs inputs) (seq 0 (torch.size1 inputs)))).
Proof. intros Hne. unfold BaseTrainer._flops. by rewrite mean_dim0_abs. Qed.

Lemma _L1_value rep :
  (0 < length rep)%nat → BaseTrainer._L1 rep = Some (mean_l1_norm rep).
Proof.
  intros Hne. unfold BaseTrainer._L1, torch.sum_dim1, torch.abs.
  rewrite mean_nonempty by (by rewrite !length_map).
  unfold mean_l1_norm, l1_norm. by rewrite !length_map, map_map.
Qed.

Lemma length_concat_pos b rows d (t : torch.T3) :
  (0 < b)%nat → (0 < rows)%nat → shape3 b rows d t → (0 < length (concat t))%nat.
Proof.
  intros Hb Hr Ht. destruct (shape3_concat _ _ _ _ Ht) as [-> _]. lia.
Qed.

(** The regulariser of both trainers on a well-shaped output. *)
Lemma flops_term_value b n d queries docs (splade_doc : bool) (lambda_d lambda_q : R) :
  (0 < b)%nat → (0 < d)%nat →
  shape3 b 1 d queries → shape3 b (S n) d docs →
  let flops := sum_sq (map (mean_abs (concat docs)) (seq 0 (torch.size1 (concat docs)))) in
  (let flops := sscale lambda_d (BaseTrainer._flops (concat docs)) in
   if splade_doc then flops
   else sadd flops (sscale lambda_q (BaseTrainer._L1 (torch.squeeze1 queries))))
  = Some (if splade_doc then lambda_d * flops
          else lambda_d * flops + lambda_q * mean_l1_norm (torch.squeeze1 queries)).
Proof.
  intros Hb Hd Hq Hdocs flops. simpl.
  rewrite _flops_value by (apply (length_concat_pos b (S n) d); done || lia).
  destruct splade_doc; [done|].
  rewrite _L1_value; [done|].
  unfold torch.squeeze1. rewrite length_map. destruct Hq as [-> _]. done.
Qed.

(** C3, as amended.  In the sparse dual-encoder trainers the regulariser is
    [lambda_d] times the FLOPS surrogate of the documents, and the L1 penalty
    on the queries ([lambda_q] times the mean over the batch of the L1 norm
    of each query vector) is added to it exactly when [splade_doc] is not
    set; with [splade_doc] set no L1 term on the queries is added.  The
    regulariser is what [compute_loss] of each of the two trainers adds to
    the loss, with the anti-collapse term, when the model is not dense, and
    what it records in [last_flops]. *)
Theorem query_l1_added_unless_splade_doc
    (b n d : nat) (queries docs : torch.T3)
    (fs_self : FirstStageTrainer.t) (ds_self : DistilTrainer.t)
    (fs_model ds_model : batch → dual_output) (ro : bool)
    (fs_inputs ds_inputs : batch) (ts : torch.T1) :
  (0 < b)%nat → (0 < d)%nat →
  shape3 b 1 d queries → shape3 b (S n) d docs →
  fs_model (delete "scores" fs_inputs) = (queries, docs) →
  ds_model (delete "scores" ds_inputs) = (queries, docs) →
  ds_inputs !! "scores" = Some ts → length ts = (b * S n)%nat →
  FirstStageTrainer.dense fs_self = false →
  DistilTrainer.dense ds_self = false →
  let flops := sum_sq (map (mean_abs (concat docs)) (seq 0 (torch.size1 (concat docs)))) in
  let l1 := mean_l1_norm (torch.squeeze1 queries) in
  let ce := torch.mean (map ce_label0 (in_batch_rows queries docs)) in
  let fs_reg := if FirstStageTrainer.splade_doc fs_self
                then FirstStageTrainer.lambda_d fs_self * flops
                else FirstStageTrainer.lambda_d fs_self * flops
                     + FirstStageTrainer.lambda_q fs_self * l1 in
  let ds_reg := if DistilTrainer.splade_doc ds_self
                then DistilTrainer.lambda_d ds_self * flops
                else DistilTrainer.lambda_d ds_self * flops
                     + DistilTrainer.lambda_q ds_self * l1 in
  FirstStageTrainer.flops_term fs_self queries docs = Ok (Some fs_reg)
  ∧ DistilTrainer.flops_term ds_self queries docs = Ok (Some ds_reg)
  ∧ (∃ r self',
       FirstStageTrainer.compute_loss fs_model ro (fs_self, fs_inputs)
       = (Ok r, (self', delete "scores" fs_inputs))
       ∧ returned_loss r
         = sadd (sadd ce (Some fs_reg)) (FirstStageTrainer.anti_zero_term queries docs)
       ∧ FirstStageTrainer.last_flops self'
         = FirstStageTrainer.last_flops fs_self ++ [Some fs_reg])
  ∧ (∃ r self' dl,
       DistilTrainer.compute_loss ds_model ro (ds_self, ds_inputs)
       = (Ok r, (self', delete "scores" ds_inputs))
       ∧ DistilTrainer.distillation ds_self (DistilTrainer.pair_scores queries docs) ts = Ok dl
       ∧ returned_loss r
         = sadd (sadd (sadd (sscale 0.01 ce) (sscale 0.99 dl)) (Some ds_reg))
             (DistilTrainer.anti_zero_term queries docs)
       ∧ DistilTrainer.last_flops self'
         = DistilTrainer.last_flops ds_self ++ [Some ds_reg]).
Proof.
  intros Hb Hd Hq Hdocs Hmodel Hdsmodel Hs Hts Hdense Hdsdense flops l1 ce fs_reg ds_reg.
  assert (FirstStageTrainer.flops_term fs_self queries docs = Ok (Some fs_reg)) as Hfs.
  { rewrite (FirstStage_flops_term_shaped b (S n) d) by (done || lia).
    f_equal. by apply (flops_term_value b n d). }
  assert (DistilTrainer.flops_term ds_self queries docs = Ok (Some ds_reg)) as Hds.
  { rewrite (Distil_flops_term_shaped b (S n) d) by (done || lia).
    f_equal. by apply (flops_term_value b n d). }
  split; [exact Hfs|]. split; [exact Hds|]. split.
  - eexists _, _. split; [|split].
    + eapply FirstStage_run; [exact Hmodel | by apply (contrastive_in_batch b n d) | exact Hfs |
        by apply (L0_of_shaped b (S n) d); try lia | by apply (L0_of_shaped b 1 d); try lia].
    + rewrite Hdense. by destruct ro.
    + unfold FirstStage_after. simpl. rewrite Hdense. done.
  - destruct (Distil_distillation_ok b (S n) ds_self (DistilTrainer.pair_scores queries docs) ts)
      as [dl Hdl]; [done | by apply (pair_scores_shape b n d) | done |].
    eexists _, _, dl. split; [|split; [|split]].
    + eapply Distil_run; [exact Hs | exact Hdsmodel | exact Hdl |
        by apply (contrastive_in_batch b n d) | exact Hds |
        by apply (L0_of_shaped b (S n) d); try lia | by apply (L0_of_shaped b 1 d); try lia].
    + exact Hdl.
    + rewrite Hdsdense. by destruct ro.
    + unfold Distil_after. simpl. rewrite Hdsdense. done.
Qed.

Lemma query_l1_added_unless_splade_doc_witness :
  (∃ r self',
     FirstStageTrainer.compute_loss (sample.dual_model sample.query1 sample.doc1) false
       (sample.first_stage false false, ∅)
     = (Ok r, (self', delete "scores" ∅))
     ∧ FirstStageTrainer.last_flops self'
       = [Some (1 * sum_sq [mean_abs [[3]] 0] + 1 * mean_l1_norm [[2]])])
  ∧ (∃ r self',
       DistilTrainer.compute_loss (sample.dual_model sample.query1 sample.doc1) false
         (sample.distil false true false, {["scores" := [7]]})
       = (Ok r, (self', delete "scores" {["scores" := [7]]}))
       ∧ DistilTrainer.last_flops self' = [Some (1 * sum_sq [mean_abs [[3]] 0])]).
Proof.
  destruct (query_l1_added_unless_splade_doc 1 0 1 sample.query1 sample.doc1
              (sample.first_stage false false) (sample.distil false true false)
              (sample.dual_model sample.query1 sample.doc1)
              (sample.dual_model sample.query1 sample.doc1) false ∅ {["scores" := [7]]} [7])
    as (_ & _ & (r1 & s1 & Hrun1 & _ & Hfl1) & (r2 & s2 & dl & Hrun2 & _ & _ & Hfl2));
    [lia | lia | shape_of_sample | shape_of_sample | reflexivity | reflexivity
    | apply lookup_singleton_eq | reflexivity | reflexivity | reflexivity |].
  split; [exists r1, s1 | exists r2, s2]; (split; [assumption|assumption]).
Defined.

(** C3 does not hold as worded: with [splade_doc] set the regulariser of a query of
    L1 norm 2 and a document of FLOPS 9 is 9, without the L1 term; with
    [splade_doc] not set it is 11, with the L1 term. *)
Lemma query_l1_dropped_in_splade_doc_mode :
  FirstStageTrainer.flops_term (sample.first_stage true false) sample.query1 sample.doc1
  = Ok (Some 9)
  ∧ FirstStageTrainer.flops_term (sample.first_stage false false) sample.query1 sample.doc1
    = Ok (Some 11)
  ∧ DistilTrainer.flops_term (sample.distil false true false) sample.query1 sample.doc1
    = Ok (Some 9)
  ∧ DistilTrainer.flops_term (sample.distil false false false) sample.query1 sample.doc1
    = Ok (Some 11)
  ∧ BaseTrainer._L1 (torch.squeeze1 sample.query1) = Some 2.
Proof.
  assert (Rabs 3 = 3) as H3 by (apply Rabs_pos_eq; lra).
  assert (Rabs 2 = 2) as H2 by (apply Rabs_pos_eq; lra).
  repeat split;
    unfold FirstStageTrainer.flops_term, DistilTrainer.flops_term, BaseTrainer._flops,
      BaseTrainer._L1; simpl; rewrite ?H3, ?H2; do 2 f_equal; lra.
Qed.

(** ** C6: the FLOPS surrogate *)

Lemma sum_sq_cons x m : sum_sq (x :: m) = x ^ 2 + sum_sq m.
Proof. reflexivity. Qed.

Lemma sum_sq_nonneg m : 0 <= sum_sq m.
Proof.
  induction m as [|x m IH]; [unfold sum_sq; simpl; lra|].
  rewrite sum_sq_cons. pose proof (pow2_ge_0 x). lra.
Qed.







(** ** C9: the L0 metric *)

Lemma is_nonzero_spec x : is_nonzero x = true ↔ x ≠ 0.
Proof. unfold is_nonzero. destruct (Req_dec_T x 0); split; done. Qed.

Lemma count_nonzero_row_filter v : torch.count_nonzero_row v = nonzero_count v.
Proof.
  unfold nonzero_count. induction v as [|x v IH]; [done|].
  simpl. unfold is_nonzero. destruct (Req_dec_T x 0); simpl; by rewrite IH.
Qed.

Lemma count_nonzero_row_same_zeros v v' :
  Forall2 (λ x y, x = 0 ↔ y = 0) v v' →
  torch.count_nonzero_row v = torch.count_nonzero_row v'.
Proof.
  induction 1 as [|x y v v' Hxy _ IH]; [done|].
  simpl. destruct (Req_dec_T x 0) as [Hx|Hx], (Req_dec_T y 0) as [Hy|Hy];
    rewrite IH; tauto.
Qed.

Lemma count_nonzero_same_zeros rep rep' :
  same_zeros rep rep' → torch.count_nonzero rep = torch.count_nonzero rep'.
Proof.
  unfold torch.count_nonzero. induction 1 as [|v v' rep rep' Hv _ IH]; [done|].
  simpl. by rewrite IH, (count_nonzero_row_same_zeros v v').
Qed.

(** C9.  The L0 metric of a non-empty batch is the mean over the batch of
    the number of strictly non-zero entries of each vector, and it does not
    depend on the magnitudes: a batch with the same pattern of zeros has the
    same L0. *)
Theorem L0_counts_nonzero_entries (rep rep' : torch.T2) :
  (0 < length rep)%nat → same_zeros rep rep' →
  (∀ x, is_nonzero x = true ↔ x ≠ 0)
  ∧ BaseTrainer._L0 rep
    = Some (torch.sum (map (λ v, INR (nonzero_count v)) rep) / INR (length rep))
  ∧ BaseTrainer._L0 rep' = BaseTrainer._L0 rep.
Proof.
  intros Hne Hsame. split; [exact is_nonzero_spec|]. split.
  - unfold BaseTrainer._L0, torch.float, torch.count_nonzero.
    rewrite mean_nonempty by (by rewrite !length_map).
    rewrite !length_map, map_map. do 2 f_equal.
    f_equal. apply map_ext. intros v. by rewrite count_nonzero_row_filter.
  - unfold BaseTrainer._L0. by rewrite (count_nonzero_same_zeros rep rep').
Qed.

Lemma L0_counts_nonzero_entries_witness :
  BaseTrainer._L0 [[1; 0; 2]; [0; 0; 4]]
  = Some (torch.sum (map (λ v, INR (nonzero_count v)) [[1; 0; 2]; [0; 0; 4]]) / INR 2)
  ∧ BaseTrainer._L0 [[5; 0; -3]; [0; 0; 1]] = BaseTrainer._L0 [[1; 0; 2]; [0; 0; 4]].
Proof.
  destruct (L0_counts_nonzero_entries [[1; 0; 2]; [0; 0; 4]] [[5; 0; -3]; [0; 0; 1]])
    as (_ & H1 & H2); [simpl; lia | | split; [exact H1 | exact H2]].
  repeat constructor; lra.
Defined.

(** ** C8 and C10: the teacher-score field of the batch *)

Lemma FirstStage_delete_scores model ro self (inputs : batch) :
  FirstStageTrainer.compute_loss model ro (self, delete "scores" inputs)
  = FirstStageTrainer.compute_loss model ro (self, inputs).
Proof.
  unfold FirstStageTrainer.compute_loss. run_monad.
  rewrite lookup_delete_eq. destruct (inputs !! "scores") eqn:Hs; simpl; [done|].
  by rewrite delete_id.
Qed.

Lemma reshape_rows_raises d t e : torch.reshape_rows d t = Raise e → e = RuntimeError.
Proof. unfold torch.reshape_rows. destruct (decide _); congruence. Qed.

Ltac only_runtime_error :=
  unfold mbind, outcome_bind, mret, outcome_ret;
  repeat case_match; intros; simplify_eq; eauto using reshape_rows_raises.

Lemma contrastive_raises queries docs scores e :
  FirstStageTrainer.contrastive queries docs scores = Raise e → e = RuntimeError.
Proof.
  unfold FirstStageTrainer.contrastive, FirstStageTrainer.all_scores. only_runtime_error.
Qed.

Lemma flops_term_raises self queries docs e :
  FirstStageTrainer.flops_term self queries docs = Raise e → e = RuntimeError.
Proof. unfold FirstStageTrainer.flops_term. only_runtime_error. Qed.

Lemma L0_of_raises rep e : FirstStageTrainer.L0_of rep = Raise e → e = RuntimeError.
Proof. unfold FirstStageTrainer.L0_of. only_runtime_error. Qed.

Lemma FirstStage_never_KeyError model ro self (inputs : batch) e :
  (FirstStageTrainer.compute_loss model ro (self, inputs)).1 = Raise e → e = RuntimeError.
Proof.
  unfold FirstStageTrainer.compute_loss. run_monad.
  repeat case_match; simpl in *; simplify_eq; intros; simplify_eq;
    eauto using contrastive_raises, flops_term_raises, L0_of_raises.
Qed.

(** C8.  [FirstStageTrainer.compute_loss] on a batch without the "scores"
    field raises no [KeyError]: the only error it can raise is the one of a
    reshape of a model output without columns, and on a well-shaped model
    output it returns.  With the field present it gives the same outcome,
    the same loss and the same state as without it. *)
Theorem first_stage_tolerates_missing_scores
    (model : batch → dual_output) (ro : bool) (self : FirstStageTrainer.t)
    (inputs : batch) (s : torch.T1) :
  inputs !! "scores" = None →
  FirstStageTrainer.compute_loss model ro (self, <["scores" := s]> inputs)
  = FirstStageTrainer.compute_loss model ro (self, inputs)
  ∧ (∀ e, (FirstStageTrainer.compute_loss model ro (self, inputs)).1 = Raise e →
          e = RuntimeError)
  ∧ (∀ b n d, (0 < b)%nat → (0 < d)%nat →
       shape3 b 1 d (model inputs).1 → shape3 b (S n) d (model inputs).2 →
       ∃ r self', FirstStageTrainer.compute_loss model ro (self, inputs)
                  = (Ok r, (self', inputs))).
Proof.
  intros Hs. split; [|split].
  - rewrite <- (FirstStage_delete_scores model ro self (<["scores" := s]> inputs)).
    by rewrite delete_insert_id.
  - apply FirstStage_never_KeyError.
  - intros b n d Hb Hd Hq Hdocs.
    destruct (FirstStage_run_shaped b n d model ro self inputs (model inputs).1 (model inputs).2)
      as (r & self' & Hrun & _); try done.
    + rewrite delete_id by done. by destruct (model inputs).
    + rewrite delete_id in Hrun by done. eauto.
Qed.

Lemma first_stage_tolerates_missing_scores_witness :
  FirstStageTrainer.compute_loss (sample.dual_model sample.queries sample.docs) false
    (sample.first_stage false false, <["scores" := sample.teacher]> ∅)
  = FirstStageTrainer.compute_loss (sample.dual_model sample.queries sample.docs) false
      (sample.first_stage false false, ∅)
  ∧ ∃ r self',
      FirstStageTrainer.compute_loss (sample.dual_model sample.queries sample.docs) false
        (sample.first_stage false false, ∅)
      = (Ok r, (self', ∅)).
Proof.
  destruct (first_stage_tolerates_missing_scores
              (sample.dual_model sample.queries sample.docs) false
              (sample.first_stage false false) ∅ sample.teacher)
    as (H1 & _ & H3); [apply lookup_empty|].
  split; [exact H1|].
  apply (H3 2%nat 1%nat 2%nat); [lia | lia | shape_of_sample | shape_of_sample].
Defined.

Lemma Reranker2_requires_scores model ro self (inputs : batch) :
  inputs !! "scores" = None →
  RerankerTrainer2.compute_loss model ro (self, inputs)
  = (Raise (KeyError "scores"), (self, inputs)).
Proof. intros Hs. unfold RerankerTrainer2.compute_loss. run_monad. by rewrite Hs. Qed.

Lemma Distil_requires_scores model ro self (inputs : batch) :
  inputs !! "scores" = None →
  DistilTrainer.compute_loss model ro (self, inputs)
  = (Raise (KeyError "scores"), (self, inputs)).
Proof. intros Hs. unfold DistilTrainer.compute_loss. run_monad. by rewrite Hs. Qed.

Lemma Reranker2_removes_scores model ro self (inputs : batch) ts :
  inputs !! "scores" = Some ts →
  (RerankerTrainer2.compute_loss model ro (self, inputs)).2.2 = delete "scores" inputs
  ∧ ∀ r st, RerankerTrainer2.compute_loss model ro (self, inputs) = (Ok r, st) →
            ∃ loss, r = if ro then LossAndOutputs loss (model (delete "scores" inputs))
                        else Loss loss.
Proof.
  intros Hs. unfold RerankerTrainer2.compute_loss. run_monad. repeat (rewrite Hs; simpl).
  split.
  - repeat case_match; simplify_eq; done.
  - intros r st. repeat case_match; intros; simplify_eq; eauto.
Qed.

Lemma Distil_removes_scores model ro self (inputs : batch) ts :
  inputs !! "scores" = Some ts →
  (DistilTrainer.compute_loss model ro (self, inputs)).2.2 = delete "scores" inputs
  ∧ ∀ r st, DistilTrainer.compute_loss model ro (self, inputs) = (Ok r, st) →
            ∃ loss, r = if ro then LossAndOutputs loss [model (delete "scores" inputs)]
                        else Loss loss.
Proof.
  intros Hs. unfold DistilTrainer.compute_loss. run_monad. repeat (rewrite Hs; simpl).
  destruct (model (delete "scores" inputs)) as [queries docs] eqn:Hmodel.
  split.
  - repeat case_match; simplify_eq; done.
  - intros r st. repeat case_match; intros; simplify_eq; eauto.
Qed.

(** C10.  [RerankerTrainer2.compute_loss] and [DistilTrainer.compute_loss]
    raise [KeyError] on a batch without the "scores" field, and leave it as
    it was.  On a batch with the field they delete it from the caller's
    dictionary, whatever the outcome of the call, and the model is called on
    the dictionary without it. *)
Theorem distillation_trainers_require_scores
    (r2_model : batch → RerankerTrainer.output) (ds_model : batch → dual_output)
    (ro : bool) (r2_self : RerankerTrainer2.t) (ds_self : DistilTrainer.t)
    (missing present : batch) (ts : torch.T1) :
  missing !! "scores" = None → present !! "scores" = Some ts →
  RerankerTrainer2.compute_loss r2_model ro (r2_self, missing)
  = (Raise (KeyError "scores"), (r2_self, missing))
  ∧ DistilTrainer.compute_loss ds_model ro (ds_self, missing)
    = (Raise (KeyError "scores"), (ds_self, missing))
  ∧ (RerankerTrainer2.compute_loss r2_model ro (r2_self, present)).2.2
    = delete "scores" present
  ∧ (DistilTrainer.compute_loss ds_model ro (ds_self, present)).2.2
    = delete "scores" present
  ∧ delete "scores" present !! "scores" = None
  ∧ (∀ r st, RerankerTrainer2.compute_loss r2_model true (r2_self, present) = (Ok r, st) →
             ∃ loss, r = LossAndOutputs loss (r2_model (delete "scores" present)))
  ∧ (∀ r st, DistilTrainer.compute_loss ds_model true (ds_self, present) = (Ok r, st) →
             ∃ loss, r = LossAndOutputs loss [ds_model (delete "scores" present)]).
Proof.
  intros Hmissing Hpresent.
  split; [by apply Reranker2_requires_scores|].
  split; [by apply Distil_requires_scores|].
  split; [by eapply Reranker2_removes_scores|].
  split; [by eapply Distil_removes_scores|].
  split; [apply lookup_delete_eq|].
  split.
  - by eapply (Reranker2_removes_scores r2_model true).
  - by eapply (Distil_removes_scores ds_model true).
Qed.

Lemma distillation_trainers_require_scores_witness :
  RerankerTrainer2.compute_loss (sample.cross_model [[5; 1]]) false
    (sample.reranker2 1 true, ∅)
  = (Raise (KeyError "scores"), (sample.reranker2 1 true, ∅))
  ∧ DistilTrainer.compute_loss (sample.dual_model sample.queries sample.docs) false
      (sample.distil true false false, ∅)
    = (Raise (KeyError "scores"), (sample.distil true false false, ∅))
  ∧ (RerankerTrainer2.compute_loss (sample.cross_model [[5; 1]]) false
       (sample.reranker2 1 true, {["scores" := [7; 2]]})).2.2
    = delete "scores" {["scores" := [7; 2]]}
  ∧ (DistilTrainer.compute_loss (sample.dual_model sample.queries sample.docs) false
       (sample.distil true false false, {["scores" := sample.teacher]})).2.2
    = delete "scores" {["scores" := sample.teacher]}.
Proof.
  destruct (distillation_trainers_require_scores
              (sample.cross_model [[5; 1]]) (sample.dual_model sample.queries sample.docs)
              false (sample.reranker2 1 true) (sample.distil true false false)
              ∅ {["scores" := [7; 2]]} [7; 2])
    as (H1 & H2 & H3 & _); [apply lookup_empty | apply lookup_singleton_eq |].
  destruct (distillation_trainers_require_scores
              (sample.cross_model [[5; 1]]) (sample.dual_model sample.queries sample.docs)
              false (sample.reranker2 1 true) (sample.distil true false false)
              ∅ {["scores" := sample.teacher]} sample.teacher)
    as (_ & _ & _ & H4 & _); [apply lookup_empty | apply lookup_singleton_eq |].
  split; [exact H1|]. split; [exact H2|]. split; [exact H3 | exact H4].
Defined.

(** ** C7: loading a checkpoint *)

Lemma lookup_load_params sd params k :
  BaseTrainer.load_params sd params !! k = BaseTrainer.loaded sd k <$> params !! k.
Proof.
  unfold BaseTrainer.load_params. rewrite map_lookup_imap.
  by destruct (params !! k).
Qed.

Lemma load_state_dict_ok encoder sd params w :
  BaseTrainer.encoders w !! encoder = Some params →
  map_imap (BaseTrainer.size_mismatch sd) params = ∅ →
  BaseTrainer.load_state_dict encoder sd w
  = (Ok {| BaseTrainer.missing_keys := dom params ∖ dom sd;
           BaseTrainer.unexpected_keys := dom sd ∖ dom params |},
     BaseTrainer.set_encoders
       (<[encoder := BaseTrainer.load_params sd params]> (BaseTrainer.encoders w)) w).
Proof.
  intros Henc Hsize. unfold BaseTrainer.load_state_dict. rewrite Henc.
  destruct (decide _); done.
Qed.

Lemma models_set_encoders e w :
  BaseTrainer.models (BaseTrainer.set_encoders e w) = BaseTrainer.models w.
Proof. reflexivity. Qed.

Lemma files_set_encoders e w :
  BaseTrainer.files (BaseTrainer.set_encoders e w) = BaseTrainer.files w.
Proof. reflexivity. Qed.

Lemma issue_world r w :
  (BaseTrainer.issue r w).1 = Ok tt
  ∧ BaseTrainer.files (BaseTrainer.issue r w).2 = BaseTrainer.files w
  ∧ BaseTrainer.encoders (BaseTrainer.issue r w).2 = BaseTrainer.encoders w
  ∧ BaseTrainer.models (BaseTrainer.issue r w).2 = BaseTrainer.models w
  ∧ BaseTrainer.warned (BaseTrainer.issue r w).2 = BaseTrainer.warned w ++ [r].
Proof. done. Qed.

(** The warning step touches neither a file, an encoder nor a model, and the
    only exception it raises is an [AttributeError]. *)
Lemma issue_warnings_world self r w :
  BaseTrainer.files (BaseTrainer._issue_warnings_after_load self r w).2 = BaseTrainer.files w
  ∧ BaseTrainer.encoders (BaseTrainer._issue_warnings_after_load self r w).2
    = BaseTrainer.encoders w
  ∧ BaseTrainer.models (BaseTrainer._issue_warnings_after_load self r w).2
    = BaseTrainer.models w
  ∧ ((BaseTrainer._issue_warnings_after_load self r w).1 = Ok tt
     ∨ ∃ a, (BaseTrainer._issue_warnings_after_load self r w).1 = Raise (AttributeError a)).
Proof.
  unfold BaseTrainer._issue_warnings_after_load, BaseTrainer.deref_model, BaseTrainer.issue.
  run_monad.
  destruct (decide (BaseTrainer.missing_keys r = ∅));
    destruct (decide (BaseTrainer.unexpected_keys r = ∅)); simpl;
    try (destruct (BaseTrainer.models w !! BaseTrainer.model self) as [m|]; simpl;
         [destruct (BaseTrainer._keys_to_ignore_on_save m) as [ignore|]; simpl;
          [destruct (decide (ignore = Some (BaseTrainer.missing_keys r))); simpl|]|]);
    eauto 10.
Qed.

(** Without a missing key it returns, with a warning when there are
    unexpected keys and none otherwise. *)
Lemma issue_warnings_no_missing self r w :
  BaseTrainer.missing_keys r = ∅ →
  (BaseTrainer._issue_warnings_after_load self r w).1 = Ok tt
  ∧ BaseTrainer.warned (BaseTrainer._issue_warnings_after_load self r w).2
    = BaseTrainer.warned w
      ++ (if decide (BaseTrainer.unexpected_keys r = ∅) then []
          else [BaseTrainer.UnexpectedKeysWarning (BaseTrainer.unexpected_keys r)]).
Proof.
  intros Hmissing.
  unfold BaseTrainer._issue_warnings_after_load, BaseTrainer.issue. run_monad.
  destruct (decide (BaseTrainer.missing_keys r = ∅)); [|done].
  destruct (decide (BaseTrainer.unexpected_keys r = ∅)); simpl; [|done].
  by rewrite app_nil_r.
Qed.

(** When the missing keys are read on a model without
    [_keys_to_ignore_on_save], the warning step raises and warns of
    nothing. *)
Lemma issue_warnings_plain_module self r w m :
  BaseTrainer.missing_keys r ≠ ∅ →
  BaseTrainer.models w !! BaseTrainer.model self = Some m →
  BaseTrainer._keys_to_ignore_on_save m = None →
  BaseTrainer._issue_warnings_after_load self r w
  = (Raise (AttributeError "_keys_to_ignore_on_save"), w).
Proof.
  intros Hmissing Hm Hattr.
  unfold BaseTrainer._issue_warnings_after_load, BaseTrainer.deref_model. run_monad.
  destruct (decide (BaseTrainer.missing_keys r = ∅)); [done|]. simpl.
  by rewrite Hm, Hattr.
Qed.

(** C7.  When the checkpoint files are there and fit the encoders,
    [_load_from_checkpoint] loads the weights and ends with the warning step
    of the library, which returns when the last state dictionary loaded
    misses no key of its encoder and can otherwise raise [AttributeError];
    the weights are in place either way.  With [shared_weights] set, the
    query encoder of the model is then the very object that is its document
    encoder, holding the weights loaded from [pytorch_model.bin], so that any
    function of an encoder and an input gives the same output on both.
    Without it, the query encoder stays its own object and its weights are
    loaded from [query/pytorch_model.bin] under the checkpoint path.  A
    loaded parameter is the entry of the file that has its name and shape. *)
Theorem checkpoint_load_shared_or_separate
    (self : BaseTrainer.t) (path : string) (arg : option BaseTrainer.loc)
    (w : BaseTrainer.world) (m : BaseTrainer.model_obj)
    (sd params sdq paramsq : BaseTrainer.state_dict) :
  let mloc := match arg with None => BaseTrainer.model self | Some l => l end in
  let enc1 := <[BaseTrainer.doc_encoder m := BaseTrainer.load_params sd params]>
                (BaseTrainer.encoders w) in
  BaseTrainer.models w !! mloc = Some m →
  BaseTrainer.files w !! BaseTrainer.os_path_join path "pytorch_model.bin" = Some sd →
  BaseTrainer.encoders w !! BaseTrainer.doc_encoder m = Some params →
  map_imap (BaseTrainer.size_mismatch sd) params = ∅ →
  (BaseTrainer.shared_weights m = false →
     BaseTrainer.files w
       !! BaseTrainer.os_path_join (BaseTrainer.os_path_join path "query") "pytorch_model.bin"
     = Some sdq
     ∧ enc1 !! BaseTrainer.query_encoder m = Some paramsq
     ∧ map_imap (BaseTrainer.size_mismatch sdq) paramsq = ∅) →
  ∃ o w' m',
    BaseTrainer._load_from_checkpoint self path arg w = (o, w')
    ∧ (o = Ok tt ∨ ∃ a, o = Raise (AttributeError a))
    ∧ ((if BaseTrainer.shared_weights m then dom params ∖ dom sd
        else dom paramsq ∖ dom sdq) = ∅ → o = Ok tt)
    ∧ BaseTrainer.models w' !! mloc = Some m'
    ∧ BaseTrainer.doc_encoder m' = BaseTrainer.doc_encoder m
    ∧ (if BaseTrainer.shared_weights m then
         BaseTrainer.query_encoder m' = BaseTrainer.doc_encoder m'
         ∧ BaseTrainer.encoders w' !! BaseTrainer.doc_encoder m'
           = Some (BaseTrainer.load_params sd params)
         ∧ (∀ (X Y : Type) (forward : BaseTrainer.state_dict → X → Y) (x : X) qe de,
              BaseTrainer.encoders w' !! BaseTrainer.query_encoder m' = Some qe →
              BaseTrainer.encoders w' !! BaseTrainer.doc_encoder m' = Some de →
              forward qe x = forward de x)
       else
         BaseTrainer.query_encoder m' = BaseTrainer.query_encoder m
         ∧ BaseTrainer.encoders w' !! BaseTrainer.query_encoder m'
           = Some (BaseTrainer.load_params sdq paramsq))
    ∧ (∀ k x v, sd !! k = Some x → params !! k = Some v →
                BaseTrainer.shape x = BaseTrainer.shape v →
                BaseTrainer.load_params sd params !! k = Some x).
Proof.
  intros mloc enc1 Hm Hfile Hdoc Hsize Hquery.
  assert (∀ k x v, sd !! k = Some x → params !! k = Some v →
                   BaseTrainer.shape x = BaseTrainer.shape v →
                   BaseTrainer.load_params sd params !! k = Some x) as Hloaded.
  { intros k x v Hx Hv Hshape. rewrite lookup_load_params, Hv. simpl.
    unfold BaseTrainer.loaded. rewrite Hx. by destruct (decide _). }
  unfold BaseTrainer._load_from_checkpoint. fold mloc.
  unfold BaseTrainer.torch_load, BaseTrainer.deref_model, BaseTrainer.set_query_encoder.
  run_monad. rewrite Hfile, Hm.
  rewrite (load_state_dict_ok _ sd params) by done.
  rewrite !models_set_encoders, Hm.
  destruct (BaseTrainer.shared_weights m) eqn:Hshared.
  - repeat (progress (cbv beta iota; rewrite ?models_set_encoders, ?Hm)).
    match goal with
    | |- context [BaseTrainer._issue_warnings_after_load self ?r ?w1] =>
        destruct (issue_warnings_world self r w1) as (_ & He & Hmo & Ho);
        pose proof (issue_warnings_no_missing self r w1) as Hret;
        destruct (BaseTrainer._issue_warnings_after_load self r w1) as [o w'] eqn:Hrun
    end.
    simpl in He, Hmo, Ho, Hret.
    eexists o, w', _. split; [reflexivity|]. split; [done|].
    split; [intros H0; by destruct (Hret H0)|].
    rewrite Hmo, He. simpl.
    split; [apply lookup_insert_eq|]. simpl. split; [done|].
    split; [|done]. split; [done|]. split; [apply lookup_insert_eq|].
    intros X Y forward x qe de Hqe Hde. congruence.
  - destruct (Hquery eq_refl) as (Hqfile & Hqenc & Hqsize).
    repeat (progress (cbv beta iota;
                      rewrite ?files_set_encoders, ?Hqfile, ?models_set_encoders, ?Hm)).
    rewrite (load_state_dict_ok _ sdq paramsq) by done.
    match goal with
    | |- context [BaseTrainer._issue_warnings_after_load self ?r ?w1] =>
        destruct (issue_warnings_world self r w1) as (_ & He & Hmo & Ho);
        pose proof (issue_warnings_no_missing self r w1) as Hret;
        destruct (BaseTrainer._issue_warnings_after_load self r w1) as [o w'] eqn:Hrun
    end.
    simpl in He, Hmo, Ho, Hret.
    eexists o, w', m. split; [reflexivity|]. split; [done|].
    split; [intros H0; by destruct (Hret H0)|].
    rewrite Hmo, He. simpl.
    split; [done|]. split; [done|]. split; [|done].
    split; [done|]. apply lookup_insert_eq.
Qed.

Lemma checkpoint_load_shared_or_separate_witness :
  (∃ w' m',
     BaseTrainer._load_from_checkpoint sample_checkpoint.trainer "ckpt" None
       (sample_checkpoint.world true) = (Ok tt, w')
     ∧ BaseTrainer.models w' !! 3%positive = Some m'
     ∧ BaseTrainer.query_encoder m' = BaseTrainer.doc_encoder m'
     ∧ BaseTrainer.encoders w' !! BaseTrainer.doc_encoder m'
       = Some (BaseTrainer.load_params sample_checkpoint.doc_file sample_checkpoint.fresh))
  ∧ (∃ w' m',
       BaseTrainer._load_from_checkpoint sample_checkpoint.trainer "ckpt" None
         (sample_checkpoint.world false) = (Ok tt, w')
       ∧ BaseTrainer.models w' !! 3%positive = Some m'
       ∧ BaseTrainer.encoders w' !! BaseTrainer.query_encoder m'
         = Some (BaseTrainer.load_params sample_checkpoint.query_file sample_checkpoint.fresh)).
Proof.
  split.
  - destruct (checkpoint_load_shared_or_separate sample_checkpoint.trainer "ckpt" None
                (sample_checkpoint.world true)
                {| BaseTrainer.doc_encoder := 1; BaseTrainer.query_encoder := 2;
                   BaseTrainer.shared_weights := true;
                   BaseTrainer._keys_to_ignore_on_save := None |}
                sample_checkpoint.doc_file sample_checkpoint.fresh
                sample_checkpoint.query_file sample_checkpoint.fresh)
      as (o & w' & m' & Hrun & _ & Hret & Hm' & _ & (Hq & He & _) & _);
      [reflexivity | reflexivity | reflexivity | reflexivity | discriminate |].
    rewrite (Hret eq_refl) in Hrun. exists w', m'. done.
  - destruct (checkpoint_load_shared_or_separate sample_checkpoint.trainer "ckpt" None
                (sample_checkpoint.world false)
                {| BaseTrainer.doc_encoder := 1; BaseTrainer.query_encoder := 2;
                   BaseTrainer.shared_weights := false;
                   BaseTrainer._keys_to_ignore_on_save := None |}
                sample_checkpoint.doc_file sample_checkpoint.fresh
                sample_checkpoint.query_file sample_checkpoint.fresh)
      as (o & w' & m' & Hrun & _ & Hret & Hm' & _ & (Hq & He) & _);
      [reflexivity | reflexivity | reflexivity | reflexivity | |].
    + intros _. split; [reflexivity|]. split; reflexivity.
    + rewrite (Hret eq_refl) in Hrun. exists w', m'. done.
Defined.

Example os_path_join_checkpoint :
  BaseTrainer.os_path_join "ckpt" "pytorch_model.bin" = "ckpt/pytorch_model.bin"
  ∧ BaseTrainer.os_path_join (BaseTrainer.os_path_join "ckpt/" "query") "pytorch_model.bin"
    = "ckpt/query/pytorch_model.bin".
Proof. split; reflexivity. Qed.

(** ** C4: the log hooks *)

Lemma Distil_step_config self self' model b :
  Distil_config self = Distil_config self' →
  Distil_step self model b = Distil_step self' model b.
Proof.
  unfold Distil_config. intros [= Hmse Hdoc Hdense Hd Hq].
  unfold Distil_step, DistilTrainer.distillation, DistilTrainer.flops_term.
  by rewrite Hmse, Hdoc, Hdense, Hd, Hq.
Qed.

Lemma Distil_compute_loss_step model ro self b r self' b' :
  DistilTrainer.compute_loss model ro (self, b) = (Ok r, (self', b')) →
  ∃ v, Distil_step self model b = Ok v
       ∧ self' = Distil_after self (v_ce v) (v_distil v) (v_flops v) (v_anti_zero v)
                   (v_l0d v) (v_l0q v).
Proof.
  unfold DistilTrainer.compute_loss, Distil_step.
  destruct (b !! "scores") as [ts|] eqn:Hs; run_monad; repeat (rewrite Hs; simpl); [|done].
  destruct (model (delete "scores" b)) as [q d].
  change (DistilTrainer.distillation _ ?x ?y) with (DistilTrainer.distillation self x y).
  destruct (DistilTrainer.distillation self _ ts) as [dl|]; simpl; [|done].
  destruct (DistilTrainer.contrastive q d _) as [ce|]; simpl; [|done].
  unfold Distil_after. simpl.
  destruct (DistilTrainer.dense self); simpl.
  - intros [= <- <- <-]. eexists. split; [reflexivity | done].
  - change (DistilTrainer.flops_term _ q d) with (DistilTrainer.flops_term self q d).
    destruct (DistilTrainer.flops_term self q d) as [fl|]; simpl; [|done].
    destruct (DistilTrainer.L0_of d) as [l0d|]; simpl; [|done].
    destruct (DistilTrainer.L0_of q) as [l0q|]; simpl; [|done].
    intros [= <- <- <-]. eexists. split; [reflexivity | done].
Qed.

Lemma Distil_after_fields self ce dl fl az l0d l0q :
  let self' := Distil_after self ce dl fl az l0d l0q in
  let sparse (x : scalar) := if DistilTrainer.dense self then [] else [x] in
  Distil_config self' = Distil_config self
  ∧ DistilTrainer.state self' = DistilTrainer.state self
  ∧ DistilTrainer.last_celoss self' = DistilTrainer.last_celoss self ++ [ce]
  ∧ DistilTrainer.last_distilloss self' = DistilTrainer.last_distilloss self ++ [dl]
  ∧ DistilTrainer.last_flops self' = DistilTrainer.last_flops self ++ sparse fl
  ∧ DistilTrainer.last_anti_zero self' = DistilTrainer.last_anti_zero self ++ sparse az
  ∧ DistilTrainer.last_docs self' = DistilTrainer.last_docs self ++ sparse l0d
  ∧ DistilTrainer.last_queries self' = DistilTrainer.last_queries self ++ sparse l0q.
Proof.
  unfold Distil_after, Distil_config. simpl.
  destruct (DistilTrainer.dense self) eqn:Hdense; simpl; rewrite ?app_nil_r, ?Hdense; done.
Qed.

(** After some steps each list holds what it held, then one value per step. *)
Lemma Distil_steps_accumulate model batches self self' :
  Distil_steps model batches self = Ok self' →
  let sparse (l : list scalar) := if DistilTrainer.dense self then [] else l in
  ∃ vs,
    Forall2 (λ b v, Distil_step self model b = Ok v) batches vs
    ∧ Distil_config self' = Distil_config self
    ∧ DistilTrainer.state self' = DistilTrainer.state self
    ∧ DistilTrainer.last_celoss self' = DistilTrainer.last_celoss self ++ map v_ce vs
    ∧ DistilTrainer.last_distilloss self'
      = DistilTrainer.last_distilloss self ++ map v_distil vs
    ∧ DistilTrainer.last_flops self'
      = DistilTrainer.last_flops self ++ sparse (map v_flops vs)
    ∧ DistilTrainer.last_anti_zero self'
      = DistilTrainer.last_anti_zero self ++ sparse (map v_anti_zero vs)
    ∧ DistilTrainer.last_docs self' = DistilTrainer.last_docs self ++ sparse (map v_l0d vs)
    ∧ DistilTrainer.last_queries self'
      = DistilTrainer.last_queries self ++ sparse (map v_l0q vs).
Proof.
  revert self. induction batches as [|b batches IH]; intros self Hsteps sparse.
  - injection Hsteps as <-. exists []. unfold sparse.
    destruct (DistilTrainer.dense self); rewrite ?app_nil_r; repeat split; constructor.
  - simpl in Hsteps.
    destruct (DistilTrainer.compute_loss model false (self, b)) as [[r|e] [self1 b1]] eqn:Hstep;
      [|done].
    apply Distil_compute_loss_step in Hstep as (v & Hv & ->).
    destruct (Distil_after_fields self (v_ce v) (v_distil v) (v_flops v) (v_anti_zero v)
                (v_l0d v) (v_l0q v)) as (Hc & Hst & H1 & H2 & H3 & H4 & H5 & H6).
    destruct (IH _ Hsteps) as (vs & Hvs & Hc' & Hst' & H1' & H2' & H3' & H4' & H5' & H6').
    assert (DistilTrainer.dense (Distil_after self (v_ce v) (v_distil v) (v_flops v)
              (v_anti_zero v) (v_l0d v) (v_l0q v)) = DistilTrainer.dense self) as Hdense
      by (unfold Distil_config in Hc; congruence).
    rewrite Hdense in H3', H4', H5', H6'.
    exists (v :: vs). split; [|split; [|split]].
    + constructor; [done|]. eapply Forall2_impl; [exact Hvs|].
      intros b0 v0 <-. by apply Distil_step_config.
    + congruence.
    + congruence.
    + rewrite H1', H2', H3', H4', H5', H6', H1, H2, H3, H4, H5, H6. unfold sparse.
      destruct (DistilTrainer.dense self); simpl; rewrite <- ?app_assoc; done.
Qed.

(** What a call of [DistilTrainer.log] leaves, by the lists it finds. *)
Lemma Distil_log_flush round self logs :
  ∃ self' logs',
    DistilTrainer.log round (self, logs) = (Ok tt, (self', logs'))
    ∧ Distil_config self' = Distil_config self
    ∧ (DistilTrainer.last_celoss self' = [] ∧ DistilTrainer.last_distilloss self' = []
       ∧ DistilTrainer.last_flops self' = [] ∧ DistilTrainer.last_anti_zero self' = []
       ∧ DistilTrainer.last_docs self' = [] ∧ DistilTrainer.last_queries self' = [])
    ∧ logs' !! "ce_loss" = Some (PyFloat (np_mean (DistilTrainer.last_celoss self)))
    ∧ logs' !! "distil_loss" = Some (PyFloat (np_mean (DistilTrainer.last_distilloss self)))
    ∧ (DistilTrainer.dense self = false →
       logs' !! "L0_d" = Some (PyFloat (np_mean (DistilTrainer.last_docs self)))
       ∧ logs' !! "L0_q" = Some (PyFloat (np_mean (DistilTrainer.last_queries self)))
       ∧ logs' !! "flops_loss" = Some (PyFloat (np_mean (DistilTrainer.last_flops self)))
       ∧ logs' !! "anti-zero" = Some (PyFloat (np_mean (DistilTrainer.last_anti_zero self))))
    ∧ (∀ e, epoch (DistilTrainer.state self) = Some e →
            logs' !! "epoch" = Some (PyFloat (Some (round e 2%Z))))
    ∧ log_history (DistilTrainer.state self')
      = log_history (DistilTrainer.state self)
        ++ [<["step" := PyInt (global_step (DistilTrainer.state self))]> logs'].
Proof.
  unfold DistilTrainer.log. run_monad.
  destruct (epoch (DistilTrainer.state self)) as [e|] eqn:He;
    destruct (DistilTrainer.dense self) eqn:Hdense; simpl;
    (eexists _, _; split; [reflexivity|]);
    unfold Distil_config; simpl; rewrite ?Hdense;
    repeat split; try done; intros; simplify_map_eq; done.
Qed.

Lemma FirstStage_step_config self self' model b :
  FirstStage_config self = FirstStage_config self' →
  FirstStage_step self model b = FirstStage_step self' model b.
Proof.
  unfold FirstStage_config. intros [= Hdoc Hdense Hd Hq].
  unfold FirstStage_step, FirstStageTrainer.flops_term.
  by rewrite Hdoc, Hdense, Hd, Hq.
Qed.

Lemma FirstStage_compute_loss_step model ro self b r self' b' :
  FirstStageTrainer.compute_loss model ro (self, b) = (Ok r, (self', b')) →
  ∃ v, FirstStage_step self model b = Ok v
       ∧ self' = FirstStage_after self (v_ce v) (v_flops v) (v_anti_zero v) (v_l0d v) (v_l0q v).
Proof.
  rewrite <- FirstStage_delete_scores.
  unfold FirstStageTrainer.compute_loss, FirstStage_step. run_monad.
  rewrite lookup_delete_eq. simpl.
  destruct (model (delete "scores" b)) as [q d].
  destruct (FirstStageTrainer.contrastive q d _) as [ce|]; simpl; [|done].
  unfold FirstStage_after. simpl.
  destruct (FirstStageTrainer.dense self); simpl.
  - intros [= <- <- <-]. eexists. split; [reflexivity | done].
  - change (FirstStageTrainer.flops_term _ q d) with (FirstStageTrainer.flops_term self q d).
    destruct (FirstStageTrainer.flops_term self q d) as [fl|]; simpl; [|done].
    destruct (FirstStageTrainer.L0_of d) as [l0d|]; simpl; [|done].
    destruct (FirstStageTrainer.L0_of q) as [l0q|]; simpl; [|done].
    intros [= <- <- <-]. eexists. split; [reflexivity | done].
Qed.

Lemma FirstStage_after_fields self ce fl az l0d l0q :
  let self' := FirstStage_after self ce fl az l0d l0q in
  let sparse (x : scalar) := if FirstStageTrainer.dense self then [] else [x] in
  FirstStage_config self' = FirstStage_config self
  ∧ FirstStageTrainer.state self' = FirstStageTrainer.state self
  ∧ FirstStageTrainer.last_celoss self' = FirstStageTrainer.last_celoss self ++ [ce]
  ∧ FirstStageTrainer.last_flops self' = FirstStageTrainer.last_flops self ++ sparse fl
  ∧ FirstStageTrainer.last_anti_zero self'
    = FirstStageTrainer.last_anti_zero self ++ sparse az
  ∧ FirstStageTrainer.last_docs self' = FirstStageTrainer.last_docs self ++ sparse l0d
  ∧ FirstStageTrainer.last_queries self' = FirstStageTrainer.last_queries self ++ sparse l0q.
Proof.
  unfold FirstStage_after, FirstStage_config. simpl.
  destruct (FirstStageTrainer.dense self) eqn:Hdense; simpl; rewrite ?app_nil_r, ?Hdense; done.
Qed.

Lemma FirstStage_steps_accumulate model batches self self' :
  FirstStage_steps model batches self = Ok self' →
  let sparse (l : list scalar) := if FirstStageTrainer.dense self then [] else l in
  ∃ vs,
    Forall2 (λ b v, FirstStage_step self model b = Ok v) batches vs
    ∧ FirstStage_config self' = FirstStage_config self
    ∧ FirstStageTrainer.state self' = FirstStageTrainer.state self
    ∧ FirstStageTrainer.last_celoss self' = FirstStageTrainer.last_celoss self ++ map v_ce vs
    ∧ FirstStageTrainer.last_flops self'
      = FirstStageTrainer.last_flops self ++ sparse (map v_flops vs)
    ∧ FirstStageTrainer.last_anti_zero self'
      = FirstStageTrainer.last_anti_zero self ++ sparse (map v_anti_zero vs)
    ∧ FirstStageTrainer.last_docs self'
      = FirstStageTrainer.last_docs self ++ sparse (map v_l0d vs)
    ∧ FirstStageTrainer.last_queries self'
      = FirstStageTrainer.last_queries self ++ sparse (map v_l0q vs).
Proof.
  revert self. induction batches as [|b batches IH]; intros self Hsteps sparse.
  - injection Hsteps as <-. exists []. unfold sparse.
    destruct (FirstStageTrainer.dense self); rewrite ?app_nil_r; repeat split; constructor.
  - simpl in Hsteps.
    destruct (FirstStageTrainer.compute_loss model false (self, b))
      as [[r|e] [self1 b1]] eqn:Hstep; [|done].
    apply FirstStage_compute_loss_step in Hstep as (v & Hv & ->).
    destruct (FirstStage_after_fields self (v_ce v) (v_flops v) (v_anti_zero v)
                (v_l0d v) (v_l0q v)) as (Hc & Hst & H1 & H3 & H4 & H5 & H6).
    destruct (IH _ Hsteps) as (vs & Hvs & Hc' & Hst' & H1' & H3' & H4' & H5' & H6').
    assert (FirstStageTrainer.dense (FirstStage_after self (v_ce v) (v_flops v)
              (v_anti_zero v) (v_l0d v) (v_l0q v)) = FirstStageTrainer.dense self) as Hdense
      by (unfold FirstStage_config in Hc; congruence).
    rewrite Hdense in H3', H4', H5', H6'.
    exists (v :: vs). split; [|split; [|split]].
    + constructor; [done|]. eapply Forall2_impl; [exact Hvs|].
      intros b0 v0 <-. by apply FirstStage_step_config.
    + congruence.
    + congruence.
    + rewrite H1', H3', H4', H5', H6', H1, H3, H4, H5, H6. unfold sparse.
      destruct (FirstStageTrainer.dense self); simpl; rewrite <- ?app_assoc; done.
Qed.

Lemma FirstStage_log_flush round self logs :
  ∃ self' logs',
    FirstStageTrainer.log round (self, logs) = (Ok tt, (self', logs'))
    ∧ FirstStage_config self' = FirstStage_config self
    ∧ (FirstStageTrainer.last_celoss self' = [] ∧ FirstStageTrainer.last_flops self' = []
       ∧ FirstStageTrainer.last_anti_zero self' = []
       ∧ FirstStageTrainer.last_docs self' = [] ∧ FirstStageTrainer.last_queries self' = [])
    ∧ logs' !! "ce_loss" = Some (PyFloat (np_mean (FirstStageTrainer.last_celoss self)))
    ∧ (FirstStageTrainer.dense self = false →
       logs' !! "L0_d" = Some (PyFloat (np_mean (FirstStageTrainer.last_docs self)))
       ∧ logs' !! "L0_q" = Some (PyFloat (np_mean (FirstStageTrainer.last_queries self)))
       ∧ logs' !! "flops_loss" = Some (PyFloat (np_mean (FirstStageTrainer.last_flops self)))
       ∧ logs' !! "anti-zero"
         = Some (PyFloat (np_mean (FirstStageTrainer.last_anti_zero self))))
    ∧ (∀ e, epoch (FirstStageTrainer.state self) = Some e →
            logs' !! "epoch" = Some (PyFloat (Some (round e 2%Z))))
    ∧ log_history (FirstStageTrainer.state self')
      = log_history (FirstStageTrainer.state self)
        ++ [<["step" := PyInt (global_step (FirstStageTrainer.state self))]> logs'].
Proof.
  unfold FirstStageTrainer.log. run_monad.
  destruct (epoch (FirstStageTrainer.state self)) as [e|] eqn:He;
    destruct (FirstStageTrainer.dense self) eqn:Hdense; simpl;
    (eexists _, _; split; [reflexivity|]);
    unfold FirstStage_config; simpl; rewrite ?Hdense;
    repeat split; try done; intros; simplify_map_eq; done.
Qed.

Lemma Reranker2_compute_loss_step model ro self b r self' b' :
  RerankerTrainer2.compute_loss model ro (self, b) = (Ok r, (self', b')) →
  ∃ ce dl, Reranker2_step self model b = Ok (ce, dl)
           ∧ self' = RerankerTrainer2.set_last_distilloss dl
                       (RerankerTrainer2.set_last_celoss ce self).
Proof.
  unfold RerankerTrainer2.compute_loss, Reranker2_step.
  destruct (b !! "scores") as [ts|] eqn:Hs; run_monad; repeat (rewrite Hs; simpl); [|done].
  destruct (torch.view_rows _ _) as [scores|]; simpl; [|done].
  destruct (RerankerTrainer2.distillation self scores ts) as [dl|]; simpl; [|done].
  intros [= <- <- <-]. eauto.
Qed.

Lemma Reranker2_step_config self self' model b :
  RerankerTrainer2.n_negatives self = RerankerTrainer2.n_negatives self' →
  RerankerTrainer2.mse_margin self = RerankerTrainer2.mse_margin self' →
  Reranker2_step self model b = Reranker2_step self' model b.
Proof.
  intros Hn Hmse. unfold Reranker2_step, RerankerTrainer2.distillation.
  by rewrite Hn, Hmse.
Qed.

(** After some steps the two attributes hold the values of the last one. *)
Lemma Reranker2_steps_last model batches b self self' :
  Reranker2_steps model (batches ++ [b]) self = Ok self' →
  ∃ ce dl, Reranker2_step self model b = Ok (ce, dl)
           ∧ RerankerTrainer2.last_celoss self' = Some ce
           ∧ RerankerTrainer2.last_distilloss self' = Some dl
           ∧ RerankerTrainer2.state self' = RerankerTrainer2.state self.
Proof.
  revert self. induction batches as [|b0 batches IH]; intros self; simpl.
  - destruct (RerankerTrainer2.compute_loss model false (self, b)) as [[r|e] [self1 b1]] eqn:Hstep;
      [|done].
    intros [= <-]. apply Reranker2_compute_loss_step in Hstep as (ce & dl & Hv & ->).
    exists ce, dl. done.
  - destruct (RerankerTrainer2.compute_loss model false (self, b0))
      as [[r|e] [self1 b1]] eqn:Hstep; [|done].
    intros Hsteps. apply Reranker2_compute_loss_step in Hstep as (ce0 & dl0 & _ & ->).
    destruct (IH _ Hsteps) as (ce & dl & Hv & Hce & Hdl & Hst).
    exists ce, dl. split; [|done].
    rewrite <- Hv. by apply Reranker2_step_config.
Qed.

(** [RerankerTrainer2.log] reports the two attributes and keeps them. *)
Lemma Reranker2_log_last round self logs ce dl :
  RerankerTrainer2.last_celoss self = Some ce →
  RerankerTrainer2.last_distilloss self = Some dl →
  ∃ self' logs',
    RerankerTrainer2.log round (self, logs) = (Ok tt, (self', logs'))
    ∧ logs' !! "ce_loss" = Some (PyFloat ce)
    ∧ logs' !! "distil_loss" = Some (PyFloat dl)
    ∧ RerankerTrainer2.last_celoss self' = Some ce
    ∧ RerankerTrainer2.last_distilloss self' = Some dl.
Proof.
  intros Hce Hdl. unfold RerankerTrainer2.log, RerankerTrainer2.getattr. run_monad.
  rewrite Hce, Hdl.
  destruct (epoch (RerankerTrainer2.state self)) as [e|]; simpl;
    (eexists _, _; split; [reflexivity|]); simpl;
    repeat split; try done; simplify_map_eq; done.
Qed.

Lemma np_mean_finite xs :
  (0 < length xs)%nat →
  np_mean (map Some xs) = Some (torch.sum xs / INR (length xs)).
Proof.
  intros Hne. unfold np_mean.
  assert (mapM (M := option) (A := option R) (λ x, x) (map Some xs) = Some xs) as ->.
  { clear. induction xs as [|x xs IH]; [done|]. simpl. by rewrite IH. }
  simpl. by apply mean_nonempty.
Qed.

Lemma Distil_flushed_steps_log round model self1 batches self2 logs :
  Distil_flushed self1 →
  Distil_steps model batches self1 = Ok self2 →
  ∃ vs self3 logs',
    Forall2 (λ b v, Distil_step self1 model b = Ok v) batches vs
    ∧ DistilTrainer.log round (self2, logs) = (Ok tt, (self3, logs'))
    ∧ emits_means true (DistilTrainer.dense self1) vs logs'
    ∧ emits_epoch round (DistilTrainer.state self2) logs'
    ∧ Distil_flushed self3.
Proof.
  intros (F1 & F2 & F3 & F4 & F5 & F6) Hsteps.
  destruct (Distil_steps_accumulate _ _ _ _ Hsteps)
    as (vs & Hvs & Hc2 & _ & A1 & A2 & A3 & A4 & A5 & A6).
  rewrite F1, F2, F3, F4, F5, F6 in *. simpl in *.
  assert (DistilTrainer.dense self2 = DistilTrainer.dense self1) as Hd2
    by (unfold Distil_config in Hc2; congruence).
  destruct (Distil_log_flush round self2 logs)
    as (self3 & logs' & Hlog & _ & Hflushed & E1 & E2 & E3 & E4 & _).
  exists vs, self3, logs'. split; [done|]. split; [done|]. split; [|done].
  unfold emits_means. rewrite <- A1, <- A2. split; [done|]. split; [done|].
  intros Hdense. rewrite Hdense in *. rewrite <- A3, <- A4, <- A5, <- A6.
  apply E3. congruence.
Qed.

Lemma FirstStage_flushed_steps_log round model self1 batches self2 logs :
  FirstStage_flushed self1 →
  FirstStage_steps model batches self1 = Ok self2 →
  ∃ vs self3 logs',
    Forall2 (λ b v, FirstStage_step self1 model b = Ok v) batches vs
    ∧ FirstStageTrainer.log round (self2, logs) = (Ok tt, (self3, logs'))
    ∧ emits_means false (FirstStageTrainer.dense self1) vs logs'
    ∧ emits_epoch round (FirstStageTrainer.state self2) logs'
    ∧ FirstStage_flushed self3.
Proof.
  intros (F1 & F3 & F4 & F5 & F6) Hsteps.
  destruct (FirstStage_steps_accumulate _ _ _ _ Hsteps)
    as (vs & Hvs & Hc2 & _ & A1 & A3 & A4 & A5 & A6).
  rewrite F1, F3, F4, F5, F6 in *. simpl in *.
  assert (FirstStageTrainer.dense self2 = FirstStageTrainer.dense self1) as Hd2
    by (unfold FirstStage_config in Hc2; congruence).
  destruct (FirstStage_log_flush round self2 logs)
    as (self3 & logs' & Hlog & _ & Hflushed & E1 & E3 & E4 & _).
  exists vs, self3, logs'. split; [done|]. split; [done|]. split; [|done].
  unfold emits_means. rewrite <- A1. split; [done|]. split; [done|].
  intros Hdense. rewrite Hdense in *. rewrite <- A3, <- A4, <- A5, <- A6.
  apply E3. congruence.
Qed.

Lemma Reranker2_steps_log round model batches b self self' logs :
  Reranker2_steps model (batches ++ [b]) self = Ok self' →
  ∃ ce dl self'' logs',
    Reranker2_step self model b = Ok (ce, dl)
    ∧ RerankerTrainer2.log round (self', logs) = (Ok tt, (self'', logs'))
    ∧ logs' !! "ce_loss" = Some (PyFloat ce)
    ∧ logs' !! "distil_loss" = Some (PyFloat dl)
    ∧ RerankerTrainer2.last_celoss self'' = Some ce
    ∧ RerankerTrainer2.last_distilloss self'' = Some dl.
Proof.
  intros Hsteps.
  destruct (Reranker2_steps_last _ _ _ _ _ Hsteps) as (ce & dl & Hv & Hce & Hdl & _).
  destruct (Reranker2_log_last round self' logs ce dl Hce Hdl)
    as (self'' & logs' & Hlog & L1 & L2 & K1 & K2).
  exists ce, dl, self'', logs'. done.
Qed.

Lemma Distil_log_flushes round self logs :
  Distil_flushed (DistilTrainer.log round (self, logs)).2.1.
Proof.
  destruct (Distil_log_flush round self logs) as (self' & logs' & -> & _ & Hflushed & _).
  exact Hflushed.
Qed.

Lemma FirstStage_log_flushes round self logs :
  FirstStage_flushed (FirstStageTrainer.log round (self, logs)).2.1.
Proof.
  destruct (FirstStage_log_flush round self logs) as (self' & logs' & -> & _ & Hflushed & _).
  exact Hflushed.
Qed.

(** C4, as amended.  [DistilTrainer] and [FirstStageTrainer], the trainers
    that accumulate the metrics of each step in lists, have every list empty
    once [__init__] has built them and after each call of the log hook.  A
    call of the log hook that follows some steps made from there emits, for
    every tracked metric, the [np.mean] of the values of these steps and of
    no other (the arithmetic mean when there is a step and the values are
    finite), with the epoch rounded to two digits when the trainer state has
    one, and leaves every list empty.  [RerankerTrainer2] keeps no list: its
    log hook emits the contrastive and distillation values of the last step
    alone, and leaves them in place. *)
Theorem log_emits_means_since_last_flush
    (round : R → Z → R)
    (ds_model fs_model : batch → dual_output) (r2_model : batch → RerankerTrainer.output)
    (ds_self1 ds_self2 : DistilTrainer.t) (fs_self1 fs_self2 : FirstStageTrainer.t)
    (r2_self r2_self' : RerankerTrainer2.t)
    (ds_logs fs_logs r2_logs : record)
    (ds_batches fs_batches r2_batches : list batch) (r2_last : batch) :
  Distil_flushed ds_self1 →
  FirstStage_flushed fs_self1 →
  Distil_steps ds_model ds_batches ds_self1 = Ok ds_self2 →
  FirstStage_steps fs_model fs_batches fs_self1 = Ok fs_self2 →
  Reranker2_steps r2_model (r2_batches ++ [r2_last]) r2_self = Ok r2_self' →
  (∃ vs self3 logs',
     Forall2 (λ b v, Distil_step ds_self1 ds_model b = Ok v) ds_batches vs
     ∧ DistilTrainer.log round (ds_self2, ds_logs) = (Ok tt, (self3, logs'))
     ∧ emits_means true (DistilTrainer.dense ds_self1) vs logs'
     ∧ emits_epoch round (DistilTrainer.state ds_self2) logs'
     ∧ Distil_flushed self3)
  ∧ (∃ vs self3 logs',
       Forall2 (λ b v, FirstStage_step fs_self1 fs_model b = Ok v) fs_batches vs
       ∧ FirstStageTrainer.log round (fs_self2, fs_logs) = (Ok tt, (self3, logs'))
       ∧ emits_means false (FirstStageTrainer.dense fs_self1) vs logs'
       ∧ emits_epoch round (FirstStageTrainer.state fs_self2) logs'
       ∧ FirstStage_flushed self3)
  ∧ (∃ ce dl self'' logs',
       Reranker2_step r2_self r2_model r2_last = Ok (ce, dl)
       ∧ RerankerTrainer2.log round (r2_self', r2_logs) = (Ok tt, (self'', logs'))
       ∧ logs' !! "ce_loss" = Some (PyFloat ce)
       ∧ logs' !! "distil_loss" = Some (PyFloat dl)
       ∧ RerankerTrainer2.last_celoss self'' = Some ce
       ∧ RerankerTrainer2.last_distilloss self'' = Some dl)
  ∧ (∀ xs, (0 < length xs)%nat →
           np_mean (map Some xs) = Some (torch.sum xs / INR (length xs)))
  ∧ (∀ n shared mse splade_doc dense args st c on_log,
       Distil_flushed (DistilTrainer.__init__ n shared mse splade_doc dense args st c on_log).1
       ∧ FirstStage_flushed
           (FirstStageTrainer.__init__ n shared splade_doc dense args st c on_log).1)
  ∧ (∀ ds_self fs_self logs,
       Distil_flushed (DistilTrainer.log round (ds_self, logs)).2.1
       ∧ FirstStage_flushed (FirstStageTrainer.log round (fs_self, logs)).2.1).
Proof.
  intros Hdf Hff Hds Hfs Hr2.
  split; [by eapply Distil_flushed_steps_log|].
  split; [by eapply FirstStage_flushed_steps_log|].
  split; [by eapply Reranker2_steps_log|].
  split; [exact np_mean_finite|].
  split; [intros; split; by repeat split|].
  intros ds_self fs_self logs.
  split; [apply Distil_log_flushes | apply FirstStage_log_flushes].
Qed.

Lemma Reranker2_step_run model ro self b ce dl :
  Reranker2_step self model b = Ok (ce, dl) →
  ∃ r, RerankerTrainer2.compute_loss model ro (self, b)
       = (Ok r, (RerankerTrainer2.set_last_distilloss dl
                   (RerankerTrainer2.set_last_celoss ce self), delete "scores" b)).
Proof.
  unfold Reranker2_step. destruct (b !! "scores") as [ts|] eqn:Hs; [|done].
  destruct (torch.view_rows _ _) as [scores|] eqn:Hview; simpl; [|done].
  destruct (RerankerTrainer2.distillation self scores ts) as [dl'|] eqn:Hdl; simpl; [|done].
  intros [= <- <-]. eexists. by eapply Reranker2_run.
Qed.

Lemma sample_step1 :
  ∃ c, Reranker2_step (sample.reranker2 1 true) sample_log.cross_model sample_log.batch1
       = Ok (c, Some 1).
Proof.
  eexists. unfold Reranker2_step.
  assert (sample_log.batch1 !! "scores" = Some [0; 0]) as -> by reflexivity.
  assert (delete "scores" sample_log.batch1 !! "input_ids" = Some [1; 0]) as H by reflexivity.
  unfold sample_log.cross_model. rewrite H. simpl.
  apply (f_equal Ok). apply f_equal2; [reflexivity|]. f_equal. lra.
Qed.

Lemma sample_step2 :
  ∃ c, Reranker2_step (sample.reranker2 1 true) sample_log.cross_model sample_log.batch2
       = Ok (c, Some 9).
Proof.
  eexists. unfold Reranker2_step.
  assert (sample_log.batch2 !! "scores" = Some [0; 0]) as -> by reflexivity.
  assert (delete "scores" sample_log.batch2 !! "input_ids" = Some [3; 0]) as H by reflexivity.
  unfold sample_log.cross_model. rewrite H. simpl.
  apply (f_equal Ok). apply f_equal2; [reflexivity|]. f_equal. lra.
Qed.

Lemma sample_steps :
  ∃ self', Reranker2_steps sample_log.cross_model [sample_log.batch1; sample_log.batch2]
             (sample.reranker2 1 true) = Ok self'.
Proof.
  destruct sample_step1 as [c1 H1]. destruct sample_step2 as [c2 H2].
  destruct (Reranker2_step_run _ false _ _ _ _ H1) as [r1 Hr1].
  simpl. rewrite Hr1.
  set (self1 := RerankerTrainer2.set_last_distilloss _ _).
  assert (Reranker2_step self1 sample_log.cross_model sample_log.batch2 = Ok (c2, Some 9))
    as H2' by (rewrite <- H2; apply Reranker2_step_config; reflexivity).
  destruct (Reranker2_step_run _ false _ _ _ _ H2') as [r2 Hr2].
  rewrite Hr2. eauto.
Qed.

(** C4 does not hold on [RerankerTrainer2]: after two steps whose
    distillation values are 1 and 9, the log hook emits 9, the value of the
    last step, and not their mean 5. *)
Lemma reranker2_log_emits_last_step_only :
  ∃ c1 c2 self' self'' logs',
    Reranker2_step (sample.reranker2 1 true) sample_log.cross_model sample_log.batch1
    = Ok (c1, Some 1)
    ∧ Reranker2_step (sample.reranker2 1 true) sample_log.cross_model sample_log.batch2
      = Ok (c2, Some 9)
    ∧ Reranker2_steps sample_log.cross_model [sample_log.batch1; sample_log.batch2]
        (sample.reranker2 1 true) = Ok self'
    ∧ RerankerTrainer2.log sample_log.round (self', ∅) = (Ok tt, (self'', logs'))
    ∧ logs' !! "distil_loss" = Some (PyFloat (Some 9))
    ∧ np_mean [Some 1; Some 9] = Some 5.
Proof.
  destruct sample_step1 as [c1 H1]. destruct sample_step2 as [c2 H2].
  destruct sample_steps as [self' Hsteps].
  destruct (Reranker2_steps_last _ [sample_log.batch1] _ _ _ Hsteps)
    as (ce & dl & Hv & Hce & Hdl & _).
  rewrite H2 in Hv. injection Hv as <- <-.
  destruct (Reranker2_log_last sample_log.round self' ∅ c2 (Some 9) Hce Hdl)
    as (self'' & logs' & Hlog & _ & Hl & _).
  exists c1, c2, self', self'', logs'.
  repeat split; try done.
  unfold np_mean. simpl. f_equal. lra.
Qed.

Lemma Distil_steps_one model self b r self' b' :
  DistilTrainer.compute_loss model false (self, b) = (Ok r, (self', b')) →
  Distil_steps model [b] self = Ok self'.
Proof. intros H. simpl. by rewrite H. Qed.

Lemma FirstStage_steps_one model self b r self' b' :
  FirstStageTrainer.compute_loss model false (self, b) = (Ok r, (self', b')) →
  FirstStage_steps model [b] self = Ok self'.
Proof. intros H. simpl. by rewrite H. Qed.

Lemma Distil_steps_cons model self b r self' b' batches self'' :
  DistilTrainer.compute_loss model false (self, b) = (Ok r, (self', b')) →
  Distil_steps model batches self' = Ok self'' →
  Distil_steps model (b :: batches) self = Ok self''.
Proof. intros H1 H2. simpl. by rewrite H1. Qed.

Lemma FirstStage_steps_cons model self b r self' b' batches self'' :
  FirstStageTrainer.compute_loss model false (self, b) = (Ok r, (self', b')) →
  FirstStage_steps model batches self' = Ok self'' →
  FirstStage_steps model (b :: batches) self = Ok self''.
Proof. intros H1 H2. simpl. by rewrite H1. Qed.

Lemma Distil_step_distil self model b ts q d v :
  b !! "scores" = Some ts →
  model (delete "scores" b) = (q, d) →
  Distil_step self model b = Ok v →
  DistilTrainer.distillation self (DistilTrainer.pair_scores q d) ts = Ok (v_distil v).
Proof.
  intros Hs Hm. unfold Distil_step. rewrite Hs, Hm.
  destruct (DistilTrainer.distillation _ _ _) as [dl|e]; simpl; [|done].
  destruct (DistilTrainer.contrastive _ _ _) as [ce|e]; simpl; [|done].
  destruct (DistilTrainer.dense self); [by intros [= <-]|].
  destruct (DistilTrainer.flops_term _ _ _) as [fl|e]; simpl; [|done].
  destruct (DistilTrainer.L0_of d) as [l0d|e]; simpl; [|done].
  destruct (DistilTrainer.L0_of q) as [l0q|e]; simpl; [|done].
  by intros [= <-].
Qed.

Lemma FirstStage_step_l0d self model b q d v :
  model (delete "scores" b) = (q, d) →
  FirstStageTrainer.dense self = false →
  FirstStage_step self model b = Ok v →
  FirstStageTrainer.L0_of d = Ok (v_l0d v).
Proof.
  intros Hm Hd. unfold FirstStage_step. rewrite Hm, Hd.
  destruct (FirstStageTrainer.contrastive _ _ _) as [ce|e]; simpl; [|done].
  destruct (FirstStageTrainer.flops_term _ _ _) as [fl|e]; simpl; [|done].
  destruct (FirstStageTrainer.L0_of d) as [l0d|e]; simpl; [|done].
  destruct (FirstStageTrainer.L0_of q) as [l0q|e]; simpl; [|done].
  by intros [= <-].
Qed.

Lemma sample_distil_values :
  DistilTrainer.distillation sample_log.distil_init
    (DistilTrainer.pair_scores sample.queries sample.docs) [1; 2; 3; 4] = Ok (Some (5 / 2))
  ∧ DistilTrainer.distillation sample_log.distil_init
      (DistilTrainer.pair_scores sample.queries sample.docs) [2; 1; 1; 1] = Ok (Some 0).
Proof.
  split; unfold DistilTrainer.distillation; simpl; apply (f_equal Ok); f_equal;
    unfold torch.dot; simpl; lra.
Qed.

Lemma sample_L0_values :
  FirstStageTrainer.L0_of [[[1; 0]]] = Ok (Some 1)
  ∧ FirstStageTrainer.L0_of [[[1; 1]]] = Ok (Some 2).
Proof.
  split; unfold FirstStageTrainer.L0_of, BaseTrainer._L0; simpl;
    repeat destruct (Req_dec_T _ _); try lra; apply (f_equal Ok); f_equal; simpl; lra.
Qed.

Lemma log_emits_means_since_last_flush_witness :
  (∃ self2 self3 (logs' : record),
     DistilTrainer.distillation sample_log.distil_init
       (DistilTrainer.pair_scores sample.queries sample.docs) [1; 2; 3; 4] = Ok (Some (5 / 2))
     ∧ DistilTrainer.distillation sample_log.distil_init
         (DistilTrainer.pair_scores sample.queries sample.docs) [2; 1; 1; 1] = Ok (Some 0)
     ∧ Distil_steps (sample.dual_model sample.queries sample.docs)
         [sample_log.dual_batch; sample_log.dual_batch2] sample_log.distil_init = Ok self2
     ∧ DistilTrainer.log sample_log.round (self2, ∅) = (Ok tt, (self3, logs'))
     ∧ logs' !! "distil_loss" = Some (PyFloat (Some (5 / 4)))
     ∧ Distil_flushed self3)
  ∧ (∃ self2 self3 (logs' : record),
       FirstStageTrainer.L0_of [[[1; 0]]] = Ok (Some 1)
       ∧ FirstStageTrainer.L0_of [[[1; 1]]] = Ok (Some 2)
       ∧ FirstStage_steps sample_log.dual_model
           [sample_log.ids_batch1; sample_log.ids_batch2] sample_log.first_stage_init
         = Ok self2
       ∧ FirstStageTrainer.log sample_log.round (self2, ∅) = (Ok tt, (self3, logs'))
       ∧ logs' !! "L0_d" = Some (PyFloat (Some (3 / 2)))
       ∧ FirstStage_flushed self3)
  ∧ (∃ ce dl self'' (logs' : record),
       Reranker2_step (sample.reranker2 1 true) sample_log.cross_model sample_log.batch2
       = Ok (ce, dl)
       ∧ logs' !! "distil_loss" = Some (PyFloat dl)
       ∧ RerankerTrainer2.last_distilloss self'' = Some dl).
Proof.
  set (model := sample.dual_model sample.queries sample.docs).
  destruct (Distil_run_shaped 2 1 2 model false sample_log.distil_init
              sample_log.dual_batch sample.teacher sample.queries sample.docs)
    as (r1 & ds_self1 & Hds1 & _);
    [lia | lia | reflexivity | reflexivity | reflexivity | shape_of_sample | shape_of_sample |].
  destruct (Distil_run_shaped 2 1 2 model false ds_self1
              sample_log.dual_batch2 [2; 1; 1; 1] sample.queries sample.docs)
    as (r2 & ds_self2 & Hds2 & _);
    [lia | lia | reflexivity | reflexivity | reflexivity | shape_of_sample | shape_of_sample |].
  assert (sample_log.dual_model (delete "scores" sample_log.ids_batch1)
          = ([[[1; 0]]], [[[1; 0]]])) as Hm1 by reflexivity.
  assert (sample_log.dual_model (delete "scores" sample_log.ids_batch2)
          = ([[[1; 0]]], [[[1; 1]]])) as Hm2 by reflexivity.
  destruct (FirstStage_run_shaped 1 0 2 sample_log.dual_model false
              sample_log.first_stage_init sample_log.ids_batch1 _ _ (Nat.lt_0_1) (Nat.lt_0_2) Hm1)
    as (r3 & fs_self1 & Hfs1 & _); [shape_of_sample | shape_of_sample |].
  destruct (FirstStage_run_shaped 1 0 2 sample_log.dual_model false
              fs_self1 sample_log.ids_batch2 _ _ (Nat.lt_0_1) (Nat.lt_0_2) Hm2)
    as (r4 & fs_self2 & Hfs2 & _); [shape_of_sample | shape_of_sample |].
  destruct sample_steps as [r2_self' Hr2].
  destruct sample_distil_values as [Hd1 Hd2].
  destruct sample_L0_values as [Hl1 Hl2].
  destruct (log_emits_means_since_last_flush sample_log.round model sample_log.dual_model
              sample_log.cross_model
              sample_log.distil_init ds_self2
              sample_log.first_stage_init fs_self2
              (sample.reranker2 1 true) r2_self' ∅ ∅ ∅
              [sample_log.dual_batch; sample_log.dual_batch2]
              [sample_log.ids_batch1; sample_log.ids_batch2]
              [sample_log.batch1] sample_log.batch2)
    as ((vs1 & s1 & l1 & A1 & A2 & (_ & A3 & _) & _ & A4)
        & (vs2 & s2 & l2 & B1 & B2 & (_ & _ & B3) & _ & B4)
        & (ce & dl & s3 & l3 & C1 & _ & _ & C2 & _ & C3) & _).
  - by repeat split.
  - by repeat split.
  - exact (Distil_steps_cons _ _ _ _ _ _ _ _ Hds1 (Distil_steps_one _ _ _ _ _ _ Hds2)).
  - exact (FirstStage_steps_cons _ _ _ _ _ _ _ _ Hfs1 (FirstStage_steps_one _ _ _ _ _ _ Hfs2)).
  - exact Hr2.
  - split; [|split].
    + exists ds_self2, s1, l1. split; [done|]. split; [done|].
      split; [exact (Distil_steps_cons _ _ _ _ _ _ _ _ Hds1
                       (Distil_steps_one _ _ _ _ _ _ Hds2))|].
      split; [done|]. split; [|done].
      rewrite (A3 eq_refl).
      apply Forall2_cons_inv_l in A1 as (v1 & vs' & Hv1 & A1 & ->).
      apply Forall2_cons_inv_l in A1 as (v2 & vs'' & Hv2 & A1 & ->).
      apply Forall2_nil_inv_l in A1 as ->.
      apply (Distil_step_distil _ _ _ sample.teacher sample.queries sample.docs) in Hv1;
        [|reflexivity|reflexivity].
      apply (Distil_step_distil _ _ _ [2; 1; 1; 1] sample.queries sample.docs) in Hv2;
        [|reflexivity|reflexivity].
      unfold sample.teacher in Hv1. rewrite Hd1 in Hv1. rewrite Hd2 in Hv2.
      injection Hv1 as Hv1. injection Hv2 as Hv2.
      unfold np_mean. simpl. rewrite <- Hv1, <- Hv2. simpl. do 3 f_equal. lra.
    + exists fs_self2, s2, l2. split; [done|]. split; [done|].
      split; [exact (FirstStage_steps_cons _ _ _ _ _ _ _ _ Hfs1
                       (FirstStage_steps_one _ _ _ _ _ _ Hfs2))|].
      split; [done|]. split; [|done].
      destruct (B3 eq_refl) as (-> & _).
      apply Forall2_cons_inv_l in B1 as (v1 & vs' & Hv1 & B1 & ->).
      apply Forall2_cons_inv_l in B1 as (v2 & vs'' & Hv2 & B1 & ->).
      apply Forall2_nil_inv_l in B1 as ->.
      apply (FirstStage_step_l0d sample_log.first_stage_init _ _ _ _ _ Hm1 eq_refl) in Hv1.
      apply (FirstStage_step_l0d sample_log.first_stage_init _ _ _ _ _ Hm2 eq_refl) in Hv2.
      rewrite Hl1 in Hv1. rewrite Hl2 in Hv2.
      injection Hv1 as Hv1. injection Hv2 as Hv2.
      unfold np_mean. simpl. rewrite <- Hv1, <- Hv2. simpl. do 3 f_equal. lra.
    + by exists ce, dl, s3, l3.
Defined.

(** * Further properties of the trainers *)

(** ** The contrastive loss is never negative *)

Lemma ln_le x y : 0 < x → x <= y → ln x <= ln y.
Proof.
  intros Hx [Hlt | ->]; [|lra]. left. apply ln_increasing; done.
Qed.

Lemma ce_label0_nonneg row : row ≠ [] → 0 <= ce_label0 row.
Proof.
  destruct row as [|x v]; [done|]. intros _. unfold ce_label0. simpl.
  pose proof (exp_pos x) as Hx. pose proof (sum_exp_nonneg v) as Hv.
  assert (ln (exp x) <= ln (exp x + torch.sum (map exp v))) as Hln
    by (apply ln_le; lra).
  rewrite ln_exp in Hln. lra.
Qed.

Lemma sum_nonneg v : Forall (λ x, 0 <= x) v → 0 <= torch.sum v.
Proof. induction 1 as [|x v Hx _ IH]; simpl; lra. Qed.

Lemma mean_nonneg v :
  (0 < length v)%nat → Forall (λ x, 0 <= x) v →
  ∃ l, torch.mean v = Some l ∧ 0 <= l.
Proof.
  intros Hne Hv. rewrite mean_nonempty by done. eexists. split; [reflexivity|].
  apply Rmult_le_pos; [by apply sum_nonneg|].
  left. apply Rinv_0_lt_compat. apply lt_0_INR. lia.
Qed.

Lemma mean_ce_nonneg rows :
  (0 < length rows)%nat → Forall (λ row, row ≠ []) rows →
  ∃ l, torch.mean (map ce_label0 rows) = Some l ∧ 0 <= l.
Proof.
  intros Hne Hrows. apply mean_nonneg; [by rewrite length_map|].
  apply Forall_map. eapply Forall_impl; [exact Hrows|]. apply ce_label0_nonneg.
Qed.

Lemma chunks_nonempty_rows rows cols flat :
  (0 < cols)%nat → length flat = (rows * cols)%nat →
  Forall (λ row, row ≠ []) (torch.chunks rows cols flat).
Proof.
  intros Hc Hlen. eapply Forall_impl; [by apply chunks_rows|].
  intros [|x row]; simpl; [lia | done].
Qed.

(** X1.  On a batch of [b > 0] queries whose logits have one row per
    candidate, each with a column, [RerankerTrainer.compute_loss] returns,
    and the loss it returns is a finite number that is not negative. *)
Theorem reranker_loss_nonnegative
    (b : nat) (self : RerankerTrainer.t) (model : batch → RerankerTrainer.output)
    (inputs : batch) (ro : bool) :
  (0 < b)%nat →
  length (RerankerTrainer.logits (model inputs))
  = (b * (RerankerTrainer.n_negatives self + 1))%nat →
  Forall (λ row, row ≠ []) (RerankerTrainer.logits (model inputs)) →
  ∃ r l, RerankerTrainer.compute_loss self model inputs ro = Ok r
         ∧ returned_loss r = Some l ∧ 0 <= l.
Proof.
  intros Hb Hlen _. unfold RerankerTrainer.compute_loss.
  set (flat := torch.column 0 (RerankerTrainer.logits (model inputs))).
  assert (length flat = (b * (RerankerTrainer.n_negatives self + 1))%nat) as Hflat
    by (unfold flat, torch.column; by rewrite length_map).
  rewrite (view_rows_ok _ flat b) by (done || lia). simpl.
  rewrite CrossEntropyLoss_label0 by (apply chunks_nonempty_rows; done || lia).
  destruct (mean_ce_nonneg (torch.chunks b (RerankerTrainer.n_negatives self + 1) flat))
    as (l & Hl & Hpos).
  { by rewrite length_chunks. }
  { apply chunks_nonempty_rows; done || lia. }
  rewrite Hl. eexists _, l. split; [reflexivity|]. split; [by destruct ro|]. done.
Qed.

Lemma reranker_loss_nonnegative_witness :
  ∃ r l, RerankerTrainer.compute_loss {| RerankerTrainer.n_negatives := 2 |}
           (sample.cross_model [[5]; [1]; [1]; [3]; [4]; [4]]) ∅ false = Ok r
         ∧ returned_loss r = Some l ∧ 0 <= l.
Proof.
  apply (reranker_loss_nonnegative 2 {| RerankerTrainer.n_negatives := 2 |}
           (sample.cross_model [[5]; [1]; [1]; [3]; [4]; [4]]) ∅ false);
    [lia | reflexivity | by repeat constructor].
Defined.

(** X2.  On a well-shaped output of a dual encoder the contrastive loss that
    [FirstStageTrainer.compute_loss] and [DistilTrainer.compute_loss] record
    in [last_celoss] is a finite number that is not negative; it is the loss
    [FirstStageTrainer.compute_loss] returns for a dense model. *)
Theorem dual_contrastive_loss_nonnegative
    (b n d : nat) (queries docs : torch.T3)
    (fs_model ds_model : batch → dual_output) (ro : bool)
    (fs_self : FirstStageTrainer.t) (ds_self : DistilTrainer.t)
    (fs_inputs ds_inputs : batch) (ts : torch.T1) :
  (0 < b)%nat → (0 < d)%nat →
  shape3 b 1 d queries → shape3 b (S n) d docs →
  fs_model (delete "scores" fs_inputs) = (queries, docs) →
  ds_model (delete "scores" ds_inputs) = (queries, docs) →
  ds_inputs !! "scores" = Some ts → length ts = (b * S n)%nat →
  ∃ l, 0 <= l
    ∧ (∃ r self',
         FirstStageTrainer.compute_loss fs_model ro (fs_self, fs_inputs)
         = (Ok r, (self', delete "scores" fs_inputs))
         ∧ FirstStageTrainer.last_celoss self'
           = FirstStageTrainer.last_celoss fs_self ++ [Some l]
         ∧ (FirstStageTrainer.dense fs_self = true → returned_loss r = Some l))
    ∧ (∃ r self',
         DistilTrainer.compute_loss ds_model ro (ds_self, ds_inputs)
         = (Ok r, (self', delete "scores" ds_inputs))
         ∧ DistilTrainer.last_celoss self' = DistilTrainer.last_celoss ds_self ++ [Some l]).
Proof.
  intros Hb Hd Hq Hdocs Hfs Hds Hs Hts.
  destruct (in_batch_rows_shape b n d _ _ Hq Hdocs) as [Hlen Hrows].
  destruct (mean_ce_nonneg (in_batch_rows queries docs)) as (l & Hl & Hpos); [lia| |].
  { eapply Forall_impl; [exact Hrows|]. intros [|x row]; simpl; [lia | done]. }
  exists l. split; [done|]. split.
  - destruct (FirstStage_run_shaped b n d fs_model ro fs_self fs_inputs queries docs)
      as (r & self' & Hrun & Hce & Hloss); try done.
    exists r, self'. rewrite Hl in Hce, Hloss. done.
  - destruct (Distil_run_shaped b n d ds_model ro ds_self ds_inputs ts queries docs)
      as (r & self' & Hrun & Hce); try done.
    exists r, self'. rewrite Hl in Hce. done.
Qed.

Lemma dual_contrastive_loss_nonnegative_witness :
  ∃ l, 0 <= l
    ∧ ∃ r self',
        DistilTrainer.compute_loss (sample.dual_model sample.queries sample.docs) false
          (sample.distil true false false, {["scores" := sample.teacher]})
        = (Ok r, (self', delete "scores" {["scores" := sample.teacher]}))
        ∧ DistilTrainer.last_celoss self' = [Some l].
Proof.
  destruct (dual_contrastive_loss_nonnegative 2 1 2 sample.queries sample.docs
              (sample.dual_model sample.queries sample.docs)
              (sample.dual_model sample.queries sample.docs) false
              (sample.first_stage false false) (sample.distil true false false)
              ∅ {["scores" := sample.teacher]} sample.teacher)
    as (l & Hl & _ & H);
    [lia | lia | shape_of_sample | shape_of_sample | reflexivity | reflexivity
    | apply lookup_singleton_eq | reflexivity |].
  exists l. split; [exact Hl | exact H].
Defined.

(** ** Logits that do not fill the score table, and no logits *)

Lemma view_rows_raises cols flat :
  (length flat mod cols ≠ 0)%nat → torch.view_rows cols flat = Raise RuntimeError.
Proof.
  intros Hmod. unfold torch.view_rows. destruct (decide _) as [[_ H]|_]; done.
Qed.

(** X3.  When the number of logits is not a multiple of [n_negatives + 1] the
    scores do not fill a table: [RerankerTrainer.compute_loss] raises
    [RuntimeError], and so does [RerankerTrainer2.compute_loss], which has by
    then removed "scores" from the caller's batch and has not yet assigned
    [last_celoss]. *)
Theorem reranker_logits_not_multiple
    (rr_self : RerankerTrainer.t) (r2_self : RerankerTrainer2.t)
    (rr_model r2_model : batch → RerankerTrainer.output)
    (rr_inputs r2_inputs : batch) (ts : torch.T1) (ro : bool) :
  (length (RerankerTrainer.logits (rr_model rr_inputs))
   mod (RerankerTrainer.n_negatives rr_self + 1) ≠ 0)%nat →
  r2_inputs !! "scores" = Some ts →
  (length (RerankerTrainer.logits (r2_model (delete "scores" r2_inputs)))
   mod (RerankerTrainer2.n_negatives r2_self + 1) ≠ 0)%nat →
  RerankerTrainer.compute_loss rr_self rr_model rr_inputs ro = Raise RuntimeError
  ∧ RerankerTrainer2.compute_loss r2_model ro (r2_self, r2_inputs)
    = (Raise RuntimeError, (r2_self, delete "scores" r2_inputs)).
Proof.
  intros Hrr Hs Hr2. split.
  - unfold RerankerTrainer.compute_loss.
    rewrite view_rows_raises; [done|]. unfold torch.column. by rewrite length_map.
  - unfold RerankerTrainer2.compute_loss. run_monad. repeat (rewrite Hs; simpl).
    rewrite view_rows_raises; [done|]. unfold torch.column. by rewrite length_map.
Qed.

Lemma reranker_logits_not_multiple_witness :
  RerankerTrainer.compute_loss {| RerankerTrainer.n_negatives := 1 |}
    (sample.cross_model [[5]; [1]; [3]]) ∅ false = Raise RuntimeError
  ∧ RerankerTrainer2.compute_loss (sample.cross_model [[5]; [1]; [3]]) false
      (sample.reranker2 1 true, {["scores" := [7; 2; 1]]})
    = (Raise RuntimeError, (sample.reranker2 1 true, delete "scores" {["scores" := [7; 2; 1]]})).
Proof.
  apply (reranker_logits_not_multiple _ _ _ _ _ _ [7; 2; 1]);
    [simpl; lia | apply lookup_singleton_eq | simpl; lia].
Defined.

(** X4.  On a batch without any logit [RerankerTrainer.compute_loss] raises
    nothing: the cross-entropy is a mean over no row and the loss it returns
    is [nan]. *)
Theorem reranker_no_logits_nan
    (self : RerankerTrainer.t) (model : batch → RerankerTrainer.output)
    (inputs : batch) (ro : bool) :
  RerankerTrainer.logits (model inputs) = [] →
  ∃ r, RerankerTrainer.compute_loss self model inputs ro = Ok r ∧ returned_loss r = None.
Proof.
  intros Hlogits. unfold RerankerTrainer.compute_loss. rewrite Hlogits. simpl.
  rewrite (view_rows_ok _ [] 0) by (simpl; lia). simpl.
  eexists. split; [reflexivity|]. by destruct ro.
Qed.

Lemma reranker_no_logits_nan_witness :
  ∃ r, RerankerTrainer.compute_loss {| RerankerTrainer.n_negatives := 3 |}
         (sample.cross_model []) ∅ true = Ok r
       ∧ returned_loss r = None.
Proof. apply reranker_no_logits_nan. reflexivity. Defined.

(** ** Teacher scores that do not fill the score table *)

Lemma view_raises rows cols flat :
  length flat ≠ (rows * cols)%nat → torch.view rows cols flat = Raise RuntimeError.
Proof. intros H. unfold torch.view. by destruct (decide _). Qed.

Lemma Distil_distillation_raises self scores ts :
  length ts ≠ (length scores * torch.size1 scores)%nat →
  DistilTrainer.distillation self scores ts = Raise RuntimeError.
Proof.
  intros H. unfold DistilTrainer.distillation.
  destruct (DistilTrainer.mse_margin self); by rewrite view_raises.
Qed.

Lemma Reranker2_distillation_raises self scores ts :
  length ts ≠ (length scores * torch.size1 scores)%nat →
  RerankerTrainer2.distillation self scores ts = Raise RuntimeError.
Proof.
  intros H. unfold RerankerTrainer2.distillation.
  destruct (RerankerTrainer2.mse_margin self); by rewrite view_raises.
Qed.

(** X5.  When the teacher scores of a batch do not have as many elements as
    the score table of the student, [DistilTrainer.compute_loss] raises
    [RuntimeError] once it has removed "scores" from the caller's batch and
    counted the step, and before it records any value; called again on the
    same batch it raises [KeyError].  [RerankerTrainer2.compute_loss] raises
    [RuntimeError] likewise, with "scores" removed and neither [last_celoss]
    nor [last_distilloss] assigned. *)
Theorem teacher_scores_of_wrong_size
    (ds_model : batch → dual_output) (r2_model : batch → RerankerTrainer.output)
    (ro : bool) (ds_self : DistilTrainer.t) (r2_self : RerankerTrainer2.t)
    (ds_inputs r2_inputs : batch) (ds_ts r2_ts : torch.T1)
    (queries docs : torch.T3) (r2_scores : torch.T2) :
  ds_inputs !! "scores" = Some ds_ts →
  ds_model (delete "scores" ds_inputs) = (queries, docs) →
  length ds_ts ≠ (length (DistilTrainer.pair_scores queries docs)
                  * torch.size1 (DistilTrainer.pair_scores queries docs))%nat →
  r2_inputs !! "scores" = Some r2_ts →
  torch.view_rows (RerankerTrainer2.n_negatives r2_self + 1)
    (torch.column 0 (RerankerTrainer.logits (r2_model (delete "scores" r2_inputs))))
  = Ok r2_scores →
  length r2_ts ≠ (length r2_scores * torch.size1 r2_scores)%nat →
  DistilTrainer.compute_loss ds_model ro (ds_self, ds_inputs)
  = (Raise RuntimeError, (DistilTrainer.incr_step ds_self, delete "scores" ds_inputs))
  ∧ DistilTrainer.compute_loss ds_model ro
      (DistilTrainer.incr_step ds_self, delete "scores" ds_inputs)
    = (Raise (KeyError "scores"), (DistilTrainer.incr_step ds_self, delete "scores" ds_inputs))
  ∧ RerankerTrainer2.compute_loss r2_model ro (r2_self, r2_inputs)
    = (Raise RuntimeError, (r2_self, delete "scores" r2_inputs)).
Proof.
  intros Hs Hmodel Hlen Hs2 Hview Hlen2. split; [|split].
  - unfold DistilTrainer.compute_loss. run_monad. repeat (rewrite Hs; simpl).
    rewrite Hmodel. simpl.
    change (DistilTrainer.distillation _ ?x ?y)
      with (DistilTrainer.distillation (DistilTrainer.incr_step ds_self) x y).
    by rewrite Distil_distillation_raises.
  - apply Distil_requires_scores. apply lookup_delete_eq.
  - unfold RerankerTrainer2.compute_loss. run_monad. repeat (rewrite Hs2; simpl).
    rewrite Hview. simpl. by rewrite Reranker2_distillation_raises.
Qed.

Lemma teacher_scores_of_wrong_size_witness :
  DistilTrainer.compute_loss (sample.dual_model sample.queries sample.docs) false
    (sample.distil true false false, {["scores" := [1; 2; 3]]})
  = (Raise RuntimeError,
     (DistilTrainer.incr_step (sample.distil true false false),
      delete "scores" {["scores" := [1; 2; 3]]}))
  ∧ RerankerTrainer2.compute_loss (sample.cross_model [[5]; [1]]) false
      (sample.reranker2 1 true, {["scores" := [7; 2; 1]]})
    = (Raise RuntimeError, (sample.reranker2 1 true, delete "scores" {["scores" := [7; 2; 1]]})).
Proof.
  destruct (teacher_scores_of_wrong_size
              (sample.dual_model sample.queries sample.docs) (sample.cross_model [[5]; [1]])
              false (sample.distil true false false) (sample.reranker2 1 true)
              {["scores" := [1; 2; 3]]} {["scores" := [7; 2; 1]]} [1; 2; 3] [7; 2; 1]
              sample.queries sample.docs [[5; 1]])
    as (H1 & _ & H2);
    [apply lookup_singleton_eq | reflexivity | simpl; lia
    | apply lookup_singleton_eq | reflexivity | simpl; lia |].
  split; [exact H1 | exact H2].
Defined.

(** ** The step counter and the lengths of the lists *)

Lemma Distil_after_step self ce dl fl az l0d l0q :
  DistilTrainer.step (Distil_after self ce dl fl az l0d l0q) = S (DistilTrainer.step self).
Proof. unfold Distil_after. simpl. by destruct (DistilTrainer.dense self). Qed.

Lemma FirstStage_after_step self ce fl az l0d l0q :
  FirstStageTrainer.step (FirstStage_after self ce fl az l0d l0q)
  = S (FirstStageTrainer.step self).
Proof. unfold FirstStage_after. simpl. by destruct (FirstStageTrainer.dense self). Qed.

Lemma Distil_steps_step model batches self self' :
  Distil_steps model batches self = Ok self' →
  DistilTrainer.step self' = (DistilTrainer.step self + length batches)%nat.
Proof.
  revert self. induction batches as [|b batches IH]; intros self Hsteps.
  - injection Hsteps as <-. simpl. lia.
  - simpl in Hsteps.
    destruct (DistilTrainer.compute_loss model false (self, b)) as [[r|e] [self1 b1]] eqn:Hstep;
      [|done].
    apply Distil_compute_loss_step in Hstep as (v & _ & ->).
    rewrite (IH _ Hsteps), Distil_after_step. simpl. lia.
Qed.

Lemma FirstStage_steps_step model batches self self' :
  FirstStage_steps model batches self = Ok self' →
  FirstStageTrainer.step self' = (FirstStageTrainer.step self + length batches)%nat.
Proof.
  revert self. induction batches as [|b batches IH]; intros self Hsteps.
  - injection Hsteps as <-. simpl. lia.
  - simpl in Hsteps.
    destruct (FirstStageTrainer.compute_loss model false (self, b))
      as [[r|e] [self1 b1]] eqn:Hstep; [|done].
    apply FirstStage_compute_loss_step in Hstep as (v & _ & ->).
    rewrite (IH _ Hsteps), FirstStage_after_step. simpl. lia.
Qed.

Lemma grown_by_map {A} k (f : A → scalar) (vs : list A) l l' :
  length vs = k → l' = l ++ map f vs → grown_by k l l'.
Proof. intros <- ->. exists (map f vs). by rewrite length_map. Qed.

Lemma grown_by_sparse {A} k (dense : bool) (f : A → scalar) (vs : list A) l l' :
  length vs = k → l' = l ++ (if dense then [] else map f vs) →
  grown_by (if dense then 0 else k) l l'.
Proof.
  intros <- ->. destruct dense; [by exists [] | exists (map f vs); by rewrite length_map].
Qed.

(** X6.  Over [k] calls of [compute_loss] that return, a dual-encoder trainer
    counts [k] more steps and appends exactly [k] values to every list of a
    metric it tracks, after the values the list held: the lists stay aligned.
    A dense trainer appends nothing to the four lists of the sparsity
    metrics.  The log hook does not reset the step counter. *)
Theorem steps_keep_metric_lists_aligned
    (round : R → Z → R) (ds_model fs_model : batch → dual_output)
    (ds_batches fs_batches : list batch)
    (ds_self ds_self' : DistilTrainer.t) (fs_self fs_self' : FirstStageTrainer.t)
    (logs : record) :
  Distil_steps ds_model ds_batches ds_self = Ok ds_self' →
  FirstStage_steps fs_model fs_batches fs_self = Ok fs_self' →
  (let k := length ds_batches in
   let ks := if DistilTrainer.dense ds_self then 0%nat else k in
   DistilTrainer.step ds_self' = (DistilTrainer.step ds_self + k)%nat
   ∧ grown_by k (DistilTrainer.last_celoss ds_self) (DistilTrainer.last_celoss ds_self')
   ∧ grown_by k (DistilTrainer.last_distilloss ds_self) (DistilTrainer.last_distilloss ds_self')
   ∧ grown_by ks (DistilTrainer.last_flops ds_self) (DistilTrainer.last_flops ds_self')
   ∧ grown_by ks (DistilTrainer.last_anti_zero ds_self) (DistilTrainer.last_anti_zero ds_self')
   ∧ grown_by ks (DistilTrainer.last_docs ds_self) (DistilTrainer.last_docs ds_self')
   ∧ grown_by ks (DistilTrainer.last_queries ds_self) (DistilTrainer.last_queries ds_self')
   ∧ DistilTrainer.step (DistilTrainer.log round (ds_self', logs)).2.1
     = DistilTrainer.step ds_self')
  ∧ (let k := length fs_batches in
     let ks := if FirstStageTrainer.dense fs_self then 0%nat else k in
     FirstStageTrainer.step fs_self' = (FirstStageTrainer.step fs_self + k)%nat
     ∧ grown_by k (FirstStageTrainer.last_celoss fs_self) (FirstStageTrainer.last_celoss fs_self')
     ∧ grown_by ks (FirstStageTrainer.last_flops fs_self) (FirstStageTrainer.last_flops fs_self')
     ∧ grown_by ks (FirstStageTrainer.last_anti_zero fs_self)
         (FirstStageTrainer.last_anti_zero fs_self')
     ∧ grown_by ks (FirstStageTrainer.last_docs fs_self) (FirstStageTrainer.last_docs fs_self')
     ∧ grown_by ks (FirstStageTrainer.last_queries fs_self)
         (FirstStageTrainer.last_queries fs_self')
     ∧ FirstStageTrainer.step (FirstStageTrainer.log round (fs_self', logs)).2.1
       = FirstStageTrainer.step fs_self').
Proof.
  intros Hds Hfs. split.
  - intros k ks.
    destruct (Distil_steps_accumulate _ _ _ _ Hds)
      as (vs & Hvs & _ & _ & H1 & H2 & H3 & H4 & H5 & H6).
    assert (length vs = k) as Hk by (symmetry; by eapply Forall2_length).
    split; [by eapply Distil_steps_step|].
    split; [by eapply grown_by_map|]. split; [by eapply grown_by_map|].
    split; [by eapply grown_by_sparse|]. split; [by eapply grown_by_sparse|].
    split; [by eapply grown_by_sparse|]. split; [by eapply grown_by_sparse|].
    unfold DistilTrainer.log. run_monad.
    by destruct (epoch (DistilTrainer.state ds_self')), (DistilTrainer.dense ds_self').
  - intros k ks.
    destruct (FirstStage_steps_accumulate _ _ _ _ Hfs)
      as (vs & Hvs & _ & _ & H1 & H3 & H4 & H5 & H6).
    assert (length vs = k) as Hk by (symmetry; by eapply Forall2_length).
    split; [by eapply FirstStage_steps_step|].
    split; [by eapply grown_by_map|].
    split; [by eapply grown_by_sparse|]. split; [by eapply grown_by_sparse|].
    split; [by eapply grown_by_sparse|]. split; [by eapply grown_by_sparse|].
    unfold FirstStageTrainer.log. run_monad.
    by destruct (epoch (FirstStageTrainer.state fs_self')), (FirstStageTrainer.dense fs_self').
Qed.

Lemma steps_keep_metric_lists_aligned_witness :
  ∃ ds_self' fs_self',
    Distil_steps (sample.dual_model sample.queries sample.docs) [sample_log.dual_batch]
      (sample.distil true false false) = Ok ds_self'
    ∧ FirstStage_steps (sample.dual_model sample.queries sample.docs) [sample_log.dual_batch]
        (sample.first_stage false true) = Ok fs_self'
    ∧ DistilTrainer.step ds_self' = 1%nat
    ∧ grown_by 1 [] (DistilTrainer.last_flops ds_self')
    ∧ FirstStageTrainer.step fs_self' = 1%nat
    ∧ grown_by 0 [] (FirstStageTrainer.last_flops fs_self').
Proof.
  set (model := sample.dual_model sample.queries sample.docs).
  destruct (Distil_run_shaped 2 1 2 model false (sample.distil true false false)
              sample_log.dual_batch sample.teacher sample.queries sample.docs)
    as (r1 & ds_self' & Hds & _);
    [lia | lia | reflexivity | reflexivity | reflexivity | shape_of_sample | shape_of_sample |].
  destruct (FirstStage_run_shaped 2 1 2 model false (sample.first_stage false true)
              sample_log.dual_batch sample.queries sample.docs)
    as (r2 & fs_self' & Hfs & _);
    [lia | lia | reflexivity | shape_of_sample | shape_of_sample |].
  destruct (steps_keep_metric_lists_aligned sample_log.round model model
              [sample_log.dual_batch] [sample_log.dual_batch]
              (sample.distil true false false) ds_self'
              (sample.first_stage false true) fs_self' ∅
              (Distil_steps_one _ _ _ _ _ _ Hds) (FirstStage_steps_one _ _ _ _ _ _ Hfs))
    as ((A1 & _ & _ & A2 & _) & (B1 & _ & B2 & _)).
  exists ds_self', fs_self'.
  split; [exact (Distil_steps_one _ _ _ _ _ _ Hds)|].
  split; [exact (FirstStage_steps_one _ _ _ _ _ _ Hfs)|].
  split; [exact A1|]. split; [exact A2|]. split; [exact B1 | exact B2].
Defined.

(** ** What the log hooks leave to the caller and to the callbacks *)

Lemma not_elem_of_Distil_log_keys (k : string) :
  k ∉ Distil_log_keys →
  k ≠ "epoch" ∧ k ≠ "L0_d" ∧ k ≠ "L0_q" ∧ k ≠ "flops_loss" ∧ k ≠ "anti-zero"
  ∧ k ≠ "ce_loss" ∧ k ≠ "distil_loss".
Proof. unfold Distil_log_keys. rewrite !not_elem_of_cons. tauto. Qed.

Lemma not_elem_of_FirstStage_log_keys (k : string) :
  k ∉ FirstStage_log_keys →
  k ≠ "epoch" ∧ k ≠ "L0_d" ∧ k ≠ "L0_q" ∧ k ≠ "flops_loss" ∧ k ≠ "anti-zero"
  ∧ k ≠ "ce_loss".
Proof. unfold FirstStage_log_keys. rewrite !not_elem_of_cons. tauto. Qed.

(** X7.  [DistilTrainer.log] and [FirstStageTrainer.log] always return.  In
    the caller's dictionary they change no key but those of the metrics and
    "epoch" ([FirstStageTrainer.log] leaves "distil_loss" alone).  They
    append one record to the log history, the dictionary with "step" set to
    the global step, and give the callbacks the dictionary itself, without
    that "step", together with the state that already holds the new record;
    the control becomes what the callbacks return. *)
Theorem log_hands_over_record
    (round : R → Z → R) (ds_self : DistilTrainer.t) (fs_self : FirstStageTrainer.t)
    (ds_logs fs_logs : record) :
  (∃ self' logs',
     DistilTrainer.log round (ds_self, ds_logs) = (Ok tt, (self', logs'))
     ∧ (∀ k, k ∉ Distil_log_keys → logs' !! k = ds_logs !! k)
     ∧ log_history (DistilTrainer.state self')
       = log_history (DistilTrainer.state ds_self)
         ++ [<["step" := PyInt (global_step (DistilTrainer.state ds_self))]> logs']
     ∧ epoch (DistilTrainer.state self') = epoch (DistilTrainer.state ds_self)
     ∧ global_step (DistilTrainer.state self') = global_step (DistilTrainer.state ds_self)
     ∧ DistilTrainer.control self'
       = DistilTrainer.on_log ds_self (DistilTrainer.state self')
           (DistilTrainer.control ds_self) logs')
  ∧ (∃ self' logs',
       FirstStageTrainer.log round (fs_self, fs_logs) = (Ok tt, (self', logs'))
       ∧ (∀ k, k ∉ FirstStage_log_keys → logs' !! k = fs_logs !! k)
       ∧ log_history (FirstStageTrainer.state self')
         = log_history (FirstStageTrainer.state fs_self)
           ++ [<["step" := PyInt (global_step (FirstStageTrainer.state fs_self))]> logs']
       ∧ epoch (FirstStageTrainer.state self') = epoch (FirstStageTrainer.state fs_self)
       ∧ global_step (FirstStageTrainer.state self')
         = global_step (FirstStageTrainer.state fs_self)
       ∧ FirstStageTrainer.control self'
         = FirstStageTrainer.on_log fs_self (FirstStageTrainer.state self')
             (FirstStageTrainer.control fs_self) logs').
Proof.
  split.
  - unfold DistilTrainer.log. run_monad.
    destruct (epoch (DistilTrainer.state ds_self)) as [e|] eqn:He;
      destruct (DistilTrainer.dense ds_self) eqn:Hdense; simpl;
      (eexists _, _; split; [reflexivity|]); simpl;
      (split; [|by rewrite ?He]);
      intros k (? & ? & ? & ? & ? & ? & ?)%not_elem_of_Distil_log_keys;
      by rewrite !lookup_insert_ne.
  - unfold FirstStageTrainer.log. run_monad.
    destruct (epoch (FirstStageTrainer.state fs_self)) as [e|] eqn:He;
      destruct (FirstStageTrainer.dense fs_self) eqn:Hdense; simpl;
      (eexists _, _; split; [reflexivity|]); simpl;
      (split; [|by rewrite ?He]);
      intros k (? & ? & ? & ? & ? & ?)%not_elem_of_FirstStage_log_keys;
      by rewrite !lookup_insert_ne.
Qed.

(** ** The log hooks on a trainer that has made no step *)

Lemma Distil_log_flushed round self logs :
  Distil_flushed self →
  ∃ self' logs',
    DistilTrainer.log round (self, logs) = (Ok tt, (self', logs'))
    ∧ emits_nan true (DistilTrainer.dense self) logs'.
Proof.
  intros (H1 & H2 & H3 & H4 & H5 & H6).
  destruct (Distil_log_flush round self logs)
    as (self' & logs' & Hlog & _ & _ & Hce & Hdl & Hsparse & _).
  exists self', logs'. split; [done|].
  rewrite H1 in Hce. rewrite H2 in Hdl. rewrite H3, H4, H5, H6 in Hsparse. done.
Qed.

Lemma FirstStage_log_flushed round self logs :
  FirstStage_flushed self →
  ∃ self' logs',
    FirstStageTrainer.log round (self, logs) = (Ok tt, (self', logs'))
    ∧ emits_nan false (FirstStageTrainer.dense self) logs'.
Proof.
  intros (H1 & H3 & H4 & H5 & H6).
  destruct (FirstStage_log_flush round self logs)
    as (self' & logs' & Hlog & _ & _ & Hce & Hsparse & _).
  exists self', logs'. split; [done|].
  rewrite H1 in Hce. rewrite H3, H4, H5, H6 in Hsparse. done.
Qed.

(** X8.  A log event that no step precedes emits [nan] for every metric the
    trainer tracks, the [np.mean] of an empty list: this is so for the first
    log event of a trainer [__init__] has just built, and for a log event
    that follows another one, for [DistilTrainer] and [FirstStageTrainer]. *)
Theorem log_without_step_emits_nan
    (round : R → Z → R) (n : nat) (shared mse splade_doc dense : bool)
    (args : TrainingArguments) (st : TrainerState) (c : TrainerControl)
    (on_log : TrainerState → TrainerControl → record → TrainerControl)
    (ds_self : DistilTrainer.t) (fs_self : FirstStageTrainer.t) (logs logs2 : record) :
  (∃ self' logs',
     DistilTrainer.log round
       ((DistilTrainer.__init__ n shared mse splade_doc dense args st c on_log).1, logs)
     = (Ok tt, (self', logs'))
     ∧ emits_nan true dense logs')
  ∧ (∃ self' logs',
       FirstStageTrainer.log round
         ((FirstStageTrainer.__init__ n shared splade_doc dense args st c on_log).1, logs)
       = (Ok tt, (self', logs'))
       ∧ emits_nan false dense logs')
  ∧ (∃ self' logs',
       DistilTrainer.log round ((DistilTrainer.log round (ds_self, logs)).2.1, logs2)
       = (Ok tt, (self', logs'))
       ∧ emits_nan true (DistilTrainer.dense ds_self) logs')
  ∧ (∃ self' logs',
       FirstStageTrainer.log round ((FirstStageTrainer.log round (fs_self, logs)).2.1, logs2)
       = (Ok tt, (self', logs'))
       ∧ emits_nan false (FirstStageTrainer.dense fs_self) logs').
Proof.
  split; [|split; [|split]].
  - apply (Distil_log_flushed round
             (DistilTrainer.__init__ n shared mse splade_doc dense args st c on_log).1).
    by repeat split.
  - apply (FirstStage_log_flushed round
             (FirstStageTrainer.__init__ n shared splade_doc dense args st c on_log).1).
    by repeat split.
  - destruct (Distil_log_flush round ds_self logs) as (self1 & logs1 & Hlog & Hc & Hfl & _).
    rewrite Hlog. simpl.
    assert (DistilTrainer.dense ds_self = DistilTrainer.dense self1) as ->
      by (unfold Distil_config in Hc; congruence).
    by apply Distil_log_flushed.
  - destruct (FirstStage_log_flush round fs_self logs) as (self1 & logs1 & Hlog & Hc & Hfl & _).
    rewrite Hlog. simpl.
    assert (FirstStageTrainer.dense fs_self = FirstStageTrainer.dense self1) as ->
      by (unfold FirstStage_config in Hc; congruence).
    by apply FirstStage_log_flushed.
Qed.

(** X9.  [RerankerTrainer2.__init__] creates neither [last_celoss] nor
    [last_distilloss]: a log event before the first call of [compute_loss]
    raises [AttributeError], once "epoch" is written in the caller's
    dictionary and with nothing appended to the log history.  After a call of
    [compute_loss] that returned, the log hook returns. *)
Theorem reranker2_log_before_first_step
    (round : R → Z → R) (n : nat) (mse : bool)
    (args : TrainingArguments) (st : TrainerState) (c : TrainerControl)
    (on_log : TrainerState → TrainerControl → record → TrainerControl)
    (logs : record) (model : batch → RerankerTrainer.output) (ro : bool) (inputs : batch) :
  RerankerTrainer2.log round ((RerankerTrainer2.__init__ n mse args st c on_log).1, logs)
  = (Raise (AttributeError "last_celoss"),
     ((RerankerTrainer2.__init__ n mse args st c on_log).1,
      match epoch st with
      | Some e => <["epoch" := PyFloat (Some (round e 2%Z))]> logs
      | None => logs
      end))
  ∧ (∀ r self' inputs',
       RerankerTrainer2.compute_loss model ro
         ((RerankerTrainer2.__init__ n mse args st c on_log).1, inputs)
       = (Ok r, (self', inputs')) →
       ∃ self'' logs', RerankerTrainer2.log round (self', logs) = (Ok tt, (self'', logs'))).
Proof.
  set (self := (RerankerTrainer2.__init__ n mse args st c on_log).1). split.
  - unfold RerankerTrainer2.log. run_monad. by destruct (epoch st).
  - intros r self' inputs' Hrun.
    apply Reranker2_compute_loss_step in Hrun as (ce & dl & _ & ->).
    destruct (Reranker2_log_last round
                (RerankerTrainer2.set_last_distilloss dl
                   (RerankerTrainer2.set_last_celoss ce self)) logs ce dl)
      as (self'' & logs' & Hlog & _); [done | done |].
    by exists self'', logs'.
Qed.

(** ** The anti-zero term *)

Lemma sq_zero_iff (x : R) : x ^ 2 = 0 ↔ x = 0.
Proof. split; [intros H; nra | intros ->; lra]. Qed.

Lemma srecip_sq_None (x : R) : srecip (x ^ 2) = None ↔ x = 0.
Proof.
  unfold srecip. destruct (Req_dec_T (x ^ 2) 0) as [H|H].
  - split; [intros _; by apply sq_zero_iff | done].
  - split; [done | intros Hx; by apply sq_zero_iff in Hx].
Qed.

Lemma srecip_sq_pos (x v : R) : srecip (x ^ 2) = Some v → 0 < v.
Proof.
  unfold srecip. destruct (Req_dec_T (x ^ 2) 0) as [H|H]; [done|].
  intros [= <-]. apply Rdiv_lt_0_compat; [lra|]. nra.
Qed.

Lemma anti_zero_term_None queries docs :
  FirstStageTrainer.anti_zero_term queries docs = None
  ↔ torch.sum_all queries = 0 ∨ torch.sum_all docs = 0.
Proof.
  unfold FirstStageTrainer.anti_zero_term, sadd.
  pose proof (srecip_sq_None (torch.sum_all queries)) as Hq.
  pose proof (srecip_sq_None (torch.sum_all docs)) as Hd.
  destruct (srecip (torch.sum_all queries ^ 2)) as [x|],
    (srecip (torch.sum_all docs ^ 2)) as [y|]; simpl.
  - split; [done|]. intros [H|H]; [by apply Hq in H | by apply Hd in H].
  - split; [intros _; right; by apply Hd | done].
  - split; [intros _; left; by apply Hq | done].
  - split; [intros _; left; by apply Hq | done].
Qed.

Lemma anti_zero_term_pos queries docs v :
  FirstStageTrainer.anti_zero_term queries docs = Some v → 0 < v.
Proof.
  unfold FirstStageTrainer.anti_zero_term, sadd.
  destruct (srecip (torch.sum_all queries ^ 2)) as [x|] eqn:Hx,
    (srecip (torch.sum_all docs ^ 2)) as [y|] eqn:Hy; simpl; try done.
  intros [= <-]. apply srecip_sq_pos in Hx, Hy. lra.
Qed.

Lemma sadd_None_r (a : scalar) : sadd a None = None.
Proof. by destruct a. Qed.

Lemma sum_all_zero (t : torch.T3) :
  Forall (Forall (Forall (λ x, x = 0))) t → torch.sum_all t = 0.
Proof.
  intros Ht. unfold torch.sum_all. apply sum_zero.
  apply Forall_concat, Forall_concat. exact Ht.
Qed.

(** X10.  When every entry of the query vectors is zero, or every entry of
    the document vectors is, the anti-zero term is not finite.  On a
    well-shaped batch a sparse trainer raises nothing then:
    [FirstStageTrainer.compute_loss] and [DistilTrainer.compute_loss] record
    the value in [last_anti_zero] and return a loss that is not finite. *)
Theorem sparse_loss_not_finite_on_zero_vectors
    (b n d : nat) (queries docs : torch.T3)
    (fs_model ds_model : batch → dual_output) (ro : bool)
    (fs_self : FirstStageTrainer.t) (ds_self : DistilTrainer.t)
    (fs_inputs ds_inputs : batch) (ts : torch.T1) :
  (0 < b)%nat → (0 < d)%nat →
  shape3 b 1 d queries → shape3 b (S n) d docs →
  fs_model (delete "scores" fs_inputs) = (queries, docs) →
  ds_model (delete "scores" ds_inputs) = (queries, docs) →
  ds_inputs !! "scores" = Some ts → length ts = (b * S n)%nat →
  FirstStageTrainer.dense fs_self = false → DistilTrainer.dense ds_self = false →
  Forall (Forall (Forall (λ x, x = 0))) queries
  ∨ Forall (Forall (Forall (λ x, x = 0))) docs →
  FirstStageTrainer.anti_zero_term queries docs = None
  ∧ DistilTrainer.anti_zero_term queries docs = None
  ∧ (∃ r self',
       FirstStageTrainer.compute_loss fs_model ro (fs_self, fs_inputs)
       = (Ok r, (self', delete "scores" fs_inputs))
       ∧ FirstStageTrainer.last_anti_zero self'
         = FirstStageTrainer.last_anti_zero fs_self ++ [None]
       ∧ returned_loss r = None)
  ∧ (∃ r self',
       DistilTrainer.compute_loss ds_model ro (ds_self, ds_inputs)
       = (Ok r, (self', delete "scores" ds_inputs))
       ∧ DistilTrainer.last_anti_zero self'
         = DistilTrainer.last_anti_zero ds_self ++ [None]
       ∧ returned_loss r = None).
Proof.
  intros Hb Hd Hq Hdocs Hfs Hds Hs Hts Hfdense Hddense Hzero.
  assert (FirstStageTrainer.anti_zero_term queries docs = None) as Hz.
  { apply anti_zero_term_None. destruct Hzero as [H|H]; [left | right]; by apply sum_all_zero. }
  split; [exact Hz|]. split; [exact Hz|].
  split.
  - eexists _, _. split; [|split].
    + eapply FirstStage_run; [exact Hfs | by apply (contrastive_in_batch b n d) | |
        by apply (L0_of_shaped b (S n) d); try lia | by apply (L0_of_shaped b 1 d); try lia].
      by apply (FirstStage_flops_term_shaped b (S n) d); try lia.
    + unfold FirstStage_after. simpl. by rewrite Hfdense, Hz.
    + rewrite Hfdense, Hz, sadd_None_r. by destruct ro.
  - destruct (Distil_distillation_ok b (S n) ds_self (DistilTrainer.pair_scores queries docs) ts)
      as [dl Hdl]; [done | by apply (pair_scores_shape b n d) | done |].
    eexists _, _. split; [|split].
    + eapply Distil_run; [exact Hs | exact Hds | exact Hdl |
        by apply (contrastive_in_batch b n d) | |
        by apply (L0_of_shaped b (S n) d); try lia | by apply (L0_of_shaped b 1 d); try lia].
      by apply (Distil_flops_term_shaped b (S n) d); try lia.
    + unfold Distil_after. simpl. rewrite Hddense.
      change (DistilTrainer.anti_zero_term queries docs)
        with (FirstStageTrainer.anti_zero_term queries docs).
      by rewrite Hz.
    + rewrite Hddense.
      change (DistilTrainer.anti_zero_term queries docs)
        with (FirstStageTrainer.anti_zero_term queries docs).
      rewrite Hz, sadd_None_r. by destruct ro.
Qed.

Lemma sparse_loss_not_finite_on_zero_vectors_witness :
  ∃ r self',
    FirstStageTrainer.compute_loss (sample.dual_model [[[0; 0]]] [[[1; 0]; [0; 1]]]) false
      (sample.first_stage false false, ∅)
    = (Ok r, (self', delete "scores" ∅))
    ∧ FirstStageTrainer.last_anti_zero self' = [None]
    ∧ returned_loss r = None.
Proof.
  destruct (sparse_loss_not_finite_on_zero_vectors 1 1 2 [[[0; 0]]] [[[1; 0]; [0; 1]]]
              (sample.dual_model [[[0; 0]]] [[[1; 0]; [0; 1]]])
              (sample.dual_model [[[0; 0]]] [[[1; 0]; [0; 1]]]) false
              (sample.first_stage false false) (sample.distil true false false)
              ∅ {["scores" := [1; 2]]} [1; 2])
    as (_ & _ & (r & self' & Hrun & Haz & Hloss) & _);
    [lia | lia | shape_of_sample | shape_of_sample | reflexivity | reflexivity
    | apply lookup_singleton_eq | reflexivity | reflexivity | reflexivity
    | left; by repeat constructor |].
  by exists r, self'.
Defined.

(** ** Values that are not finite in the logged means *)

Lemma np_mean_None (l : list scalar) : np_mean l = None ↔ l = [] ∨ None ∈ l.
Proof.
  unfold np_mean.
  destruct (mapM (M := option) (A := option R) (λ x, x) l) as [k|] eqn:Hk; simpl.
  - assert (None ∉ l) as Hin.
    { intros Hin. assert (mapM (M := option) (A := option R) (λ x, x) l = None) as Hn.
      { apply mapM_None, Exists_exists. by exists None. }
      congruence. }
    apply length_mapM in Hk. destruct k as [|x k]; simpl.
    + split; [intros _; left; by apply nil_length_inv | done].
    + split; [done|]. intros [-> | H]; [done | by apply Hin in H].
  - split; [intros _; right | done].
    apply mapM_None, Exists_exists in Hk as (x & Hx & ->). done.
Qed.

Lemma emits_nan_iff_mean (logs : record) key l :
  logs !! key = Some (PyFloat (np_mean l)) → emits_nan_iff logs key l.
Proof.
  intros H. unfold emits_nan_iff. rewrite H, <- np_mean_None.
  split; [by intros [= ->] | by intros ->].
Qed.

(** X11.  A mean the log hooks emit is not finite exactly when no step was
    made since the last log event or when the value of one of these steps
    was not finite: one step whose value is not finite hides the values of
    all the others. *)
Theorem log_mean_not_finite_iff
    (round : R → Z → R) (ds_self : DistilTrainer.t) (fs_self : FirstStageTrainer.t)
    (ds_logs fs_logs : record) :
  (∃ self' logs',
     DistilTrainer.log round (ds_self, ds_logs) = (Ok tt, (self', logs'))
     ∧ emits_nan_iff logs' "ce_loss" (DistilTrainer.last_celoss ds_self)
     ∧ emits_nan_iff logs' "distil_loss" (DistilTrainer.last_distilloss ds_self)
     ∧ (DistilTrainer.dense ds_self = false →
        emits_nan_iff logs' "L0_d" (DistilTrainer.last_docs ds_self)
        ∧ emits_nan_iff logs' "L0_q" (DistilTrainer.last_queries ds_self)
        ∧ emits_nan_iff logs' "flops_loss" (DistilTrainer.last_flops ds_self)
        ∧ emits_nan_iff logs' "anti-zero" (DistilTrainer.last_anti_zero ds_self)))
  ∧ (∃ self' logs',
       FirstStageTrainer.log round (fs_self, fs_logs) = (Ok tt, (self', logs'))
       ∧ emits_nan_iff logs' "ce_loss" (FirstStageTrainer.last_celoss fs_self)
       ∧ (FirstStageTrainer.dense fs_self = false →
          emits_nan_iff logs' "L0_d" (FirstStageTrainer.last_docs fs_self)
          ∧ emits_nan_iff logs' "L0_q" (FirstStageTrainer.last_queries fs_self)
          ∧ emits_nan_iff logs' "flops_loss" (FirstStageTrainer.last_flops fs_self)
          ∧ emits_nan_iff logs' "anti-zero" (FirstStageTrainer.last_anti_zero fs_self))).
Proof.
  split.
  - destruct (Distil_log_flush round ds_self ds_logs)
      as (self' & logs' & Hlog & _ & _ & Hce & Hdl & Hsparse & _).
    exists self', logs'. split; [done|].
    split; [by apply emits_nan_iff_mean|]. split; [by apply emits_nan_iff_mean|].
    intros Hdense. destruct (Hsparse Hdense) as (H1 & H2 & H3 & H4).
    repeat split; by apply emits_nan_iff_mean.
  - destruct (FirstStage_log_flush round fs_self fs_logs)
      as (self' & logs' & Hlog & _ & _ & Hce & Hsparse & _).
    exists self', logs'. split; [done|].
    split; [by apply emits_nan_iff_mean|].
    intros Hdense. destruct (Hsparse Hdense) as (H1 & H2 & H3 & H4).
    repeat split; by apply emits_nan_iff_mean.
Qed.

(** ** The distillation term is never negative *)

Lemma ln_le_minus_1 z : 0 < z → ln z <= z - 1.
Proof.
  intros Hz. pose proof (exp_ineq1_le (z - 1)) as H.
  assert (ln z <= ln (exp (z - 1))) as Hln by (apply ln_le; lra).
  by rewrite ln_exp in Hln.
Qed.

Lemma kl_pointwise_lower x t S :
  0 < S → 0 < t → t - exp x / S <= torch.xlogy t t - t * (x - ln S).
Proof.
  intros HS Ht. pose proof (exp_pos x) as Hx.
  unfold torch.xlogy. destruct (Req_dec_T t 0) as [H0|_]; [lra|].
  assert (0 < exp x / S / t) as Hz by (repeat apply Rdiv_lt_0_compat; done).
  pose proof (ln_le_minus_1 _ Hz) as Hln.
  assert (ln (exp x / S / t) = x - ln S - ln t) as Heq.
  { assert (0 < / S) by (by apply Rinv_0_lt_compat).
    assert (0 < / t) by (by apply Rinv_0_lt_compat).
    assert (0 < exp x * / S) by (by apply Rmult_lt_0_compat).
    unfold Rdiv. rewrite !ln_mult, !ln_Rinv, ln_exp by done. lra. }
  rewrite Heq in Hln.
  assert (t * (x - ln S - ln t) <= t * (exp x / S / t - 1)) as Hmul
    by (apply Rmult_le_compat_l; lra).
  assert (t * (exp x / S / t - 1) = exp x / S - t) as Hfield by (field; lra).
  lra.
Qed.

Lemma sum_map_div {A} (f : A → R) (v : list A) (S : R) :
  torch.sum (map (λ x, f x / S) v) = torch.sum (map f v) / S.
Proof. induction v as [|x v IH]; simpl; [lra | rewrite IH; lra]. Qed.

Lemma kl_zip_lower (s u : list R) (S U : R) :
  0 < S → 0 < U → length s = length u →
  torch.sum (map exp u) / U - torch.sum (map exp s) / S
  <= torch.sum (zip_with (λ a b, torch.xlogy (exp b / U) (exp b / U)
                                  - exp b / U * (a - ln S)) s u).
Proof.
  intros HS HU. revert u. induction s as [|a s IH]; intros [|b u] Hlen; simpl in *; try lia.
  - lra.
  - assert (0 < exp b / U) as Ht by (apply Rdiv_lt_0_compat; [apply exp_pos | done]).
    pose proof (kl_pointwise_lower a (exp b / U) S HS Ht).
    pose proof (IH u ltac:(lia)). lra.
Qed.

Lemma kl_row_nonneg (s u : list R) :
  length s = length u →
  0 <= torch.sum (zip_with (λ x t, torch.xlogy t t - t * x)
                    (torch.log_softmax_row s) (torch.softmax_row u)).
Proof.
  intros Hlen. unfold torch.log_softmax_row, torch.softmax_row.
  destruct s as [|a s], u as [|b u]; simpl in Hlen; try lia; [simpl; lra|].
  pose proof (sum_exp_pos a s) as HS. pose proof (sum_exp_pos b u) as HU.
  set (S := torch.sum (map exp (a :: s))) in *.
  set (U := torch.sum (map exp (b :: u))) in *.
  assert (zip_with (λ x t, torch.xlogy t t - t * x)
            (map (λ x, x - ln S) (a :: s)) (map (λ x, exp x / U) (b :: u))
          = zip_with (λ a b, torch.xlogy (exp b / U) (exp b / U) - exp b / U * (a - ln S))
              (a :: s) (b :: u)) as ->.
  { generalize (a :: s) (b :: u). clear.
    induction l as [|x l IH]; intros [|y k]; simpl; try done. by rewrite IH. }
  pose proof (kl_zip_lower (a :: s) (b :: u) S U HS HU ltac:(simpl; lia)) as Hlow.
  fold S U in Hlow.
  assert (U / U - S / S = 0) as H0 by (field; lra).
  lra.
Qed.

Lemma kl_mean_nonneg b c (s u : torch.T2) :
  (0 < b)%nat → shape2 b c s → shape2 b c u →
  ∃ v, torch.mean (torch.sum_dim1 (torch.KLDivLoss (torch.log_softmax s) (torch.softmax u)))
       = Some v ∧ 0 <= v.
Proof.
  intros Hb [Hls Hs] [Hlu Hu]. apply mean_nonneg.
  - unfold torch.sum_dim1, torch.KLDivLoss, torch.log_softmax, torch.softmax.
    rewrite length_map, length_zip_with, !length_map. lia.
  - unfold torch.sum_dim1, torch.KLDivLoss, torch.log_softmax, torch.softmax.
    apply Forall_map.
    clear Hls Hlu Hb. revert u Hu. induction Hs as [|srow s Hsrow _ IH]; intros u Hu; [done|].
    destruct Hu as [|urow u Hurow Hu]; [done|]. simpl. constructor; [|by apply IH].
    simpl. apply kl_row_nonneg. congruence.
Qed.

Lemma mean_Some_nonneg v x :
  Forall (λ y, 0 <= y) v → torch.mean v = Some x → 0 <= x.
Proof.
  intros Hv Hmean. destruct v as [|y v]; [done|].
  destruct (mean_nonneg (y :: v)) as (l & Hl & Hpos); [simpl; lia | done |]. congruence.
Qed.

Lemma mse_mean_nonneg b n (m1 m2 : torch.T2) :
  (0 < b)%nat → (0 < n)%nat → shape2 b n m1 → shape2 b n m2 →
  ∃ v, torch.mean_dim1 (torch.MSELoss m1 m2) ≫= torch.mean = Some v ∧ 0 <= v.
Proof.
  intros Hb Hn [Hl1 H1] [Hl2 H2].
  assert (Forall (λ row, (0 < length row)%nat ∧ Forall (λ y, 0 <= y) row)
            (torch.MSELoss m1 m2)) as Hrows.
  { unfold torch.MSELoss. clear Hl1 Hl2 Hb.
    revert m2 H2. induction H1 as [|r1 m1 Hr1 _ IH]; intros m2 H2; [done|].
    destruct H2 as [|r2 m2 Hr2 H2]; [done|]. simpl. constructor; [|by apply IH].
    split; [rewrite length_zip_with; lia|].
    apply Forall_zip_with_all. intros x y. apply pow2_ge_0. }
  unfold torch.mean_dim1.
  rewrite (mapM_Some_map _ (λ row, torch.sum row / INR (length row))).
  - simpl. apply mean_nonneg.
    + rewrite length_map. unfold torch.MSELoss. rewrite length_zip_with. lia.
    + apply Forall_map. eapply Forall_impl; [exact Hrows|].
      intros row [Hlen Hpos]. simpl.
      apply Rmult_le_pos; [by apply sum_nonneg|].
      left. apply Rinv_0_lt_compat. apply lt_0_INR. lia.
  - intros row Hin. rewrite Forall_forall in Hrows. destruct (Hrows row Hin) as [Hlen _].
    by apply mean_nonempty.
Qed.

Lemma shape2_chunks rows cols flat :
  length flat = (rows * cols)%nat → shape2 rows cols (torch.chunks rows cols flat).
Proof. intros H. split; [apply length_chunks | by apply chunks_rows]. Qed.

Lemma Distil_distillation_nonneg b n self scores ts :
  (0 < b)%nat → shape2 b (S n) scores → length ts = (b * S n)%nat →
  (DistilTrainer.mse_margin self = true → (0 < n)%nat) →
  ∃ v, DistilTrainer.distillation self scores ts = Ok (Some v) ∧ 0 <= v.
Proof.
  intros Hb Hs Hts Hds.
  pose proof (shape2_chunks b (S n) ts Hts) as Ht.
  unfold DistilTrainer.distillation. rewrite (view_ok b (S n)) by done.
  destruct (DistilTrainer.mse_margin self); simpl.
  - destruct (mse_mean_nonneg b n (margins scores) (margins (torch.chunks b (S n) ts)))
      as (v & Hv & Hpos); [done | by apply Hds | by apply margins_rows..|].
    exists v. unfold margins in Hv. by rewrite Hv.
  - rewrite !mul_scalar_1.
    destruct (kl_mean_nonneg b (S n) scores (torch.chunks b (S n) ts))
      as (v & Hv & Hpos); [done..|].
    exists v. by rewrite Hv.
Qed.

Lemma Reranker2_distillation_nonneg b n self scores ts :
  (0 < b)%nat → shape2 b (S n) scores → length ts = (b * S n)%nat →
  (RerankerTrainer2.mse_margin self = true → (0 < n)%nat) →
  ∃ v, RerankerTrainer2.distillation self scores ts = Ok (Some v) ∧ 0 <= v.
Proof.
  intros Hb Hs Hts Hr2.
  pose proof (shape2_chunks b (S n) ts Hts) as Ht.
  unfold RerankerTrainer2.distillation. rewrite (view_ok b (S n)) by done.
  destruct (RerankerTrainer2.mse_margin self); simpl.
  - destruct (mse_mean_nonneg b n (margins scores) (margins (torch.chunks b (S n) ts)))
      as (v & Hv & Hpos); [done | by apply Hr2 | by apply margins_rows..|].
    exists v. unfold margins in Hv. by rewrite Hv.
  - destruct (kl_mean_nonneg b (S n) scores (torch.chunks b (S n) ts))
      as (v & Hv & Hpos); [done..|].
    exists v. by rewrite Hv.
Qed.

(** X12.  On a score table of [b > 0] rows and teacher scores of its size,
    the distillation term of [DistilTrainer] and of [RerankerTrainer2] is a
    finite number that is never negative, in the KL mode and, when there is
    a negative, in the margin-MSE mode. *)
Theorem distillation_never_negative
    (b n : nat) (scores : torch.T2) (ts : torch.T1)
    (ds_self : DistilTrainer.t) (r2_self : RerankerTrainer2.t) :
  (0 < b)%nat → shape2 b (S n) scores → length ts = (b * S n)%nat →
  (DistilTrainer.mse_margin ds_self = true → (0 < n)%nat) →
  (RerankerTrainer2.mse_margin r2_self = true → (0 < n)%nat) →
  (∃ v, DistilTrainer.distillation ds_self scores ts = Ok (Some v) ∧ 0 <= v)
  ∧ (∃ v, RerankerTrainer2.distillation r2_self scores ts = Ok (Some v) ∧ 0 <= v).
Proof.
  intros Hb Hs Hts Hds Hr2. split.
  - by apply (Distil_distillation_nonneg b n).
  - by apply (Reranker2_distillation_nonneg b n).
Qed.

Lemma distillation_never_negative_witness :
  (∃ v, DistilTrainer.distillation (sample.distil false false false) [[3; 1]; [2; 2]]
          [5; 3; 7; 8] = Ok (Some v) ∧ 0 <= v)
  ∧ (∃ v, RerankerTrainer2.distillation (sample.reranker2 1 true) [[3; 1]; [2; 2]]
            [5; 3; 7; 8] = Ok (Some v) ∧ 0 <= v).
Proof.
  apply (distillation_never_negative 2 1);
    [lia | shape_of_sample | reflexivity | simpl; lia | simpl; lia].
Defined.

(** ** The distillation term depends on score differences only *)

Lemma sum_exp_shift c v :
  torch.sum (map exp (map (λ x, x + c) v)) = exp c * torch.sum (map exp v).
Proof.
  induction v as [|x v IH]; simpl; [lra|]. rewrite IH, exp_plus. lra.
Qed.

Lemma softmax_row_shift c v :
  torch.softmax_row (map (λ x, x + c) v) = torch.softmax_row v.
Proof.
  unfold torch.softmax_row. rewrite map_map, sum_exp_shift.
  destruct v as [|y v]; [done|]. pose proof (sum_exp_pos y v) as HS.
  apply map_ext. intros x. rewrite exp_plus. pose proof (exp_pos c). field. lra.
Qed.

Lemma log_softmax_row_shift c v :
  torch.log_softmax_row (map (λ x, x + c) v) = torch.log_softmax_row v.
Proof.
  unfold torch.log_softmax_row. rewrite map_map, sum_exp_shift.
  destruct v as [|y v]; [done|]. pose proof (sum_exp_pos y v) as HS.
  apply map_ext. intros x. rewrite ln_mult by (apply exp_pos || done).
  rewrite ln_exp. lra.
Qed.

Lemma length_shift_rows cs t : length cs = length t → length (shift_rows cs t) = length t.
Proof. intros H. unfold shift_rows. rewrite length_zip_with. lia. Qed.

Lemma shift_rows_rows cols cs t :
  Forall (λ row, length row = cols) t → Forall (λ row, length row = cols) (shift_rows cs t).
Proof.
  intros Ht. unfold shift_rows. revert cs.
  induction Ht as [|row t Hrow _ IH]; intros [|c cs]; simpl; try done.
  constructor; [by rewrite length_map | apply IH].
Qed.

Lemma shape2_shift_rows rows cols cs t :
  length cs = rows → shape2 rows cols t → shape2 rows cols (shift_rows cs t).
Proof.
  intros Hcs [Hlen Ht]. split; [rewrite length_shift_rows; lia | by apply shift_rows_rows].
Qed.

Lemma softmax_shift_rows cs t :
  length cs = length t → torch.softmax (shift_rows cs t) = torch.softmax t.
Proof.
  unfold torch.softmax, shift_rows. revert t.
  induction cs as [|c cs IH]; intros [|row t] Hlen; simpl in *; try done.
  rewrite softmax_row_shift, IH by lia. done.
Qed.

Lemma log_softmax_shift_rows cs t :
  length cs = length t → torch.log_softmax (shift_rows cs t) = torch.log_softmax t.
Proof.
  unfold torch.log_softmax, shift_rows. revert t.
  induction cs as [|c cs IH]; intros [|row t] Hlen; simpl in *; try done.
  rewrite log_softmax_row_shift, IH by lia. done.
Qed.

Lemma margins_shift_rows cs t :
  length cs = length t → margins (shift_rows cs t) = margins t.
Proof.
  unfold margins, torch.sub_broadcast, shift_rows. revert t.
  induction cs as [|c cs IH]; intros [|row t] Hlen; simpl in *; try done.
  rewrite IH by lia. f_equal.
  destruct row as [|p row]; simpl; [done|].
  rewrite drop_0, map_map. apply map_ext. intros x. lra.
Qed.

Lemma chunks_concat rows cols (t : torch.T2) :
  shape2 rows cols t → torch.chunks rows cols (concat t) = t.
Proof.
  intros [Hlen Ht]. revert rows Hlen.
  induction Ht as [|row t Hrow _ IH]; intros rows Hlen; simpl in *; subst rows; [done|].
  simpl. rewrite take_app_length', drop_app_length' by done. by rewrite IH.
Qed.

Lemma size1_shift_rows rows cols cs t :
  (0 < rows)%nat → length cs = rows → shape2 rows cols t →
  torch.size1 (shift_rows cs t) = torch.size1 t.
Proof.
  intros Hr Hcs Ht.
  rewrite (shape2_size1 rows cols) by (done || by apply shape2_shift_rows).
  by rewrite (shape2_size1 rows cols).
Qed.

(** X13.  The distillation term of [DistilTrainer] and of
    [RerankerTrainer2], in both modes, depends only on the differences
    between the scores of a query: adding a constant per query to the scores
    of the student, or to those of the teacher, does not change it. *)
Theorem distillation_ignores_row_shift
    (b cols : nat) (scores : torch.T2) (ts : torch.T1) (cs : list R)
    (ds_self : DistilTrainer.t) (r2_self : RerankerTrainer2.t) :
  (0 < b)%nat → shape2 b cols scores → length ts = (b * cols)%nat → length cs = b →
  DistilTrainer.distillation ds_self (shift_rows cs scores) ts
  = DistilTrainer.distillation ds_self scores ts
  ∧ DistilTrainer.distillation ds_self scores
      (concat (shift_rows cs (torch.chunks b cols ts)))
    = DistilTrainer.distillation ds_self scores ts
  ∧ RerankerTrainer2.distillation r2_self (shift_rows cs scores) ts
    = RerankerTrainer2.distillation r2_self scores ts
  ∧ RerankerTrainer2.distillation r2_self scores
      (concat (shift_rows cs (torch.chunks b cols ts)))
    = RerankerTrainer2.distillation r2_self scores ts.
Proof.
  intros Hb Hs Hts Hcs.
  pose proof (shape2_chunks b cols ts Hts) as Ht.
  pose proof (shape2_shift_rows b cols cs _ Hcs Hs) as Hs'.
  pose proof (shape2_shift_rows b cols cs _ Hcs Ht) as Ht'.
  assert (length cs = length scores) as Hcs1 by (destruct Hs; lia).
  assert (length cs = length (torch.chunks b cols ts)) as Hcs2 by (destruct Ht; lia).
  assert (length (concat (shift_rows cs (torch.chunks b cols ts))) = (b * cols)%nat) as Hts'.
  { destruct Ht' as [Hl Hr]. rewrite (length_concat_shape _ cols) by done. by rewrite Hl. }
  pose proof (margins_shift_rows cs scores Hcs1) as Hm1.
  pose proof (margins_shift_rows cs _ Hcs2) as Hm2.
  unfold margins in Hm1, Hm2.
  unfold DistilTrainer.distillation, RerankerTrainer2.distillation.
  rewrite !mul_scalar_1.
  rewrite !(view_ok b cols scores) by done.
  rewrite !(view_ok b cols (shift_rows cs scores)) by done.
  rewrite (chunks_concat b cols _ Ht').
  destruct (DistilTrainer.mse_margin ds_self), (RerankerTrainer2.mse_margin r2_self); simpl;
    rewrite ?mul_scalar_1, ?Hm1, ?Hm2,
      ?(log_softmax_shift_rows cs scores Hcs1), ?(softmax_shift_rows cs _ Hcs2); done.
Qed.

Lemma distillation_ignores_row_shift_witness :
  DistilTrainer.distillation (sample.distil true false false)
    (shift_rows [10; -4] [[3; 1]; [2; 2]]) [5; 3; 7; 8]
  = DistilTrainer.distillation (sample.distil true false false) [[3; 1]; [2; 2]] [5; 3; 7; 8]
  ∧ RerankerTrainer2.distillation (sample.reranker2 1 false) [[3; 1]; [2; 2]]
      (concat (shift_rows [10; -4] (torch.chunks 2 2 [5; 3; 7; 8])))
    = RerankerTrainer2.distillation (sample.reranker2 1 false) [[3; 1]; [2; 2]] [5; 3; 7; 8].
Proof.
  destruct (distillation_ignores_row_shift 2 2 [[3; 1]; [2; 2]] [5; 3; 7; 8] [10; -4]
              (sample.distil true false false) (sample.reranker2 1 false))
    as (H1 & _ & _ & H2); [lia | shape_of_sample | reflexivity | reflexivity |].
  split; [exact H1 | exact H2].
Defined.

(** ** Bounds on the sparsity metrics *)

Lemma count_nonzero_row_le v : (torch.count_nonzero_row v <= length v)%nat.
Proof.
  induction v as [|x v IH]; simpl; [lia|]. destruct (Req_dec_T x 0); lia.
Qed.

Lemma count_nonzero_row_zero_iff v :
  torch.count_nonzero_row v = 0%nat ↔ Forall (λ x, x = 0) v.
Proof.
  induction v as [|x v IH]; simpl; [done|]. destruct (Req_dec_T x 0) as [Hx|Hx].
  - rewrite IH. split; [by constructor | by intros [_ ?]%Forall_cons].
  - split; [done | by intros [? _]%Forall_cons].
Qed.

Lemma count_nonzero_row_full_iff v :
  torch.count_nonzero_row v = length v ↔ Forall (λ x, x ≠ 0) v.
Proof.
  induction v as [|x v IH]; simpl; [done|].
  pose proof (count_nonzero_row_le v). destruct (Req_dec_T x 0) as [Hx|Hx].
  - split; [lia | by intros [? _]%Forall_cons].
  - split.
    + intros [= H']. constructor; [done | by apply IH].
    + intros [_ H']%Forall_cons. f_equal. by apply IH.
Qed.

Lemma sum_nonneg_zero_iff v :
  Forall (λ x, 0 <= x) v → torch.sum v = 0 ↔ Forall (λ x, x = 0) v.
Proof.
  induction 1 as [|x v Hx Hv IH]; simpl; [done|].
  pose proof (sum_nonneg v Hv). split.
  - intros Hsum. constructor; [lra|]. apply IH. lra.
  - intros [-> Hz]%Forall_cons. apply IH in Hz. lra.
Qed.

Lemma sum_le_bound (M : R) v :
  Forall (λ x, x <= M) v → torch.sum v <= INR (length v) * M.
Proof.
  induction 1 as [|x v Hx Hv IH]; [simpl; lra|].
  change (length (x :: v)) with (S (length v)). rewrite S_INR. simpl. lra.
Qed.

Lemma sum_bound_iff (M : R) v :
  Forall (λ x, x <= M) v → torch.sum v = INR (length v) * M ↔ Forall (λ x, x = M) v.
Proof.
  induction 1 as [|x v Hx Hv IH]; [simpl; split; [done | intros _; lra]|].
  change (length (x :: v)) with (S (length v)). rewrite S_INR. simpl.
  pose proof (sum_le_bound M v Hv). split.
  - intros Hsum. constructor; [lra|]. apply IH. lra.
  - intros [-> Hz]%Forall_cons. apply IH in Hz. lra.
Qed.

(** X14.  On a batch of [b > 0] vectors of dimension [d], [_L0] is a finite
    number between 0 and [d]; it is 0 exactly when every entry of the batch
    is zero and [d] exactly when no entry is. *)
Theorem L0_between_zero_and_dimension (b d : nat) (rep : torch.T2) :
  (0 < b)%nat → shape2 b d rep →
  ∃ v, BaseTrainer._L0 rep = Some v
       ∧ 0 <= v <= INR d
       ∧ (v = 0 ↔ Forall (Forall (λ x, x = 0)) rep)
       ∧ (v = INR d ↔ Forall (Forall (λ x, x ≠ 0)) rep).
Proof.
  intros Hb [Hlen Hrows]. unfold BaseTrainer._L0, torch.float, torch.count_nonzero.
  rewrite map_map. set (counts := map (λ v, INR (torch.count_nonzero_row v)) rep).
  assert (length counts = b) as Hlc by (unfold counts; by rewrite length_map).
  assert (0 < INR b) as HINR by (apply lt_0_INR; lia).
  assert (Forall (λ x, 0 <= x) counts) as Hpos.
  { apply Forall_map, Forall_true. intros v. apply pos_INR. }
  assert (Forall (λ x, x <= INR d) counts) as Hle.
  { apply Forall_map. eapply Forall_impl; [exact Hrows|]. intros v Hv. simpl.
    apply le_INR. rewrite <- Hv. apply count_nonzero_row_le. }
  rewrite mean_nonempty by lia. rewrite Hlc. eexists. split; [reflexivity|].
  pose proof (sum_nonneg counts Hpos) as H0.
  pose proof (sum_le_bound (INR d) counts Hle) as H1. rewrite Hlc in H1.
  split; [|split].
  - split.
    + apply Rmult_le_pos; [done | left; by apply Rinv_0_lt_compat].
    + apply (Rmult_le_reg_r (INR b)); [done|]. unfold Rdiv.
      rewrite Rmult_assoc, Rinv_l by lra. lra.
  - assert (torch.sum counts / INR b = 0 ↔ torch.sum counts = 0) as ->.
    { split; [|intros ->; unfold Rdiv; lra]. intros H.
      apply (f_equal (λ x, x * INR b)) in H. unfold Rdiv in H.
      rewrite Rmult_assoc, Rinv_l in H by lra. lra. }
    rewrite (sum_nonneg_zero_iff counts Hpos). unfold counts. rewrite Forall_map.
    apply Forall_iff. intros v. simpl. rewrite <- count_nonzero_row_zero_iff.
    split; [intros H; by apply INR_eq | by intros ->].
  - assert (torch.sum counts / INR b = INR d ↔ torch.sum counts = INR b * INR d) as ->.
    { split; [|intros ->; field; lra]. intros <-. field. lra. }
    pose proof (sum_bound_iff (INR d) counts Hle) as Hiff. rewrite Hlc in Hiff.
    rewrite Hiff. unfold counts. rewrite Forall_map.
    rewrite Forall_forall in Hrows. rewrite !Forall_forall.
    split; intros H v Hv; specialize (H v Hv); specialize (Hrows v Hv); simpl in *.
    + apply count_nonzero_row_full_iff. apply INR_eq. by rewrite Hrows.
    + apply count_nonzero_row_full_iff in H. by rewrite H, Hrows.
Qed.

Lemma L0_between_zero_and_dimension_witness :
  ∃ v, BaseTrainer._L0 [[1; 0; 2]; [0; 0; 4]] = Some v ∧ 0 <= v <= INR 3.
Proof.
  destruct (L0_between_zero_and_dimension 2 3 [[1; 0; 2]; [0; 0; 4]])
    as (v & Hv & Hb & _); [lia | shape_of_sample |].
  by exists v.
Defined.

(** ** The FLOPS regulariser and the L1 norm *)

Lemma sum_map_plus {A} (f g : A → R) (l : list A) :
  torch.sum (map (λ x, f x + g x) l) = torch.sum (map f l) + torch.sum (map g l).
Proof. induction l as [|x l IH]; simpl; [lra | rewrite IH; lra]. Qed.

Lemma sum_columns_abs d (t : torch.T2) :
  Forall (λ row, length row = d) t →
  torch.sum (map (λ j, torch.sum (map Rabs (torch.column j t))) (seq 0 d))
  = torch.sum (map l1_norm t).
Proof.
  induction 1 as [|row t Hrow _ IH]; simpl.
  - apply sum_zero, Forall_map, Forall_true. done.
  - rewrite (sum_map_plus (λ j, Rabs (nth j row 0))
               (λ j, torch.sum (map Rabs (torch.column j t)))).
    rewrite IH. f_equal. unfold l1_norm.
    rewrite <- (map_nth_seq row d Hrow) at 1. by rewrite map_map.
Qed.

Lemma sum_mean_abs b d (t : torch.T2) :
  (0 < b)%nat → shape2 b d t →
  torch.sum (map (mean_abs t) (seq 0 (torch.size1 t))) = mean_l1_norm t.
Proof.
  intros Hb Ht. rewrite (shape2_size1 b d) by done. destruct Ht as [_ Hrows].
  unfold mean_abs, mean_l1_norm.
  rewrite (sum_map_div (λ j, torch.sum (map Rabs (torch.column j t)))).
  by rewrite sum_columns_abs.
Qed.

Lemma sum_sq_le_sq_sum m : Forall (λ x, 0 <= x) m → sum_sq m <= torch.sum m ^ 2.
Proof.
  induction 1 as [|x m Hx Hm IH]; [unfold sum_sq; simpl; lra|].
  rewrite sum_sq_cons. simpl. pose proof (sum_nonneg m Hm). nra.
Qed.

Lemma sum_abs_nonneg v : 0 <= torch.sum (map Rabs v).
Proof. apply sum_nonneg, Forall_map, Forall_true. intros x. apply Rabs_pos. Qed.

Lemma mean_abs_nonneg t j : (0 < length t)%nat → 0 <= mean_abs t j.
Proof.
  intros Hlen. unfold mean_abs. apply Rmult_le_pos; [apply sum_abs_nonneg|].
  left. apply Rinv_0_lt_compat, lt_0_INR. lia.
Qed.

Lemma mean_l1_norm_nonneg t : (0 < length t)%nat → 0 <= mean_l1_norm t.
Proof.
  intros Hlen. unfold mean_l1_norm. apply Rmult_le_pos.
  - apply sum_nonneg, Forall_map, Forall_true. intros v. apply sum_abs_nonneg.
  - left. apply Rinv_0_lt_compat, lt_0_INR. lia.
Qed.

(** X15.  On a batch of [b > 0] vectors of one dimension, [_flops] and [_L1]
    are finite and not negative, and [_flops] is at most the square of
    [_L1]. *)
Theorem flops_at_most_squared_L1 (b d : nat) (rep : torch.T2) :
  (0 < b)%nat → shape2 b d rep →
  ∃ f l, BaseTrainer._flops rep = Some f ∧ BaseTrainer._L1 rep = Some l
         ∧ 0 <= f ∧ 0 <= l ∧ f <= l ^ 2.
Proof.
  intros Hb Hrep. assert (0 < length rep)%nat as Hlen by (destruct Hrep; lia).
  rewrite _flops_value, _L1_value by done. eexists _, _.
  split; [reflexivity|]. split; [reflexivity|].
  split; [apply sum_sq_nonneg|]. split; [by apply mean_l1_norm_nonneg|].
  rewrite <- (sum_mean_abs b d) by done. apply sum_sq_le_sq_sum.
  apply Forall_map, Forall_true. intros j. by apply mean_abs_nonneg.
Qed.

Lemma flops_at_most_squared_L1_witness :
  ∃ f l, BaseTrainer._flops [[1; -2]; [3; 0]] = Some f
         ∧ BaseTrainer._L1 [[1; -2]; [3; 0]] = Some l
         ∧ 0 <= f ∧ 0 <= l ∧ f <= l ^ 2.
Proof. apply (flops_at_most_squared_L1 2 2); [lia | shape_of_sample]. Defined.

(** ** The sign of the loss *)

Lemma regulariser_nonneg b n d queries docs (splade_doc : bool) (lambda_d lambda_q : R) :
  (0 < b)%nat → (0 < d)%nat →
  shape3 b 1 d queries → shape3 b (S n) d docs →
  0 <= lambda_d → 0 <= lambda_q →
  ∃ f, (let flops := sscale lambda_d (BaseTrainer._flops (concat docs)) in
        if splade_doc then flops
        else sadd flops (sscale lambda_q (BaseTrainer._L1 (torch.squeeze1 queries))))
       = Some f ∧ 0 <= f.
Proof.
  intros Hb Hd Hq Hdocs Hld Hlq.
  rewrite (flops_term_value b n d queries docs) by done.
  eexists. split; [reflexivity|].
  pose proof (sum_sq_nonneg (map (mean_abs (concat docs))
                               (seq 0 (torch.size1 (concat docs))))) as Hf.
  assert (0 <= mean_l1_norm (torch.squeeze1 queries)) as Hl.
  { apply mean_l1_norm_nonneg. unfold torch.squeeze1. rewrite length_map.
    destruct Hq; lia. }
  destruct splade_doc; nra.
Qed.

(** X16.  With coefficients [l0d] and [l0q] that are not negative, the loss a
    dual-encoder trainer returns on a well-shaped batch, when it is finite,
    is not negative for a dense model and is positive for a sparse one: the
    contrastive, distillation and regularisation terms are not negative and
    the anti-zero term is positive. *)
Theorem dual_loss_sign
    (b n d : nat) (queries docs : torch.T3)
    (fs_model ds_model : batch → dual_output) (ro : bool)
    (fs_self : FirstStageTrainer.t) (ds_self : DistilTrainer.t)
    (fs_inputs ds_inputs : batch) (ts : torch.T1) :
  (0 < b)%nat → (0 < d)%nat →
  shape3 b 1 d queries → shape3 b (S n) d docs →
  fs_model (delete "scores" fs_inputs) = (queries, docs) →
  ds_model (delete "scores" ds_inputs) = (queries, docs) →
  ds_inputs !! "scores" = Some ts → length ts = (b * S n)%nat →
  (DistilTrainer.mse_margin ds_self = true → (0 < n)%nat) →
  0 <= FirstStageTrainer.lambda_d fs_self → 0 <= FirstStageTrainer.lambda_q fs_self →
  0 <= DistilTrainer.lambda_d ds_self → 0 <= DistilTrainer.lambda_q ds_self →
  (∃ r self',
     FirstStageTrainer.compute_loss fs_model ro (fs_self, fs_inputs)
     = (Ok r, (self', delete "scores" fs_inputs))
     ∧ ∀ v, returned_loss r = Some v →
            if FirstStageTrainer.dense fs_self then 0 <= v else 0 < v)
  ∧ (∃ r self',
       DistilTrainer.compute_loss ds_model ro (ds_self, ds_inputs)
       = (Ok r, (self', delete "scores" ds_inputs))
       ∧ ∀ v, returned_loss r = Some v →
              if DistilTrainer.dense ds_self then 0 <= v else 0 < v).
Proof.
  intros Hb Hd Hq Hdocs Hfs Hds Hs Hts Hmse Hfd Hfq Hdd Hdq.
  destruct (in_batch_rows_shape b n d _ _ Hq Hdocs) as [Hlen Hrows].
  destruct (mean_ce_nonneg (in_batch_rows queries docs)) as (l & Hl & Hlpos); [lia| |].
  { eapply Forall_impl; [exact Hrows|]. intros [|x row]; simpl; [lia | done]. }
  split.
  - destruct (regulariser_nonneg b n d queries docs (FirstStageTrainer.splade_doc fs_self)
                _ _ Hb Hd Hq Hdocs Hfd Hfq) as (f & Hf & Hfpos).
    eexists _, _. split.
    + eapply FirstStage_run; [exact Hfs | by apply (contrastive_in_batch b n d) | |
        by apply (L0_of_shaped b (S n) d); try lia | by apply (L0_of_shaped b 1 d); try lia].
      by apply (FirstStage_flops_term_shaped b (S n) d); try lia.
    + rewrite Hl, Hf. intros v.
      destruct (FirstStageTrainer.dense fs_self).
      * destruct ro; simpl; intros [= <-]; done.
      * destruct (FirstStageTrainer.anti_zero_term queries docs) as [a|] eqn:Ha;
          [|by destruct ro].
        apply anti_zero_term_pos in Ha. destruct ro; simpl; intros [= <-]; lra.
  - destruct (regulariser_nonneg b n d queries docs (DistilTrainer.splade_doc ds_self)
                _ _ Hb Hd Hq Hdocs Hdd Hdq) as (f & Hf & Hfpos).
    destruct (Distil_distillation_nonneg b n ds_self (DistilTrainer.pair_scores queries docs) ts)
      as (dl & Hdl & Hdlpos); [done | by apply (pair_scores_shape b n d) | done | done |].
    eexists _, _. split.
    + eapply Distil_run; [exact Hs | exact Hds | exact Hdl |
        by apply (contrastive_in_batch b n d) | |
        by apply (L0_of_shaped b (S n) d); try lia | by apply (L0_of_shaped b 1 d); try lia].
      by apply (Distil_flops_term_shaped b (S n) d); try lia.
    + rewrite Hl, Hf. intros v.
      destruct (DistilTrainer.dense ds_self).
      * destruct ro; simpl; intros [= <-]; lra.
      * change (DistilTrainer.anti_zero_term queries docs)
          with (FirstStageTrainer.anti_zero_term queries docs).
        destruct (FirstStageTrainer.anti_zero_term queries docs) as [a|] eqn:Ha;
          [|by destruct ro].
        apply anti_zero_term_pos in Ha. destruct ro; simpl; intros [= <-]; lra.
Qed.

Lemma dual_loss_sign_witness :
  ∃ r self',
    FirstStageTrainer.compute_loss (sample.dual_model sample.queries sample.docs) false
      (sample.first_stage false false, ∅)
    = (Ok r, (self', delete "scores" ∅))
    ∧ ∀ v, returned_loss r = Some v → 0 < v.
Proof.
  destruct (dual_loss_sign 2 1 2 sample.queries sample.docs
              (sample.dual_model sample.queries sample.docs)
              (sample.dual_model sample.queries sample.docs) false
              (sample.first_stage false false) (sample.distil true false false)
              ∅ {["scores" := sample.teacher]} sample.teacher)
    as ((r & self' & Hrun & Hsign) & _);
    [lia | lia | shape_of_sample | shape_of_sample | reflexivity | reflexivity
    | apply lookup_singleton_eq | reflexivity | simpl; lia
    | simpl; lra | simpl; lra | simpl; lra | simpl; lra |].
  exists r, self'. split; [exact Hrun | exact Hsign].
Defined.

(** ** Checkpoints that are not there or do not fit *)

(** X17.  [_load_from_checkpoint] raises [FileNotFoundError] and changes
    nothing when [pytorch_model.bin] is not under the checkpoint path.  When
    the weights are not shared and [query/pytorch_model.bin] is not there, it
    raises [FileNotFoundError] once the document encoder is loaded: the
    document encoder holds the weights of the checkpoint, the query encoder
    does not. *)
Theorem checkpoint_file_missing
    (self : BaseTrainer.t) (path : string) (arg : option BaseTrainer.loc)
    (w1 w2 : BaseTrainer.world) (m : BaseTrainer.model_obj)
    (sd params : BaseTrainer.state_dict) :
  BaseTrainer.files w1 !! BaseTrainer.os_path_join path "pytorch_model.bin" = None →
  BaseTrainer.models w2 !! match arg with None => BaseTrainer.model self | Some l => l end
  = Some m →
  BaseTrainer.files w2 !! BaseTrainer.os_path_join path "pytorch_model.bin" = Some sd →
  BaseTrainer.encoders w2 !! BaseTrainer.doc_encoder m = Some params →
  map_imap (BaseTrainer.size_mismatch sd) params = ∅ →
  BaseTrainer.shared_weights m = false →
  BaseTrainer.files w2
    !! BaseTrainer.os_path_join (BaseTrainer.os_path_join path "query") "pytorch_model.bin"
  = None →
  BaseTrainer._load_from_checkpoint self path arg w1
  = (Raise (FileNotFoundError (BaseTrainer.os_path_join path "pytorch_model.bin")), w1)
  ∧ BaseTrainer._load_from_checkpoint self path arg w2
    = (Raise (FileNotFoundError
                (BaseTrainer.os_path_join (BaseTrainer.os_path_join path "query")
                   "pytorch_model.bin")),
       BaseTrainer.set_encoders
         (<[BaseTrainer.doc_encoder m := BaseTrainer.load_params sd params]>
            (BaseTrainer.encoders w2)) w2).
Proof.
  intros Hnone Hm Hfile Hdoc Hsize Hshared Hqnone.
  unfold BaseTrainer._load_from_checkpoint.
  unfold BaseTrainer.torch_load, BaseTrainer.deref_model, BaseTrainer.set_query_encoder,
    BaseTrainer._issue_warnings_after_load.
  run_monad. split.
  - by rewrite Hnone.
  - rewrite Hfile, Hm. rewrite (load_state_dict_ok _ sd params) by done.
    rewrite !models_set_encoders, Hm, Hshared.
    repeat (progress (cbv beta iota;
                      rewrite ?files_set_encoders, ?Hqnone, ?models_set_encoders, ?Hm)).
    done.
Qed.

Lemma checkpoint_file_missing_witness :
  BaseTrainer._load_from_checkpoint sample_checkpoint.trainer "ckpt" None
    (sample_world_with ∅ false)
  = (Raise (FileNotFoundError "ckpt/pytorch_model.bin"), sample_world_with ∅ false)
  ∧ ∃ w', BaseTrainer._load_from_checkpoint sample_checkpoint.trainer "ckpt" None
            (sample_world_with {["ckpt/pytorch_model.bin" := sample_checkpoint.doc_file]} false)
          = (Raise (FileNotFoundError "ckpt/query/pytorch_model.bin"), w')
          ∧ BaseTrainer.encoders w' !! 1%positive
            = Some (BaseTrainer.load_params sample_checkpoint.doc_file sample_checkpoint.fresh)
          ∧ BaseTrainer.encoders w' !! 2%positive = Some sample_checkpoint.fresh.
Proof.
  destruct (checkpoint_file_missing sample_checkpoint.trainer "ckpt" None
              (sample_world_with ∅ false)
              (sample_world_with {["ckpt/pytorch_model.bin" := sample_checkpoint.doc_file]} false)
              {| BaseTrainer.doc_encoder := 1; BaseTrainer.query_encoder := 2;
                 BaseTrainer.shared_weights := false;
                 BaseTrainer._keys_to_ignore_on_save := None |}
              sample_checkpoint.doc_file sample_checkpoint.fresh)
    as [H1 H2]; [reflexivity..|].
  split; [exact H1|]. eexists. split; [exact H2|]. split; reflexivity.
Defined.

Lemma load_state_dict_mismatch encoder sd params w k x v :
  BaseTrainer.encoders w !! encoder = Some params →
  sd !! k = Some x → params !! k = Some v → BaseTrainer.shape x ≠ BaseTrainer.shape v →
  BaseTrainer.load_state_dict encoder sd w
  = (Raise RuntimeError,
     BaseTrainer.set_encoders
       (<[encoder := BaseTrainer.load_params sd params]> (BaseTrainer.encoders w)) w).
Proof.
  intros Henc Hx Hv Hshape. unfold BaseTrainer.load_state_dict. rewrite Henc.
  destruct (decide _) as [Hempty|_]; [|done]. exfalso.
  apply (f_equal (lookup k)) in Hempty.
  rewrite map_lookup_imap, Hv, lookup_empty in Hempty. simpl in Hempty.
  unfold BaseTrainer.size_mismatch in Hempty. rewrite Hx in Hempty.
  by destruct (decide _).
Qed.

(** X18.  When a parameter of [pytorch_model.bin] has another shape than the
    parameter of that name of the document encoder, [_load_from_checkpoint]
    raises [RuntimeError].  The document encoder then holds the parameters
    of the file that fit and its own value for the one that does not; the
    model still has the query encoder it had, also with [shared_weights]
    set, no query weights are loaded and no warning is issued. *)
Theorem checkpoint_shape_mismatch
    (self : BaseTrainer.t) (path : string) (arg : option BaseTrainer.loc)
    (w : BaseTrainer.world) (m : BaseTrainer.model_obj)
    (sd params : BaseTrainer.state_dict) (k : string) (x v : BaseTrainer.tensor) :
  BaseTrainer.models w !! match arg with None => BaseTrainer.model self | Some l => l end
  = Some m →
  BaseTrainer.files w !! BaseTrainer.os_path_join path "pytorch_model.bin" = Some sd →
  BaseTrainer.encoders w !! BaseTrainer.doc_encoder m = Some params →
  sd !! k = Some x → params !! k = Some v → BaseTrainer.shape x ≠ BaseTrainer.shape v →
  ∃ w',
    BaseTrainer._load_from_checkpoint self path arg w = (Raise RuntimeError, w')
    ∧ BaseTrainer.models w' = BaseTrainer.models w
    ∧ BaseTrainer.warned w' = BaseTrainer.warned w
    ∧ BaseTrainer.files w' = BaseTrainer.files w
    ∧ BaseTrainer.encoders w'
      = <[BaseTrainer.doc_encoder m := BaseTrainer.load_params sd params]>
          (BaseTrainer.encoders w)
    ∧ BaseTrainer.load_params sd params !! k = Some v
    ∧ (∀ k' x' v', sd !! k' = Some x' → params !! k' = Some v' →
                   BaseTrainer.shape x' = BaseTrainer.shape v' →
                   BaseTrainer.load_params sd params !! k' = Some x')
    ∧ (BaseTrainer.query_encoder m ≠ BaseTrainer.doc_encoder m →
       BaseTrainer.encoders w' !! BaseTrainer.query_encoder m
       = BaseTrainer.encoders w !! BaseTrainer.query_encoder m).
Proof.
  intros Hm Hfile Hdoc Hx Hv Hshape.
  unfold BaseTrainer._load_from_checkpoint.
  unfold BaseTrainer.torch_load, BaseTrainer.deref_model, BaseTrainer.set_query_encoder,
    BaseTrainer._issue_warnings_after_load.
  run_monad. rewrite Hfile, Hm.
  rewrite (load_state_dict_mismatch _ sd params w k x v) by done.
  eexists. split; [reflexivity|]. simpl.
  repeat (split; [done|]). split; [|split].
  - rewrite lookup_load_params, Hv. simpl. unfold BaseTrainer.loaded. rewrite Hx.
    by destruct (decide _).
  - intros k' x' v' Hx' Hv' Hshape'. rewrite lookup_load_params, Hv'. simpl.
    unfold BaseTrainer.loaded. rewrite Hx'. by destruct (decide _).
  - intros Hne. by rewrite lookup_insert_ne.
Qed.

Lemma checkpoint_shape_mismatch_witness :
  ∃ w',
    BaseTrainer._load_from_checkpoint sample_checkpoint.trainer "ckpt" None
      (sample_world_with {["ckpt/pytorch_model.bin" := sample_wide_file]} true)
    = (Raise RuntimeError, w')
    ∧ BaseTrainer.models w'
      = BaseTrainer.models
          (sample_world_with {["ckpt/pytorch_model.bin" := sample_wide_file]} true)
    ∧ BaseTrainer.warned w' = [].
Proof.
  destruct (checkpoint_shape_mismatch sample_checkpoint.trainer "ckpt" None
              (sample_world_with {["ckpt/pytorch_model.bin" := sample_wide_file]} true)
              {| BaseTrainer.doc_encoder := 1; BaseTrainer.query_encoder := 2;
                 BaseTrainer.shared_weights := true;
                 BaseTrainer._keys_to_ignore_on_save := None |}
              sample_wide_file sample_checkpoint.fresh "w"
              {| BaseTrainer.shape := [3%nat]; BaseTrainer.data := [1; 2; 3] |}
              (sample_checkpoint.tensor2 0 0))
    as (w' & Hrun & Hmodels & Hwarned & _);
    [reflexivity | reflexivity | reflexivity | reflexivity | reflexivity | simpl; congruence |].
  exists w'. split; [exact Hrun|]. split; [exact Hmodels | exact Hwarned].
Defined.

(** ** What loading a checkpoint reports and what it leaves alone *)

Lemma issue_warnings_attribute_None self r w m :
  BaseTrainer.missing_keys r ≠ ∅ →
  BaseTrainer.models w !! BaseTrainer.model self = Some m →
  BaseTrainer._keys_to_ignore_on_save m = Some None →
  (BaseTrainer._issue_warnings_after_load self r w).1 = Ok tt
  ∧ BaseTrainer.warned (BaseTrainer._issue_warnings_after_load self r w).2
    = BaseTrainer.warned w
      ++ BaseTrainer.MissingKeysWarning (BaseTrainer.missing_keys r) :: unexpected_warning r.
Proof.
  intros Hmissing Hm Hattr.
  unfold BaseTrainer._issue_warnings_after_load, BaseTrainer.deref_model, BaseTrainer.issue,
    unexpected_warning.
  run_monad.
  destruct (decide (BaseTrainer.missing_keys r = ∅)); [done|]. simpl.
  rewrite Hm. simpl. rewrite Hattr. simpl.
  destruct (decide (None = Some (BaseTrainer.missing_keys r))); [done|]. simpl.
  destruct (decide (BaseTrainer.unexpected_keys r = ∅)); simpl; [done|].
  by rewrite <- app_assoc.
Qed.

(** X19.  When both loads return, what [_load_from_checkpoint] reports is
    decided by the last state dictionary it loaded alone, that of the
    document encoder with [shared_weights] set and that of the query encoder
    otherwise: without shared weights the keys that [pytorch_model.bin]
    lacks or has in excess are never reported.  When the last load misses no
    key the call returns, with one warning if that load had unexpected keys
    and none otherwise.  When it misses keys and the model of the trainer is
    a plain module, without [_keys_to_ignore_on_save], the call raises
    [AttributeError] and warns of nothing; with that attribute [None] it
    returns and warns of the missing keys, then of the unexpected ones. *)
Theorem checkpoint_warns_about_last_load
    (self : BaseTrainer.t) (path : string) (arg : option BaseTrainer.loc)
    (w : BaseTrainer.world) (m ms : BaseTrainer.model_obj)
    (sd params sdq paramsq : BaseTrainer.state_dict) :
  BaseTrainer.models w !! match arg with None => BaseTrainer.model self | Some l => l end
  = Some m →
  BaseTrainer.models w !! BaseTrainer.model self = Some ms →
  BaseTrainer.files w !! BaseTrainer.os_path_join path "pytorch_model.bin" = Some sd →
  BaseTrainer.encoders w !! BaseTrainer.doc_encoder m = Some params →
  map_imap (BaseTrainer.size_mismatch sd) params = ∅ →
  (BaseTrainer.shared_weights m = false →
     BaseTrainer.files w
       !! BaseTrainer.os_path_join (BaseTrainer.os_path_join path "query") "pytorch_model.bin"
     = Some sdq
     ∧ <[BaseTrainer.doc_encoder m := BaseTrainer.load_params sd params]>
         (BaseTrainer.encoders w) !! BaseTrainer.query_encoder m = Some paramsq
     ∧ map_imap (BaseTrainer.size_mismatch sdq) paramsq = ∅) →
  ∃ o w',
    BaseTrainer._load_from_checkpoint self path arg w = (o, w')
    ∧ (BaseTrainer.missing_keys (last_load_result m sd params sdq paramsq) = ∅ →
       o = Ok tt
       ∧ BaseTrainer.warned w'
         = BaseTrainer.warned w
           ++ unexpected_warning (last_load_result m sd params sdq paramsq))
    ∧ (BaseTrainer.missing_keys (last_load_result m sd params sdq paramsq) ≠ ∅ →
       BaseTrainer._keys_to_ignore_on_save ms = None →
       o = Raise (AttributeError "_keys_to_ignore_on_save")
       ∧ BaseTrainer.warned w' = BaseTrainer.warned w)
    ∧ (BaseTrainer.missing_keys (last_load_result m sd params sdq paramsq) ≠ ∅ →
       BaseTrainer._keys_to_ignore_on_save ms = Some None →
       o = Ok tt
       ∧ BaseTrainer.warned w'
         = BaseTrainer.warned w
           ++ BaseTrainer.MissingKeysWarning
                (BaseTrainer.missing_keys (last_load_result m sd params sdq paramsq))
              :: unexpected_warning (last_load_result m sd params sdq paramsq)).
Proof.
  intros Hm Hms Hfile Hdoc Hsize Hquery.
  set (mloc := match arg with None => BaseTrainer.model self | Some l => l end) in *.
  assert (∃ w1 : BaseTrainer.world,
            BaseTrainer._load_from_checkpoint self path arg w
            = BaseTrainer._issue_warnings_after_load self
                (last_load_result m sd params sdq paramsq) w1
            ∧ BaseTrainer.warned w1 = BaseTrainer.warned w
            ∧ ∃ ms1, BaseTrainer.models w1 !! BaseTrainer.model self = Some ms1
                     ∧ BaseTrainer._keys_to_ignore_on_save ms1
                       = BaseTrainer._keys_to_ignore_on_save ms)
    as (w1 & -> & Hwarned & ms1 & Hms1 & Hattr).
  { unfold BaseTrainer._load_from_checkpoint, last_load_result. fold mloc.
    unfold BaseTrainer.torch_load, BaseTrainer.deref_model, BaseTrainer.set_query_encoder.
    run_monad. rewrite Hfile, Hm.
    rewrite (load_state_dict_ok _ sd params) by done.
    rewrite !models_set_encoders, Hm.
    destruct (BaseTrainer.shared_weights m) eqn:Hshared.
    - repeat (progress (cbv beta iota; rewrite ?models_set_encoders, ?Hm)).
      eexists. split; [reflexivity|]. split; [done|]. simpl.
      destruct (decide (BaseTrainer.model self = mloc)) as [Heq|Hne].
      + rewrite Heq, lookup_insert_eq. eexists. split; [done|]. simpl.
        rewrite Heq in Hms. congruence.
      + rewrite lookup_insert_ne by done. by exists ms.
    - destruct (Hquery eq_refl) as (Hqfile & Hqenc & Hqsize).
      repeat (progress (cbv beta iota;
                        rewrite ?files_set_encoders, ?Hqfile, ?models_set_encoders, ?Hm)).
      rewrite (load_state_dict_ok _ sdq paramsq) by done.
      eexists. split; [reflexivity|]. split; [done|]. by exists ms. }
  set (r := last_load_result m sd params sdq paramsq) in *.
  destruct (BaseTrainer._issue_warnings_after_load self r w1) as [o w'] eqn:Hrun.
  exists o, w'. split; [done|]. split; [|split].
  - intros H0. destruct (issue_warnings_no_missing self r w1 H0) as [Ho Hw].
    rewrite Hrun in Ho, Hw. simpl in Ho, Hw. by rewrite <- Hwarned.
  - intros H0 Hnone. rewrite Hnone in Hattr.
    rewrite (issue_warnings_plain_module self r w1 ms1 H0 Hms1 Hattr) in Hrun.
    by injection Hrun as <- <-.
  - intros H0 Hsome. rewrite Hsome in Hattr.
    destruct (issue_warnings_attribute_None self r w1 ms1 H0 Hms1 Hattr) as [Ho Hw].
    rewrite Hrun in Ho, Hw. simpl in Ho, Hw. by rewrite <- Hwarned.
Qed.

Lemma checkpoint_warns_about_last_load_witness :
  ∃ w',
    BaseTrainer._load_from_checkpoint sample_checkpoint.trainer "ckpt" None
      (sample_world_with {["ckpt/pytorch_model.bin" := ∅;
                           "ckpt/query/pytorch_model.bin" := sample_checkpoint.query_file]}
         false)
    = (Ok tt, w')
    ∧ BaseTrainer.warned w' = [].
Proof.
  destruct (checkpoint_warns_about_last_load sample_checkpoint.trainer "ckpt" None
              (sample_world_with {["ckpt/pytorch_model.bin" := ∅;
                                   "ckpt/query/pytorch_model.bin" := sample_checkpoint.query_file]}
                 false)
              {| BaseTrainer.doc_encoder := 1; BaseTrainer.query_encoder := 2;
                 BaseTrainer.shared_weights := false;
                 BaseTrainer._keys_to_ignore_on_save := None |}
              {| BaseTrainer.doc_encoder := 1; BaseTrainer.query_encoder := 2;
                 BaseTrainer.shared_weights := false;
                 BaseTrainer._keys_to_ignore_on_save := None |}
              ∅ sample_checkpoint.fresh sample_checkpoint.query_file sample_checkpoint.fresh)
    as (o & w' & Hrun & Hret & _);
    [reflexivity | reflexivity | reflexivity | reflexivity | reflexivity | |].
  - intros _. split; [reflexivity|]. split; reflexivity.
  - destruct (Hret eq_refl) as [-> Hwarned]. exists w'. split; [exact Hrun | exact Hwarned].
Defined.

Lemma same_architecture_refl ps : same_architecture ps ps.
Proof. split; [done|]. intros k v v' Hv Hv'. congruence. Qed.

Lemma shape_loaded sd k v :
  BaseTrainer.shape (BaseTrainer.loaded sd k v) = BaseTrainer.shape v.
Proof.
  unfold BaseTrainer.loaded. destruct (sd !! k) as [x|]; [|done].
  by destruct (decide _).
Qed.

Lemma same_architecture_load sd ps : same_architecture ps (BaseTrainer.load_params sd ps).
Proof.
  split.
  - apply set_eq. intros k. rewrite !elem_of_dom, lookup_load_params.
    by rewrite fmap_is_Some.
  - intros k v v' Hv. rewrite lookup_load_params, Hv. simpl. intros [= <-].
    apply shape_loaded.
Qed.

Lemma same_architecture_trans ps1 ps2 ps3 :
  same_architecture ps1 ps2 → same_architecture ps2 ps3 → same_architecture ps1 ps3.
Proof.
  intros [Hd1 Hs1] [Hd2 Hs2]. split; [congruence|].
  intros k v v'' Hv Hv''.
  assert (is_Some (ps2 !! k)) as [v' Hv'].
  { apply elem_of_dom. rewrite Hd1. apply elem_of_dom. by exists v. }
  rewrite (Hs2 k v' v'' Hv' Hv''). by apply (Hs1 k).
Qed.

Lemma encoders_frame_refl doc query shared E : encoders_frame doc query shared E E.
Proof.
  split; [done|]. split; [done|]. intros e ps He. exists ps.
  split; [done | apply same_architecture_refl].
Qed.

Lemma encoders_frame_trans doc query shared E1 E2 E3 :
  encoders_frame doc query shared E1 E2 → encoders_frame doc query shared E2 E3 →
  encoders_frame doc query shared E1 E3.
Proof.
  intros (Ho1 & Hd1 & Ha1) (Ho2 & Hd2 & Ha2). split; [|split].
  - intros e H1 H2. rewrite Ho2, Ho1; done.
  - congruence.
  - intros e ps He. destruct (Ha1 e ps He) as (ps' & He' & Hs).
    destruct (Ha2 e ps' He') as (ps'' & He'' & Hs').
    exists ps''. split; [done | by eapply same_architecture_trans].
Qed.

Lemma encoders_frame_load doc query shared E e sd ps :
  e = doc ∨ (shared = false ∧ e = query) → E !! e = Some ps →
  encoders_frame doc query shared E (<[e := BaseTrainer.load_params sd ps]> E).
Proof.
  intros He Hps. split; [|split].
  - intros e' H1 H2. rewrite lookup_insert_ne; [done|].
    intros <-. destruct He as [?|[Hs ?]]; [done | by apply H2].
  - apply dom_insert_lookup_L. by exists ps.
  - intros e' ps' He'. destruct (decide (e' = e)) as [->|Hne].
    + rewrite lookup_insert_eq. eexists. split; [done|].
      assert (ps' = ps) as -> by congruence. apply same_architecture_load.
    + rewrite lookup_insert_ne by done. exists ps'.
      split; [done | apply same_architecture_refl].
Qed.

(** X20.  Whether it returns or raises, [_load_from_checkpoint] changes no
    file, no model but the one it loads, and the weights of no encoder but
    the document encoder of that model and, when the weights are not shared,
    its query encoder: with [shared_weights] set, the encoder that was the
    query encoder keeps its weights.  It creates no encoder, and no encoder
    changes its parameter names or the shape of a parameter. *)
Theorem checkpoint_load_frame
    (self : BaseTrainer.t) (path : string) (arg : option BaseTrainer.loc)
    (w : BaseTrainer.world) (m : BaseTrainer.model_obj) :
  BaseTrainer.models w !! match arg with None => BaseTrainer.model self | Some l => l end
  = Some m →
  checkpoint_frame (match arg with None => BaseTrainer.model self | Some l => l end)
    (BaseTrainer.doc_encoder m) (BaseTrainer.query_encoder m) (BaseTrainer.shared_weights m)
    w (BaseTrainer._load_from_checkpoint self path arg w).2.
Proof.
  intros Hm. set (mloc := match arg with None => BaseTrainer.model self | Some l => l end) in *.
  unfold BaseTrainer._load_from_checkpoint. fold mloc.
  unfold BaseTrainer.torch_load, BaseTrainer.deref_model, BaseTrainer.set_query_encoder,
    BaseTrainer.load_state_dict.
  run_monad.
  assert (checkpoint_frame mloc (BaseTrainer.doc_encoder m) (BaseTrainer.query_encoder m)
            (BaseTrainer.shared_weights m) w w) as Hrefl.
  { split; [done|]. split; [done|]. apply encoders_frame_refl. }
  destruct (BaseTrainer.files w !! _) as [sd|] eqn:Hfile; [|done].
  rewrite Hm.
  destruct (BaseTrainer.encoders w !! BaseTrainer.doc_encoder m) as [params|] eqn:Hdoc;
    [|done].
  pose proof (encoders_frame_load (BaseTrainer.doc_encoder m) (BaseTrainer.query_encoder m)
                (BaseTrainer.shared_weights m) (BaseTrainer.encoders w)
                (BaseTrainer.doc_encoder m) sd params (or_introl eq_refl) Hdoc) as Hload.
  destruct (decide (map_imap (BaseTrainer.size_mismatch sd) params = ∅)) as [Hsize|Hsize];
    [|split; [done|]; split; [done|]; exact Hload].
  repeat (progress (cbv beta iota; rewrite ?models_set_encoders, ?Hm)).
  destruct (BaseTrainer.shared_weights m) eqn:Hshared.
  - repeat (progress (cbv beta iota; rewrite ?models_set_encoders, ?Hm)).
    match goal with
    | |- context [BaseTrainer._issue_warnings_after_load self ?r ?w1] =>
        destruct (issue_warnings_world self r w1) as (Hf & He & Hmo & _)
    end.
    unfold checkpoint_frame. rewrite Hf, He, Hmo.
    split; [done|]. split; [|done]. intros l Hl. simpl. by rewrite lookup_insert_ne.
  - repeat (progress (cbv beta iota; rewrite ?files_set_encoders, ?models_set_encoders, ?Hm)).
    destruct (BaseTrainer.files w
                !! BaseTrainer.os_path_join (BaseTrainer.os_path_join path "query")
                     "pytorch_model.bin") as [sdq|] eqn:Hqfile;
      [|split; [done|]; split; [done|]; exact Hload].
    repeat (progress (cbv beta iota; rewrite ?files_set_encoders, ?models_set_encoders, ?Hm)).
    set (E1 := <[BaseTrainer.doc_encoder m := BaseTrainer.load_params sd params]>
                 (BaseTrainer.encoders w)) in *.
    change (BaseTrainer.encoders (BaseTrainer.set_encoders E1 w)) with E1.
    destruct (E1 !! BaseTrainer.query_encoder m) as [paramsq|] eqn:Hq;
      [|split; [done|]; split; [done|]; exact Hload].
    pose proof (encoders_frame_load (BaseTrainer.doc_encoder m) (BaseTrainer.query_encoder m)
                  false E1 (BaseTrainer.query_encoder m) sdq paramsq
                  (or_intror (conj eq_refl eq_refl)) Hq) as Hload2.
    destruct (decide (map_imap (BaseTrainer.size_mismatch sdq) paramsq = ∅));
      [|split; [done|]; split; [done|]; by eapply encoders_frame_trans].
    match goal with
    | |- context [BaseTrainer._issue_warnings_after_load self ?r ?w1] =>
        destruct (issue_warnings_world self r w1) as (Hf & He & Hmo & _)
    end.
    unfold checkpoint_frame. rewrite Hf, He, Hmo.
    split; [done|]. split; [done|]. by eapply encoders_frame_trans.
Qed.

Lemma checkpoint_load_frame_witness :
  checkpoint_frame 3 1 2 true (sample_checkpoint.world true)
    (BaseTrainer._load_from_checkpoint sample_checkpoint.trainer "ckpt" None
       (sample_checkpoint.world true)).2.
Proof.
  apply (checkpoint_load_frame sample_checkpoint.trainer "ckpt" None
           (sample_checkpoint.world true)
           {| BaseTrainer.doc_encoder := 1; BaseTrainer.query_encoder := 2;
              BaseTrainer.shared_weights := true;
              BaseTrainer._keys_to_ignore_on_save := None |}).
  reflexivity.
Defined.

(** ** [splade_max] *)

Lemma relu_0 : torch.relu 0 = 0.
Proof. unfold torch.relu. apply Rmax_left. lra. Qed.

Lemma relu_nonneg x : 0 <= torch.relu x.
Proof. unfold torch.relu. apply Rmax_l. Qed.

Lemma log1p_relu_0 : ln (1 + torch.relu 0) = 0.
Proof. rewrite relu_0, Rplus_0_r. apply ln_1. Qed.

Lemma log1p_relu_nonneg x : 0 <= ln (1 + torch.relu x).
Proof.
  pose proof (relu_nonneg x). rewrite <- ln_1. apply ln_le; lra.
Qed.

Lemma log1p_relu_zero_iff x : ln (1 + torch.relu x) = 0 ↔ x <= 0.
Proof.
  split.
  - intros Hln. destruct (Rle_dec x 0) as [|Hpos]; [done|]. exfalso.
    assert (torch.relu x = x) as Hrelu by (unfold torch.relu; apply Rmax_right; lra).
    rewrite Hrelu in Hln.
    assert (ln 1 < ln (1 + x)) as Hlt by (apply ln_increasing; lra).
    rewrite ln_1 in Hlt. lra.
  - intros Hx. assert (torch.relu x = 0) as -> by (unfold torch.relu; by apply Rmax_left).
    rewrite Rplus_0_r. apply ln_1.
Qed.

Lemma fold_left_Rmax_spec v a :
  (fold_left Rmax v a = a ∨ fold_left Rmax v a ∈ v)
  ∧ a <= fold_left Rmax v a
  ∧ Forall (λ y, y <= fold_left Rmax v a) v.
Proof.
  revert a. induction v as [|y v IH]; intros a; simpl.
  - split; [by left|]. split; [lra | done].
  - destruct (IH (Rmax a y)) as (Hin & Hle & Hall).
    pose proof (Rmax_l a y). pose proof (Rmax_r a y).
    split; [|split].
    + destruct Hin as [Heq|Hin]; [|right; by right].
      rewrite Heq. destruct (Rmax_case a y (λ z, z = a ∨ z = y)) as [->| ->]; auto.
      right. by left.
    + lra.
    + constructor; [lra | done].
Qed.

Lemma max_list_nth v x :
  torch.max_list v = Some x →
  (∃ l, (l < length v)%nat ∧ x = nth l v 0) ∧ ∀ l, (l < length v)%nat → nth l v 0 <= x.
Proof.
  destruct v as [|a v]; [done|]. simpl. intros [= <-].
  destruct (fold_left_Rmax_spec v a) as (Hin & Hle & Hall). split.
  - destruct Hin as [Heq|Hin].
    + exists 0%nat. split; [lia | done].
    + apply list_elem_of_lookup_1 in Hin as [l Hl]. exists (S l).
      split; [apply lookup_lt_Some in Hl; lia|]. simpl. symmetry. by apply nth_lookup_Some.
  - intros [|l] Hl; [done|]. simpl. rewrite (Forall_nth _ 0) in Hall. apply Hall. lia.
Qed.

Lemma nth_map_0 (g : R → R) row j : g 0 = 0 → nth j (map g row) 0 = g (nth j row 0).
Proof.
  intros Hg. transitivity (nth j (map g row) (g 0)); [by rewrite Hg | apply map_nth].
Qed.

Lemma nth_masked (o : torch.T2) (mrow : torch.T1) l j :
  (l < length o)%nat → (l < length mrow)%nat →
  nth j (nth l (zip_with (λ row m, map (λ x, x * m) row)
                  (map (map (λ x, ln (1 + torch.relu x))) o) mrow) []) 0
  = ln (1 + torch.relu (nth j (nth l o []) 0)) * nth l mrow 0.
Proof.
  revert mrow l. induction o as [|row o IH]; intros [|m mrow] [|l]; simpl; try lia.
  - intros _ _. rewrite map_map.
    apply (nth_map_0 (λ x, ln (1 + torch.relu x) * m)). rewrite log1p_relu_0. lra.
  - intros. apply IH; lia.
Qed.

Lemma masked_shape L V (o : torch.T2) (mrow : torch.T1) :
  shape2 L V o → length mrow = L →
  shape2 L V (zip_with (λ row m, map (λ x, x * m) row)
                (map (map (λ x, ln (1 + torch.relu x))) o) mrow).
Proof.
  intros [Hlen Hrows] Hm. split.
  - rewrite length_zip_with, length_map. lia.
  - clear Hlen Hm. revert mrow. induction Hrows as [|row o Hrow _ IH]; intros [|m mrow];
      simpl; try done.
    constructor; [by rewrite !length_map | apply IH].
Qed.

(** The maxima over the tokens of one sequence. *)
Lemma splade_max_sequence L V (o : torch.T2) (mrow : torch.T1) :
  (0 < L)%nat → shape2 L V o → length mrow = L →
  let M := zip_with (λ row m, map (λ x, x * m) row)
             (map (map (λ x, ln (1 + torch.relu x))) o) mrow in
  ∃ vrow,
    match M with
    | [] => None
    | _ :: _ => mapM (λ j, torch.max_list (torch.column j M)) (seq 0 (torch.size1 M))
    end = Some vrow
    ∧ length vrow = V
    ∧ ∀ j, (j < V)%nat →
        (∃ l, (l < L)%nat
              ∧ nth j vrow 0 = ln (1 + torch.relu (nth j (nth l o []) 0)) * nth l mrow 0)
        ∧ ∀ l, (l < L)%nat →
               ln (1 + torch.relu (nth j (nth l o []) 0)) * nth l mrow 0 <= nth j vrow 0.
Proof.
  intros HL Ho Hm M. pose proof (masked_shape L V o mrow Ho Hm) as HM. fold M in HM.
  assert (length M = L) as HlenM by (by destruct HM).
  assert (match M with
          | [] => None
          | _ :: _ => mapM (λ j, torch.max_list (torch.column j M)) (seq 0 (torch.size1 M))
          end = mapM (λ j, torch.max_list (torch.column j M)) (seq 0 V)) as ->.
  { rewrite (shape2_size1 L V) by done. destruct M; simpl in *; [lia | done]. }
  destruct (mapM (λ j, torch.max_list (torch.column j M)) (seq 0 V)) as [vrow|] eqn:Hrow.
  - apply mapM_Some in Hrow. exists vrow. split; [done|].
    pose proof (Forall2_length _ _ _ Hrow) as Hlen. rewrite length_seq in Hlen.
    split; [done|]. intros j Hj.
    assert (torch.max_list (torch.column j M) = Some (nth j vrow 0)) as Hmax.
    { destruct (lookup_lt_is_Some_2 vrow j) as [x Hx]; [lia|].
      rewrite (nth_lookup_Some _ _ _ _ Hx).
      eapply (Forall2_lookup_lr _ _ _ j j x Hrow); [|done].
      by apply lookup_seq. }
    apply max_list_nth in Hmax as [(l & Hl & Heq) Hall].
    assert (length (torch.column j M) = L) as Hcol
      by (unfold torch.column; by rewrite length_map).
    rewrite Hcol in Hl, Hall. destruct Ho as [Hlo _]. split.
    + exists l. split; [done|]. rewrite Heq, nth_column. apply nth_masked; lia.
    + intros l' Hl'. specialize (Hall l' Hl'). rewrite nth_column in Hall.
      unfold M in Hall. rewrite nth_masked in Hall by lia. done.
  - exfalso. apply mapM_None, Exists_exists in Hrow as (j & _ & Hnone).
    unfold torch.column in Hnone. destruct M; simpl in *; [lia | done].
Qed.

Lemma splade_max_spec b L V (output : torch.T3) (mask : torch.T2) :
  (0 < L)%nat → shape3 b L V output → shape2 b L mask →
  ∃ values,
    BaseTrainer.splade_max output mask = Some values
    ∧ shape2 b V values
    ∧ ∀ i j, (i < b)%nat → (j < V)%nat →
        (∃ l, (l < L)%nat ∧ nth j (nth i values []) 0 = activation output mask i l j)
        ∧ ∀ l, (l < L)%nat → activation output mask i l j <= nth j (nth i values []) 0.
Proof.
  intros HL [Hb Hout] [Hbm Hmask]. revert b mask Hb Hbm Hmask.
  induction Hout as [|o output Ho _ IH]; intros b mask Hb Hbm Hmask.
  - exists []. simpl in Hb. subst b. split; [done|]. split; [done|]. intros; lia.
  - destruct mask as [|mrow mask]; [simpl in *; lia|].
    apply Forall_cons in Hmask as [Hmrow Hmask]. simpl in Hb, Hbm.
    destruct (IH (length output) mask eq_refl ltac:(lia) Hmask)
      as (values & Hvalues & [Hlv Hsv] & Hspec).
    destruct (splade_max_sequence L V o mrow HL Ho Hmrow) as (vrow & Hvrow & Hlen & Hrow).
    exists (vrow :: values). split; [|split].
    + unfold BaseTrainer.splade_max, torch.max_dim1, torch.mul_unsqueeze, torch.log1p_relu
        in Hvalues |- *.
      cbn [map zip_with mapM]. rewrite Hvrow. cbn [mbind option_bind].
      rewrite Hvalues. done.
    + split; [simpl; lia | by constructor].
    + intros [|i] j Hi Hj.
      * apply (Hrow j Hj).
      * apply (Hspec i j); [lia | done].
Qed.

(** X21.  On an output of shape (b, L, V) and an attention mask of shape
    (b, L), with at least one token ([L > 0]), [splade_max] returns a tensor
    of shape (b, V) whose entry (i, j) is the largest, over the tokens [l]
    of sequence [i], of [log(1 + relu(output[i][l][j])) * mask[i][l]]: it is
    the value at some token and no token has a larger one. *)
Theorem splade_max_is_maximum_over_tokens
    (b L V : nat) (output : torch.T3) (attention_mask : torch.T2) :
  (0 < L)%nat → shape3 b L V output → shape2 b L attention_mask →
  ∃ values,
    BaseTrainer.splade_max output attention_mask = Some values
    ∧ shape2 b V values
    ∧ ∀ i j, (i < b)%nat → (j < V)%nat →
        (∃ l, (l < L)%nat
              ∧ nth j (nth i values []) 0 = activation output attention_mask i l j)
        ∧ ∀ l, (l < L)%nat →
               activation output attention_mask i l j <= nth j (nth i values []) 0.
Proof. apply splade_max_spec. Qed.

Lemma splade_max_is_maximum_over_tokens_witness :
  ∃ values,
    BaseTrainer.splade_max [[[1; -2]; [0; 3]; [5; 5]]] [[1; 1; 0]] = Some values
    ∧ shape2 1 2 values.
Proof.
  destruct (splade_max_is_maximum_over_tokens 1 3 2 [[[1; -2]; [0; 3]; [5; 5]]] [[1; 1; 0]])
    as (values & Hv & Hs & _); [lia | shape_of_sample | shape_of_sample |].
  by exists values.
Defined.

Lemma nth_nonneg_mask b L (mask : torch.T2) i l :
  shape2 b L mask → Forall (Forall (λ m, 0 <= m)) mask →
  (i < b)%nat → (l < L)%nat → 0 <= nth l (nth i mask []) 0.
Proof.
  intros [Hlen Hrows] Hpos Hi Hl.
  rewrite (Forall_nth _ []) in Hrows. rewrite (Forall_nth _ []) in Hpos.
  specialize (Hrows i ltac:(lia)). specialize (Hpos i ltac:(lia)). simpl in *.
  rewrite (Forall_nth _ 0) in Hpos. apply Hpos. lia.
Qed.

(** X22.  With an attention mask whose entries are not negative, no entry of
    what [splade_max] returns is negative; the entry (i, j) is zero when
    every token of sequence [i] is masked out or has an output that is not
    positive on the vocabulary entry [j], so that a positive entry comes
    from a token that is not masked out and whose output is positive. *)
Theorem splade_max_zero_without_active_token
    (b L V : nat) (output : torch.T3) (attention_mask : torch.T2) :
  (0 < L)%nat → shape3 b L V output → shape2 b L attention_mask →
  Forall (Forall (λ m, 0 <= m)) attention_mask →
  ∃ values,
    BaseTrainer.splade_max output attention_mask = Some values
    ∧ ∀ i j, (i < b)%nat → (j < V)%nat →
        0 <= nth j (nth i values []) 0
        ∧ ((∀ l, (l < L)%nat →
                 nth l (nth i attention_mask []) 0 = 0
                 ∨ nth j (nth l (nth i output []) []) 0 <= 0) →
           nth j (nth i values []) 0 = 0)
        ∧ (0 < nth j (nth i values []) 0 →
           ∃ l, (l < L)%nat
                ∧ 0 < nth l (nth i attention_mask []) 0
                ∧ 0 < nth j (nth l (nth i output []) []) 0).
Proof.
  intros HL Hout Hmask Hpos.
  destruct (splade_max_spec b L V output attention_mask HL Hout Hmask)
    as (values & Hvalues & _ & Hspec).
  exists values. split; [done|]. intros i j Hi Hj.
  destruct (Hspec i j Hi Hj) as [(l0 & Hl0 & Heq) Hall].
  assert (∀ l, (l < L)%nat → 0 <= activation output attention_mask i l j) as Hact.
  { intros l Hl. unfold activation. apply Rmult_le_pos; [apply log1p_relu_nonneg|].
    by apply (nth_nonneg_mask b L). }
  split; [rewrite Heq; by apply Hact|]. split.
  - intros Hno. rewrite Heq. unfold activation.
    destruct (Hno l0 Hl0) as [-> | Hx]; [lra|].
    apply log1p_relu_zero_iff in Hx. rewrite Hx. lra.
  - intros Hgt. exists l0. split; [done|]. rewrite Heq in Hgt. unfold activation in Hgt.
    pose proof (nth_nonneg_mask b L attention_mask i l0 Hmask Hpos Hi Hl0) as Hm.
    split.
    + destruct Hm as [Hm | Hm]; [done|]. rewrite <- Hm in Hgt. lra.
    + destruct (Rle_or_lt (nth j (nth l0 (nth i output []) []) 0) 0) as [Hx | Hx]; [|done].
      apply log1p_relu_zero_iff in Hx. rewrite Hx in Hgt. lra.
Qed.

Lemma splade_max_zero_without_active_token_witness :
  ∃ values,
    BaseTrainer.splade_max [[[1; -2]; [0; -3]; [5; 5]]] [[1; 1; 0]] = Some values
    ∧ nth 1 (nth 0 values []) 0 = 0.
Proof.
  destruct (splade_max_zero_without_active_token 1 3 2
              [[[1; -2]; [0; -3]; [5; 5]]] [[1; 1; 0]])
    as (values & Hv & Hspec);
    [lia | shape_of_sample | shape_of_sample | repeat constructor; lra |].
  exists values. split; [exact Hv|].
  destruct (Hspec 0%nat 1%nat) as (_ & Hzero & _); [lia | lia |].
  apply Hzero. intros [|[|[|l]]] Hl; simpl; [right; lra | right; lra | left; lra | lia].
Defined.

Lemma tensor2_ext b V (t t' : torch.T2) :
  shape2 b V t → shape2 b V t' →
  (∀ i j, (i < b)%nat → (j < V)%nat → nth j (nth i t []) 0 = nth j (nth i t' []) 0) →
  t = t'.
Proof.
  intros [Hlen Hrows] [Hlen' Hrows'] Hext.
  apply (nth_ext _ _ [] []); [lia|]. intros i Hi.
  rewrite (Forall_nth _ []) in Hrows. rewrite (Forall_nth _ []) in Hrows'.
  specialize (Hrows i ltac:(lia)). specialize (Hrows' i ltac:(lia)). simpl in *.
  apply (nth_ext _ _ 0 0); [lia|]. intros j Hj. apply Hext; lia.
Qed.

(** X23.  [splade_max] ignores the padding: two outputs that agree on every
    token whose mask entry is not zero give the same result. *)
Theorem splade_max_ignores_masked_tokens
    (b L V : nat) (output output' : torch.T3) (attention_mask : torch.T2) :
  (0 < L)%nat → shape3 b L V output → shape3 b L V output' → shape2 b L attention_mask →
  (∀ i l j, (i < b)%nat → (l < L)%nat → (j < V)%nat →
            nth l (nth i attention_mask []) 0 ≠ 0 →
            nth j (nth l (nth i output []) []) 0 = nth j (nth l (nth i output' []) []) 0) →
  BaseTrainer.splade_max output attention_mask
  = BaseTrainer.splade_max output' attention_mask.
Proof.
  intros HL Hout Hout' Hmask Hagree.
  destruct (splade_max_spec b L V output attention_mask HL Hout Hmask)
    as (values & Hvalues & Hshape & Hspec).
  destruct (splade_max_spec b L V output' attention_mask HL Hout' Hmask)
    as (values' & Hvalues' & Hshape' & Hspec').
  rewrite Hvalues, Hvalues'. f_equal. apply (tensor2_ext b V); [done..|].
  intros i j Hi Hj.
  assert (∀ l, (l < L)%nat → activation output attention_mask i l j
                             = activation output' attention_mask i l j) as Hact.
  { intros l Hl. unfold activation.
    destruct (Req_dec_T (nth l (nth i attention_mask []) 0) 0) as [-> | Hne]; [lra|].
    by rewrite (Hagree i l j). }
  destruct (Hspec i j Hi Hj) as [(l0 & Hl0 & Heq) Hall].
  destruct (Hspec' i j Hi Hj) as [(l0' & Hl0' & Heq') Hall'].
  pose proof (Hall l0' Hl0') as H1. pose proof (Hall' l0 Hl0) as H2.
  rewrite (Hact l0' Hl0'), <- Heq' in H1. rewrite <- (Hact l0 Hl0), <- Heq in H2. lra.
Qed.

Lemma splade_max_ignores_masked_tokens_witness :
  BaseTrainer.splade_max [[[1; -2]; [0; 3]; [5; 5]]] [[1; 1; 0]]
  = BaseTrainer.splade_max [[[1; -2]; [0; 3]; [-7; 9]]] [[1; 1; 0]].
Proof.
  apply (splade_max_ignores_masked_tokens 1 3 2);
    [lia | shape_of_sample | shape_of_sample | shape_of_sample |].
  intros [|[|]] [|[|[|]]] [|[|[|]]] Hi Hl Hj; simpl; intros Hm; try lia; try done.
Defined.

(** ** The loss of [RerankerTrainer2] on a well-formed batch *)

(** X24.  On a batch of [b > 0] queries whose logits and teacher scores have
    one entry per candidate, [RerankerTrainer2.compute_loss] returns: the
    contrastive and the distillation terms are finite and not negative, they
    are what it leaves in [last_celoss] and [last_distilloss], the loss is
    0.1 times the first plus 0.9 times the second, and "scores" is removed
    from the caller's batch. *)
Theorem reranker2_loss_on_well_formed_batch
    (b : nat) (self : RerankerTrainer2.t) (model : batch → RerankerTrainer.output)
    (inputs : batch) (ts : torch.T1) (ro : bool) :
  (0 < b)%nat →
  inputs !! "scores" = Some ts →
  length (RerankerTrainer.logits (model (delete "scores" inputs)))
  = (b * (RerankerTrainer2.n_negatives self + 1))%nat →
  length ts = (b * (RerankerTrainer2.n_negatives self + 1))%nat →
  (RerankerTrainer2.mse_margin self = true → (0 < RerankerTrainer2.n_negatives self)%nat) →
  ∃ r ce dl,
    RerankerTrainer2.compute_loss model ro (self, inputs)
    = (Ok r, (RerankerTrainer2.set_last_distilloss (Some dl)
                (RerankerTrainer2.set_last_celoss (Some ce) self),
              delete "scores" inputs))
    ∧ 0 <= ce ∧ 0 <= dl
    ∧ returned_loss r = Some (0.1 * ce + 0.9 * dl).
Proof.
  intros Hb Hs Hlen Hts Hmse.
  set (n := RerankerTrainer2.n_negatives self) in *.
  set (flat := torch.column 0 (RerankerTrainer.logits (model (delete "scores" inputs)))).
  assert (length flat = (b * (n + 1))%nat) as Hflat
    by (unfold flat, torch.column; by rewrite length_map).
  pose proof (view_rows_ok (n + 1) flat b ltac:(lia) Hflat) as Hview.
  pose proof (shape2_chunks b (n + 1) flat Hflat) as Hshape.
  destruct (Reranker2_distillation_nonneg b n self (torch.chunks b (n + 1) flat) ts)
    as (dl & Hdl & Hdlpos); [done | by rewrite <- Nat.add_1_r | by rewrite <- Nat.add_1_r
                            | done |].
  destruct (mean_ce_nonneg (torch.chunks b (n + 1) flat)) as (ce & Hce & Hcepos).
  { by rewrite length_chunks. }
  { apply chunks_nonempty_rows; [lia | done]. }
  pose proof (Reranker2_run model ro self inputs ts _ _ Hs Hview Hdl) as Hrun.
  simpl in Hrun.
  rewrite CrossEntropyLoss_label0 in Hrun by (apply chunks_nonempty_rows; [lia | done]).
  rewrite Hce in Hrun.
  eexists _, ce, dl. split; [exact Hrun|]. split; [done|]. split; [done|].
  by destruct ro.
Qed.

Lemma reranker2_loss_on_well_formed_batch_witness :
  ∃ r ce dl,
    RerankerTrainer2.compute_loss (sample.cross_model [[5]; [1]; [3]; [4]]) false
      (sample.reranker2 1 true, {["scores" := [7; 2; 1; 1]]})
    = (Ok r, (RerankerTrainer2.set_last_distilloss (Some dl)
                (RerankerTrainer2.set_last_celoss (Some ce) (sample.reranker2 1 true)),
              delete "scores" {["scores" := [7; 2; 1; 1]]}))
    ∧ 0 <= ce ∧ 0 <= dl
    ∧ returned_loss r = Some (0.1 * ce + 0.9 * dl).
Proof.
  apply (reranker2_loss_on_well_formed_batch 2 _ _ _ [7; 2; 1; 1]);
    [lia | apply lookup_singleton_eq | reflexivity | reflexivity | simpl; lia].
Defined.

(** ** The model never sees the teacher scores *)

(** X25.  [RerankerTrainer2.compute_loss], [DistilTrainer.compute_loss] and
    [FirstStageTrainer.compute_loss] call the model on a batch that has no
    "scores": two models that agree on every batch without "scores" give the
    same result, the same trainer and the same batch. *)
Theorem model_never_sees_teacher_scores
    (r2_model r2_model' : batch → RerankerTrainer.output)
    (dual_model dual_model' : batch → dual_output) (ro : bool)
    (r2_self : RerankerTrainer2.t) (ds_self : DistilTrainer.t)
    (fs_self : FirstStageTrainer.t) (inputs : batch) :
  (∀ b : batch, b !! "scores" = None → r2_model b = r2_model' b) →
  (∀ b : batch, b !! "scores" = None → dual_model b = dual_model' b) →
  RerankerTrainer2.compute_loss r2_model ro (r2_self, inputs)
  = RerankerTrainer2.compute_loss r2_model' ro (r2_self, inputs)
  ∧ DistilTrainer.compute_loss dual_model ro (ds_self, inputs)
    = DistilTrainer.compute_loss dual_model' ro (ds_self, inputs)
  ∧ FirstStageTrainer.compute_loss dual_model ro (fs_self, inputs)
    = FirstStageTrainer.compute_loss dual_model' ro (fs_self, inputs).
Proof.
  intros Hr2 Hdual.
  pose proof (Hr2 (delete "scores" inputs) (lookup_delete_eq _ _)) as Hr2'.
  pose proof (Hdual (delete "scores" inputs) (lookup_delete_eq _ _)) as Hdual'.
  split; [|split].
  - unfold RerankerTrainer2.compute_loss. run_monad.
    destruct (inputs !! "scores") as [ts|] eqn:Hs; repeat (rewrite ?Hs; simpl); [|done].
    by rewrite Hr2'.
  - unfold DistilTrainer.compute_loss. run_monad.
    destruct (inputs !! "scores") as [ts|] eqn:Hs; repeat (rewrite ?Hs; simpl); [|done].
    by rewrite Hdual'.
  - unfold FirstStageTrainer.compute_loss. run_monad.
    destruct (inputs !! "scores") as [ts|] eqn:Hs; repeat (rewrite ?Hs; simpl).
    + by rewrite Hdual'.
    + by rewrite (Hdual inputs Hs).
Qed.

Lemma model_never_sees_teacher_scores_witness :
  RerankerTrainer2.compute_loss sample_log.cross_model false
    (sample.reranker2 1 true, sample_log.batch1)
  = RerankerTrainer2.compute_loss (λ b, sample_log.cross_model (delete "scores" b)) false
      (sample.reranker2 1 true, sample_log.batch1).
Proof.
  destruct (model_never_sees_teacher_scores
              sample_log.cross_model (λ b, sample_log.cross_model (delete "scores" b))
              (sample.dual_model sample.queries sample.docs)
              (sample.dual_model sample.queries sample.docs) false
              (sample.reranker2 1 true) (sample.distil true false false)
              (sample.first_stage false false) sample_log.batch1) as [H _].
  - intros b Hb. by rewrite delete_id.
  - reflexivity.
  - exact H.
Defined.
